(** * TcpSocketMCP: the hex codec of the server and the TCP connection engine

    A shallow embedding of
      - [TCPSocketServer._parse_hex_string] and the hex formatting of
        [_handle_read_buffer] (src/TcpSocketMCP/server.py), and
      - [TCPConnection] (tcp_socket_mcp/connection.py),
    together with the properties of the specification that concern them.

    Conventions.  A Python [str] is a [string]: a sequence of characters
    whose code points are below 256, the character [c] standing for the code
    point [N_of_ascii c].  A Python [bytes] is a [list byte].  A Python [int]
    is a [Z].  A call that may raise returns a [result]. *)

From Stdlib Require Import ZArith NArith List Bool Lia.
From Stdlib.Strings Require Import String Ascii Byte.
From Stdlib Require Import DecimalString.
Import ListNotations.

Local Open Scope string_scope.
Local Open Scope list_scope.
Local Open Scope Z_scope.

(* ===================================================================== *)
(** ** Results of calls that may raise *)

Inductive exn : Type :=
| ValueError
| ReError.

Inductive result (A : Type) : Type :=
| Ok (a : A)
| Raise (e : exn).

Arguments Ok {A} a.
Arguments Raise {A} e.

Definition bind {A B : Type} (r : result A) (k : A -> result B) : result B :=
  match r with
  | Ok a => k a
  | Raise e => Raise e
  end.

Notation "x <- r ;; k" := (bind r (fun x => k))
  (at level 61, r at next level, right associativity).

Definition bytes : Type := list byte.

(* ===================================================================== *)
(** ** The Python built-ins the code calls *)

Module Py.

(** Characters that have no printable notation. *)
Definition NUL : ascii := ascii_of_N 0.
Definition LF : ascii := ascii_of_N 10.
Definition CR : ascii := ascii_of_N 13.

Definition str1 (c : ascii) : string := String c EmptyString.

(** [_PyLong_DigitValue] restricted to base 16. *)
Definition digit_value (c : ascii) : option Z :=
  let n := Z.of_N (N_of_ascii c) in
  if (48 <=? n) && (n <=? 57) then Some (n - 48)
  else if (97 <=? n) && (n <=? 102) then Some (n - 87)
  else if (65 <=? n) && (n <=? 70) then Some (n - 55)
  else None.

Definition is_hex_digit (c : ascii) : bool :=
  match digit_value c with Some _ => true | None => false end.

(** [Py_ISSPACE]: the six ASCII white-space characters. *)
Definition is_ascii_space (c : ascii) : bool :=
  let n := Z.of_N (N_of_ascii c) in
  ((9 <=? n) && (n <=? 13)) || (n =? 32).

(** [Py_UNICODE_ISSPACE] on the code points below 256. *)
Definition is_unicode_space (c : ascii) : bool :=
  let n := Z.of_N (N_of_ascii c) in
  ((9 <=? n) && (n <=? 13)) || ((28 <=? n) && (n <=? 32))
  || (n =? 133) || (n =? 160).

(** [old in s]. *)
Fixpoint str_in (old s : string) : bool :=
  prefix old s
  || match s with
     | EmptyString => false
     | String _ t => str_in old t
     end.

(** [s.replace(old, new)] for a non-empty [old]: the occurrences of [old]
    are found from left to right and do not overlap.  [skip] counts the
    characters of the occurrence under replacement that are still to be
    passed over. *)
Fixpoint replace_from (old new : string) (skip : nat) (s : string) : string :=
  match s with
  | EmptyString => EmptyString
  | String c t =>
      match skip with
      | S k => replace_from old new k t
      | O =>
          if prefix old s
          then String.append new (replace_from old new (String.length old - 1) t)
          else String c (replace_from old new 0 t)
      end
  end.

Definition str_replace (old new s : string) : string :=
  replace_from old new 0 s.

(** [c * n] for a one-character string. *)
Fixpoint str_repeat (c : ascii) (n : nat) : string :=
  match n with
  | O => EmptyString
  | S k => String c (str_repeat c k)
  end.

(** [s.encode("utf-8")]: one byte below 128, two bytes from 128 to 255. *)
Definition utf8_char (c : ascii) : bytes :=
  let n := N_of_ascii c in
  if (n <? 128)%N then [byte_of_ascii c]
  else [byte_of_ascii (ascii_of_N (192 + n / 64));
        byte_of_ascii (ascii_of_N (128 + n mod 64))].

Fixpoint str_encode_utf8 (s : string) : bytes :=
  match s with
  | EmptyString => []
  | String c t => utf8_char c ++ str_encode_utf8 t
  end.

(** [bytearray.append(v)]: [v] must be in [range(0, 256)]. *)
Definition bytearray_append (buf : bytes) (v : Z) : result bytes :=
  if (0 <=? v) && (v <? 256)
  then match Byte.of_N (Z.to_N v) with
       | Some b => Ok (buf ++ [b])
       | None => Raise ValueError
       end
  else Raise ValueError.

(** [bytes.fromhex(s)] (Python 3.7 and later): white space is skipped in
    front of a pair of hex digits, never inside one; anything else, a
    character above 127 included, is a [ValueError]. *)
Fixpoint bytes_fromhex (s : string) : result bytes :=
  match s with
  | EmptyString => Ok []
  | String c t =>
      if is_ascii_space c then bytes_fromhex t
      else
        match digit_value c, t with
        | Some top, String d t' =>
            match digit_value d with
            | Some bot =>
                rest <- bytes_fromhex t' ;;
                match Byte.of_N (Z.to_N (16 * top + bot)) with
                | Some b => Ok (b :: rest)
                | None => Raise ValueError
                end
            | None => Raise ValueError
            end
        | _, _ => Raise ValueError
        end
  end.

(** [b.hex()]: two lowercase hex digits per byte. *)
Definition hex_digit (n : N) : ascii :=
  if (n <? 10)%N then ascii_of_N (48 + n) else ascii_of_N (87 + n).

Definition byte_hex (b : byte) : string :=
  let n := Byte.to_N b in
  String (hex_digit (n / 16)) (String (hex_digit (n mod 16)) EmptyString).

Fixpoint bytes_hex (b : bytes) : string :=
  match b with
  | [] => EmptyString
  | x :: t => String.append (byte_hex x) (bytes_hex t)
  end.

(** [int(s, 16)].  [PyLong_FromUnicodeObject] first maps the text to ASCII
    ([transform]: a non-ASCII space becomes a blank, any other character
    from 127 up a question mark; the code points below 256 hold no
    non-ASCII decimal digit).  [PyLong_FromString] then skips leading
    white space, a sign, the base prefix and one underscore after it,
    reads the digits ([long_from_binary_base]: single underscores between
    digits), skips trailing white space and demands the end of the text. *)
Definition transform_char (c : ascii) : ascii :=
  if (N_of_ascii c <? 127)%N then c
  else if is_unicode_space c then " "%char
  else "?"%char.

Fixpoint all_ascii (s : string) : bool :=
  match s with
  | EmptyString => true
  | String c t => (N_of_ascii c <? 128)%N && all_ascii t
  end.

Fixpoint str_map (f : ascii -> ascii) (s : string) : string :=
  match s with
  | EmptyString => EmptyString
  | String c t => String (f c) (str_map f t)
  end.

Definition transform (s : string) : string :=
  if all_ascii s then s else str_map transform_char s.

Fixpoint skip_spaces (s : string) : string :=
  match s with
  | String c t => if is_ascii_space c then skip_spaces t else s
  | EmptyString => s
  end.

Fixpoint long_from_binary_base (prev_underscore : bool) (acc : Z)
    (digits : nat) (s : string) : option (Z * nat * string) :=
  match s with
  | String c t =>
      if (c =? "_")%char
      then if prev_underscore then None
           else long_from_binary_base true acc digits t
      else
        match digit_value c with
        | Some d => long_from_binary_base false (16 * acc + d) (S digits) t
        | None => if prev_underscore then None else Some (acc, digits, s)
        end
  | EmptyString => if prev_underscore then None else Some (acc, digits, s)
  end.

Definition skip_sign (s : string) : Z * string :=
  match s with
  | String c t =>
      if (c =? "+")%char then (1, t)
      else if (c =? "-")%char then (-1, t)
      else (1, s)
  | EmptyString => (1, s)
  end.

Definition skip_prefix16 (s : string) : string :=
  match s with
  | String c0 (String c1 t) =>
      if (c0 =? "0")%char && ((c1 =? "x")%char || (c1 =? "X")%char)
      then match t with
           | String c2 t' => if (c2 =? "_")%char then t' else t
           | EmptyString => t
           end
      else s
  | _ => s
  end.

Definition int16 (s : string) : result Z :=
  let s0 := skip_spaces (transform s) in
  let '(sign, s1) := skip_sign s0 in
  let s2 := skip_prefix16 s1 in
  if prefix "_" s2 then Raise ValueError
  else
    match long_from_binary_base false 0 0 s2 with
    | Some (v, digits, rest) =>
        match digits, skip_spaces rest with
        | S _, EmptyString => Ok (sign * v)
        | _, _ => Raise ValueError
        end
    | None => Raise ValueError
    end.

(** [l[start:stop]] with step 1: a negative bound counts from the end, and
    both bounds are clamped to the list ([PySlice_AdjustIndices]). *)
Definition adjust_index (len i : Z) : Z :=
  if i <? 0 then Z.max (i + len) 0 else Z.min i len.

Definition slice {A : Type} (l : list A) (start stop : option Z) : list A :=
  let len := Z.of_nat (List.length l) in
  let lo := match start with Some i => adjust_index len i | None => 0 end in
  let hi := match stop with Some j => adjust_index len j | None => len end in
  firstn (Z.to_nat (hi - lo)) (skipn (Z.to_nat lo) l).

(** [len(b)] and [sum(len(chunk) for chunk in chunks)]. *)
Definition len {A : Type} (l : list A) : Z := Z.of_nat (List.length l).

Fixpoint sum_len (chunks : list bytes) : Z :=
  match chunks with
  | [] => 0
  | chunk :: r => len chunk + sum_len r
  end.

End Py.

(* ===================================================================== *)
(** ** The regular expression of the hex parser

    [_parse_hex_string] uses one pattern, [\\x([0-9a-fA-F]{2})]: a
    backslash, an [x] and two hex digits.  [re] finds its occurrences from
    left to right, without overlap; [scan] lists what it meets on the way:
    the occurrences and the characters between them. *)

Module Re.

Inductive token : Type :=
| Esc (d1 d2 : ascii)      (* an occurrence of the pattern, with its group *)
| Lit (c : ascii).         (* a character outside every occurrence *)

Definition matches_at (s : string) : option (ascii * ascii) :=
  match s with
  | String c0 (String c1 (String d1 (String d2 _))) =>
      if (c0 =? "\")%char && (c1 =? "x")%char
         && Py.is_hex_digit d1 && Py.is_hex_digit d2
      then Some (d1, d2)
      else None
  | _ => None
  end.

(** [skip] counts the characters of the current occurrence still to pass. *)
Fixpoint scan_from (skip : nat) (s : string) : list token :=
  match s with
  | EmptyString => []
  | String c t =>
      match skip with
      | S k => scan_from k t
      | O =>
          match matches_at s with
          | Some (d1, d2) => Esc d1 d2 :: scan_from 3 t
          | None => Lit c :: scan_from 0 t
          end
      end
  end.

Definition scan (s : string) : list token := scan_from 0 s.

Definition group (d1 d2 : ascii) : string := String d1 (String d2 EmptyString).

Definition whole (d1 d2 : ascii) : string :=
  String "\" (String "x" (group d1 d2)).

(** [re.findall(pattern, s)]: the pattern has one group, so the result is
    the list of the groups. *)
Fixpoint findall_tokens (ts : list token) : list string :=
  match ts with
  | [] => []
  | Esc d1 d2 :: r => group d1 d2 :: findall_tokens r
  | Lit _ :: r => findall_tokens r
  end.

Definition findall (s : string) : list string := findall_tokens (scan s).

(** [re.sub(pattern, repl, s)] for a replacement without group
    references. *)
Fixpoint sub_tokens (repl : string) (ts : list token) : string :=
  match ts with
  | [] => EmptyString
  | Esc _ _ :: r => String.append repl (sub_tokens repl r)
  | Lit c :: r => String c (sub_tokens repl r)
  end.

Definition sub (repl s : string) : string := sub_tokens repl (scan s).

(** [re.split] with the whole pattern in a group: the text between the
    occurrences and the occurrences themselves, in turn.  [cur] is the
    text since the last occurrence. *)
Fixpoint split_tokens (cur : string) (ts : list token) : list string :=
  match ts with
  | [] => [cur]
  | Esc d1 d2 :: r => cur :: whole d1 d2 :: split_tokens EmptyString r
  | Lit c :: r => split_tokens (String.append cur (Py.str1 c)) r
  end.

Definition split (s : string) : list string :=
  split_tokens EmptyString (scan s).

(** The parts of a split that are text between occurrences: the first,
    the third, and so on. *)
Fixpoint literal_parts (parts : list string) : list string :=
  match parts with
  | lit :: _ :: r => lit :: literal_parts r
  | _ => parts
  end.

End Re.

(* ===================================================================== *)
(** ** The hex codec of the server *)

Module Server.

(** The text after the first two characters: [part[2:]]. *)
Definition drop2 (s : string) : string :=
  match s with
  | String _ (String _ t) => t
  | _ => EmptyString
  end.

(** The first loop of the escape branch:
    [for hex_val in matches: hex_bytes.append(int(hex_val, 16))]. *)
Fixpoint append_matches (hex_bytes : bytes) (matches : list string)
    : result bytes :=
  match matches with
  | [] => Ok hex_bytes
  | hex_val :: r =>
      v <- Py.int16 hex_val ;;
      hex_bytes' <- Py.bytearray_append hex_bytes v ;;
      append_matches hex_bytes' r
  end.

(** The test of the second loop for a part that is an escape:
    [part.startswith('\\x') and len(part) == 4]. *)
Definition taken_for_escape (part : string) : bool :=
  prefix "\x" part && (String.length part =? 4)%nat.

(** The second loop of the escape branch, over the parts of the split. *)
Fixpoint append_parts (hex_bytes : bytes) (parts : list string)
    : result bytes :=
  match parts with
  | [] => Ok hex_bytes
  | part :: r =>
      if taken_for_escape part
      then
        v <- Py.int16 (drop2 part) ;;
        hex_bytes' <- Py.bytearray_append hex_bytes v ;;
        append_parts hex_bytes' r
      else
        match part with
        | EmptyString => append_parts hex_bytes r
        | _ => append_parts (hex_bytes ++ Py.str_encode_utf8 part) r
        end
  end.

(** The first statement of [_parse_hex_string]: the text without hex
    prefixes, blanks and line ends. *)
Definition clean (hex_str : string) : string :=
  Py.str_replace (Py.str1 Py.CR) EmptyString
    (Py.str_replace (Py.str1 Py.LF) EmptyString
      (Py.str_replace " " EmptyString
        (Py.str_replace "0X" EmptyString
          (Py.str_replace "0x" EmptyString hex_str)))).

(** [TCPSocketServer._parse_hex_string]. *)
Definition parse_hex_string (hex_str : string) : result bytes :=
  let clean_hex := clean hex_str in
  if Py.str_in "\x" hex_str then
    let matches := Re.findall hex_str in
    hex_bytes <- append_matches [] matches ;;
    let remaining := Re.sub (Py.str1 Py.NUL) hex_str in
    if negb (remaining =? EmptyString)%string
       && negb (remaining =? Py.str_repeat Py.NUL (List.length matches))%string
    then append_parts [] (Re.split hex_str)
    else Ok hex_bytes
  else
    match Py.bytes_fromhex clean_hex with
    | Ok b => Ok b
    | Raise ValueError => Ok (Py.str_encode_utf8 hex_str)
    | Raise e => Raise e
    end.

(** The hex format of [_handle_read_buffer]: [chunk.hex()]. *)
Definition encode_hex (chunk : bytes) : string := Py.bytes_hex chunk.

(** The name the specification gives to [_parse_hex_string]. *)
Definition decode_hex (s : string) : result bytes := parse_hex_string s.

End Server.

(* ===================================================================== *)
(** ** The TCP connection *)

Module Connection.

(** How one [writer.write(data)] followed by [await writer.drain()] ends. *)
Inductive write_outcome : Type :=
| WriteOk
| WriteRaises          (* [write] raises: nothing is handed to the transport *)
| DrainRaises.         (* [write] accepts the data, [drain] raises *)

(** The [asyncio.StreamWriter] of the connection: what it has accepted so
    far, and how its coming calls end (a call beyond the list succeeds). *)
Record StreamWriter : Type := mkWriter {
  written : list bytes;
  outcomes : list write_outcome
}.

(** How one [await reader.read(4096)] ends; [ReadData []] is the end of
    the stream. *)
Inductive read_outcome : Type :=
| ReadData (data : bytes)
| ReadCancelled
| ReadRaises.

(** How [asyncio.open_connection] ends. *)
Inductive connect_outcome : Type :=
| Established (w : StreamWriter)
| Refused.

(** The dictionary [triggers]: pattern -> (trigger_id, response), in
    insertion order. *)
Definition trigger_entry : Type := (string * (string * bytes))%type.

(** The fields of a [TCPConnection] that its operations read or write.
    [created_at], the handle of the read task and the lock are left out:
    asyncio runs one operation at a time, and none of the operations below
    suspends between the fields it updates together. *)
Record TCPConnection : Type := mkConnection {
  connection_id : string;
  host : string;
  port : Z;
  reader : bool;                       (* [self.reader] is not [None] *)
  writer : option StreamWriter;
  buffer : list bytes;
  triggers : list trigger_entry;
  connected : bool;
  bytes_sent : Z;
  bytes_received : Z
}.

(** [TCPConnection.__init__]. *)
Definition new (connection_id host : string) (port : Z) : TCPConnection :=
  {| connection_id := connection_id; host := host; port := port;
     reader := false; writer := None; buffer := []; triggers := [];
     connected := false; bytes_sent := 0; bytes_received := 0 |}.

Definition set_connected (b : bool) (c : TCPConnection) : TCPConnection :=
  {| connection_id := connection_id c; host := host c; port := port c;
     reader := reader c; writer := writer c; buffer := buffer c;
     triggers := triggers c; connected := b;
     bytes_sent := bytes_sent c; bytes_received := bytes_received c |}.

Definition set_streams (r : bool) (w : option StreamWriter)
    (c : TCPConnection) : TCPConnection :=
  {| connection_id := connection_id c; host := host c; port := port c;
     reader := r; writer := w; buffer := buffer c;
     triggers := triggers c; connected := connected c;
     bytes_sent := bytes_sent c; bytes_received := bytes_received c |}.

Definition set_buffer (b : list bytes) (c : TCPConnection) : TCPConnection :=
  {| connection_id := connection_id c; host := host c; port := port c;
     reader := reader c; writer := writer c; buffer := b;
     triggers := triggers c; connected := connected c;
     bytes_sent := bytes_sent c; bytes_received := bytes_received c |}.

Definition set_triggers (t : list trigger_entry) (c : TCPConnection)
    : TCPConnection :=
  {| connection_id := connection_id c; host := host c; port := port c;
     reader := reader c; writer := writer c; buffer := buffer c;
     triggers := t; connected := connected c;
     bytes_sent := bytes_sent c; bytes_received := bytes_received c |}.

Definition set_bytes_sent (n : Z) (c : TCPConnection) : TCPConnection :=
  {| connection_id := connection_id c; host := host c; port := port c;
     reader := reader c; writer := writer c; buffer := buffer c;
     triggers := triggers c; connected := connected c;
     bytes_sent := n; bytes_received := bytes_received c |}.

Definition set_bytes_received (n : Z) (c : TCPConnection) : TCPConnection :=
  {| connection_id := connection_id c; host := host c; port := port c;
     reader := reader c; writer := writer c; buffer := buffer c;
     triggers := triggers c; connected := connected c;
     bytes_sent := bytes_sent c; bytes_received := n |}.

(** [connect]. *)
Definition connect (o : connect_outcome) (c : TCPConnection)
    : bool * TCPConnection :=
  match o with
  | Established w => (true, set_connected true (set_streams true (Some w) c))
  | Refused => (false, set_connected false c)
  end.

(** [disconnect]: the read task is cancelled and the writer closed; an
    error of the close is logged and dropped. *)
Definition disconnect (c : TCPConnection) : TCPConnection :=
  set_streams false None (set_connected false c).

(** The next outcome of the writer, and the writer after the call. *)
Definition next_outcome (w : StreamWriter) : write_outcome :=
  match outcomes w with
  | o :: _ => o
  | [] => WriteOk
  end.

Definition write_and_drain (w : StreamWriter) (data : bytes) : StreamWriter :=
  {| written := match next_outcome w with
                | WriteRaises => written w
                | _ => written w ++ [data]
                end;
     outcomes := tl (outcomes w) |}.

(** [send]. *)
Definition send (c : TCPConnection) (data : bytes) : bool * TCPConnection :=
  if negb (connected c) then (false, c)
  else
    match writer c with
    | None => (false, c)
    | Some w =>
        let c1 := set_streams (reader c) (Some (write_and_drain w data)) c in
        match next_outcome w with
        | WriteOk => (true, set_bytes_sent (bytes_sent c + Py.len data) c1)
        | _ => (false, set_connected false c1)
        end
    end.

(** [read_buffer]. *)
Definition read_buffer (c : TCPConnection) (index count : option Z)
    : list bytes :=
  match index, count with
  | None, _ => buffer c
  | Some index, None =>
      if index <? Py.len (buffer c)
      then Py.slice (buffer c) (Some index) None
      else []
  | Some index, Some count =>
      let end_index := Z.min (index + count) (Py.len (buffer c)) in
      if index <? Py.len (buffer c)
      then Py.slice (buffer c) (Some index) (Some end_index)
      else []
  end.

(** [clear_buffer]. *)
Definition clear_buffer (c : TCPConnection) : TCPConnection :=
  set_buffer [] c.

(** [get_buffer_info]. *)
Record BufferInfo : Type := mkInfo {
  info_connection_id : string;
  chunks : Z;
  total_bytes : Z;
  info_bytes_sent : Z;
  info_bytes_received : Z;
  info_connected : bool
}.

Definition get_buffer_info (c : TCPConnection) : BufferInfo :=
  {| info_connection_id := connection_id c;
     chunks := Py.len (buffer c);
     total_bytes := Py.sum_len (buffer c);
     info_bytes_sent := bytes_sent c;
     info_bytes_received := bytes_received c;
     info_connected := connected c |}.

(** [d[k] = v]: a present key keeps its place, a new one goes last. *)
Fixpoint dict_set (d : list trigger_entry) (k : string) (v : string * bytes)
    : list trigger_entry :=
  match d with
  | [] => [(k, v)]
  | (k', v') :: r =>
      if (k' =? k)%string then (k, v) :: r else (k', v') :: dict_set r k v
  end.

(** [del d[k]]. *)
Fixpoint dict_del (d : list trigger_entry) (k : string) : list trigger_entry :=
  match d with
  | [] => []
  | (k', v') :: r =>
      if (k' =? k)%string then r else (k', v') :: dict_del r k
  end.

(** [add_trigger]. *)
Definition add_trigger (c : TCPConnection) (trigger_id pattern : string)
    (response : bytes) : TCPConnection :=
  set_triggers (dict_set (triggers c) pattern (trigger_id, response)) c.

(** [remove_trigger]: the first entry, in iteration order, that carries the
    identifier. *)
Fixpoint find_pattern (items : list trigger_entry) (trigger_id : string)
    : option string :=
  match items with
  | [] => None
  | (pattern, (tid, _)) :: r =>
      if (tid =? trigger_id)%string then Some pattern
      else find_pattern r trigger_id
  end.

Definition remove_trigger (c : TCPConnection) (trigger_id : string)
    : bool * TCPConnection :=
  match find_pattern (triggers c) trigger_id with
  | Some pattern => (true, set_triggers (dict_del (triggers c) pattern) c)
  | None => (false, c)
  end.

(** [get_triggers]: (trigger_id, pattern, response_size). *)
Definition get_triggers (c : TCPConnection) : list (string * string * Z) :=
  map (fun e : trigger_entry =>
         let '(pattern, (tid, response)) := e in
         (tid, pattern, Py.len response))
      (triggers c).

(** What [re.search(pattern, text)] gives: a match object, [None], or
    [re.error] when the pattern does not compile. *)
Inductive search_result : Type :=
| Found
| NotFound
| PatternError.

(** The receive loop and its triggers.  The text type of the decoded chunk,
    [bytes.decode('utf-8', errors='ignore')] (which never raises) and
    [re.search] belong to the Python library and are taken as given. *)
Section Engine.

Variable text : Type.
Variable decode_utf8_ignore : bytes -> text.
Variable re_search : string -> text -> search_result.

(** The [for] loop of [_check_triggers] over [self.triggers.items()]:
    the calls of [send] it makes, with what each returned, the connection
    afterwards, and the exception that ended the loop, if any. *)
Fixpoint check_loop (items : list trigger_entry) (data_str : text)
    (c : TCPConnection) : list (bytes * bool) * TCPConnection * option exn :=
  match items with
  | [] => ([], c, None)
  | (pattern, (trigger_id, response)) :: r =>
      match re_search pattern data_str with
      | PatternError => ([], c, Some ReError)
      | NotFound => check_loop r data_str c
      | Found =>
          let '(ok, c1) := send c response in
          let '(calls, c2, e) := check_loop r data_str c1 in
          ((response, ok) :: calls, c2, e)
      end
  end.

(** [_check_triggers]: the [try] spans the whole loop, and the handler
    logs the exception and returns. *)
Definition check_triggers (c : TCPConnection) (data : bytes)
    : list (bytes * bool) * TCPConnection :=
  let data_str := decode_utf8_ignore data in
  let '(calls, c', _) := check_loop (triggers c) data_str c in
  (calls, c').

(** The body of the [while] of [_read_loop] for one outcome of [read]:
    whether the loop goes on, the calls of [send], the connection. *)
Definition loop_body (r : read_outcome) (c : TCPConnection)
    : bool * list (bytes * bool) * TCPConnection :=
  match r with
  | ReadData [] => (false, [], set_connected false c)
  | ReadData data =>
      let c1 := set_buffer (buffer c ++ [data]) c in
      let c2 := set_bytes_received (bytes_received c1 + Py.len data) c1 in
      let '(calls, c3) := check_triggers c2 data in
      (true, calls, c3)
  | ReadCancelled => (false, [], c)
  | ReadRaises => (false, [], set_connected false c)
  end.

(** [_read_loop] on the reads of a script; when the script is over the loop
    stays suspended in [read]. *)
Fixpoint read_loop (script : list read_outcome) (c : TCPConnection)
    : list (bytes * bool) * TCPConnection :=
  match script with
  | [] => ([], c)
  | r :: rest =>
      if connected c && reader c then
        let '(go_on, calls, c1) := loop_body r c in
        if go_on
        then let '(calls', c2) := read_loop rest c1 in (calls ++ calls', c2)
        else (calls, c1)
      else ([], c)
  end.

(** The operations on a connection, each taken as one step: asyncio runs
    one task at a time, and the interleavings it allows at the awaits
    inside an operation are not modelled.  The body of the receive loop is
    an operation of its own, since a read can complete after the loop
    condition was tested. *)
Inductive op : Type :=
| OpConnect (o : connect_outcome)
| OpDisconnect
| OpSend (data : bytes)
| OpRead (r : read_outcome)
| OpReadBuffer (index count : option Z)
| OpClearBuffer
| OpGetBufferInfo
| OpAddTrigger (trigger_id pattern : string) (response : bytes)
| OpRemoveTrigger (trigger_id : string)
| OpGetTriggers.

Definition step (o : op) (c : TCPConnection) : TCPConnection :=
  match o with
  | OpConnect o => snd (connect o c)
  | OpDisconnect => disconnect c
  | OpSend data => snd (send c data)
  | OpRead r => snd (loop_body r c)
  | OpReadBuffer _ _ => c
  | OpClearBuffer => clear_buffer c
  | OpGetBufferInfo => c
  | OpAddTrigger trigger_id pattern response =>
      add_trigger c trigger_id pattern response
  | OpRemoveTrigger trigger_id => snd (remove_trigger c trigger_id)
  | OpGetTriggers => c
  end.

(** The chunks an operation appends to the buffer. *)
Definition appended (o : op) : list bytes :=
  match o with
  | OpRead (ReadData (b :: data)) => [b :: data]
  | _ => []
  end.

Definition is_clear (o : op) : bool :=
  match o with
  | OpClearBuffer => true
  | _ => false
  end.

(** [reaches hist c]: [c] is reached from a fresh connection, and [hist]
    lists the chunks appended on the way. *)
Inductive reaches : list bytes -> TCPConnection -> Prop :=
| reaches_new : forall connection_id host port,
    reaches [] (new connection_id host port)
| reaches_step : forall hist c o,
    reaches hist c -> reaches (hist ++ appended o) (step o c).

(** A sequence of operations, and the chunks it appends. *)
Definition run (ops : list op) (c : TCPConnection) : TCPConnection :=
  fold_left (fun c o => step o c) ops c.

Definition history (ops : list op) : list bytes := flat_map appended ops.

(** The triggers the loop of [_check_triggers] gets to: those in front of
    the first one whose pattern test raises. *)
Fixpoint evaluated (items : list trigger_entry) (data_str : text)
    : list trigger_entry :=
  match items with
  | [] => []
  | e :: r =>
      match re_search (fst e) data_str with
      | PatternError => []
      | _ => e :: evaluated r data_str
      end
  end.

Definition matches (data_str : text) (e : trigger_entry) : bool :=
  match re_search (fst e) data_str with
  | Found => true
  | _ => false
  end.

Definition response_of (e : trigger_entry) : bytes := snd (snd e).

Definition pattern_fails (data_str : text) (e : trigger_entry) : bool :=
  match re_search (fst e) data_str with
  | PatternError => true
  | _ => false
  end.

End Engine.

End Connection.

(* ===================================================================== *)
(** ** A text decoder and a pattern matcher to run the triggers on

    [decode_ascii] is [decode('utf-8', errors='ignore')] on chunks of
    ASCII bytes; a byte from 128 up is dropped.  [search] is [re.search]
    on the patterns made of ordinary characters and parentheses
    ([in_fragment]): balanced parentheses only group, so the pattern is
    found where its ordinary characters are; unbalanced ones do not
    compile.  Patterns with other special characters are not in the
    fragment, and nothing below evaluates [search] on them. *)

Module Plain.

Definition decode_ascii (data : bytes) : string :=
  string_of_list_ascii
    (map ascii_of_byte
         (filter (fun b => (Byte.to_N b <? 128)%N) data)).

Definition is_special (c : ascii) : bool :=
  existsb (Ascii.eqb c)
    ["."; "^"; "$"; "*"; "+"; "?"; "{"; "}"; "["; "]"; "\"; "|"; "("; ")"]%char.

Fixpoint in_fragment (pattern : string) : bool :=
  match pattern with
  | EmptyString => true
  | String c t =>
      ((c =? "(")%char || (c =? ")")%char || negb (is_special c))
      && in_fragment t
  end.

(** Parentheses balance: [depth] groups are open. *)
Fixpoint balanced (depth : nat) (pattern : string) : bool :=
  match pattern with
  | EmptyString => Nat.eqb depth 0
  | String c t =>
      if (c =? "(")%char then balanced (S depth) t
      else if (c =? ")")%char
           then match depth with
                | O => false
                | S d => balanced d t
                end
           else balanced depth t
  end.

Fixpoint ordinary (pattern : string) : string :=
  match pattern with
  | EmptyString => EmptyString
  | String c t =>
      if (c =? "(")%char || (c =? ")")%char then ordinary t
      else String c (ordinary t)
  end.

Definition search (pattern text : string) : Connection.search_result :=
  if in_fragment pattern then
    if balanced 0 pattern then
      if Py.str_in (ordinary pattern) text
      then Connection.Found else Connection.NotFound
    else Connection.PatternError
  else Connection.PatternError.

Definition check_triggers :=
  Connection.check_triggers string decode_ascii search.
Definition read_loop := Connection.read_loop string decode_ascii search.
Definition reaches := Connection.reaches string decode_ascii search.
Definition run := Connection.run string decode_ascii search.
Definition pattern_fails := Connection.pattern_fails string search.

End Plain.

(* ===================================================================== *)
(** ** The escape syntax as the specification words it

    Section 4.1, syntax 2: the string is split on the [\xNN] boundaries; a
    fragment that matches [\xNN] is one byte, a literal fragment is its
    UTF-8 bytes, and the results are concatenated in the original order. *)

Module Spec.

Definition hex_byte (d1 d2 : ascii) : bytes :=
  match Py.digit_value d1, Py.digit_value d2 with
  | Some top, Some bot =>
      match Byte.of_N (Z.to_N (16 * top + bot)) with
      | Some b => [b]
      | None => []
      end
  | _, _ => []
  end.

Definition fragment_bytes (t : Re.token) : bytes :=
  match t with
  | Re.Esc d1 d2 => hex_byte d1 d2
  | Re.Lit c => Py.utf8_char c
  end.

Definition decode_escaped (s : string) : bytes :=
  flat_map fragment_bytes (Re.scan s).

(** The bytes of the escapes alone. *)
Definition escape_bytes (t : Re.token) : bytes :=
  match t with
  | Re.Esc d1 d2 => hex_byte d1 d2
  | Re.Lit _ => []
  end.

End Spec.

(* ===================================================================== *)
(** ** Connections to evaluate the operations on *)

Module Sample.

Import Connection.

Definition b (s : string) : bytes := Py.str_encode_utf8 s.

Definition fresh : TCPConnection := new "conn-1" "localhost" 8080.

(** A connection whose buffer holds three chunks. *)
Definition three_chunks : TCPConnection :=
  set_buffer [b "c0"; b "c1"; b "c2"] fresh.

(** A connection established on a writer whose calls end as [outcomes]
    say. *)
Definition live (outcomes : list write_outcome) : TCPConnection :=
  snd (connect (Established (mkWriter [] outcomes)) fresh).

(** The trigger of the unit tests: its response holds a [$1]. *)
Definition pong : bytes := b "PONG :$1" ++ [x0d; x0a].

Definition with_ping (c : TCPConnection) : TCPConnection :=
  add_trigger c "ping_trigger" "PING" pong.

(** Two triggers, then a third whose pattern does not compile, registered
    first or last. *)
Definition with_hello (c : TCPConnection) : TCPConnection :=
  add_trigger c "hello_trigger" "HELLO" (b "HI THERE").

Definition with_unclosed (c : TCPConnection) : TCPConnection :=
  add_trigger c "bad_trigger" "(" (b "never").

Definition unclosed_then_ping : TCPConnection :=
  with_ping (with_unclosed (live [])).

Definition hello_unclosed_ping : TCPConnection :=
  with_ping (with_unclosed (with_hello (live []))).

Definition hello_ping (outcomes : list write_outcome) : TCPConnection :=
  with_ping (with_hello (live outcomes)).

(** Received chunks. *)
Definition ping_chunk : bytes := b "PING :server123" ++ [x0d; x0a].
Definition both_chunk : bytes := b "HELLO PING" ++ [x0d; x0a].

(** A connection is established, receives two chunks, the buffer is
    cleared, a third chunk arrives. *)
Definition session : list op :=
  [OpConnect (Established (mkWriter [] []));
   OpAddTrigger "ping_trigger" "PING" pong;
   OpRead (ReadData ping_chunk);
   OpRead (ReadData both_chunk);
   OpClearBuffer;
   OpSend (b "QUIT");
   OpRead (ReadData (b "bye"))].

End Sample.

(* ===================================================================== *)
(** ** Predicates on texts used in the statements *)

(** Every character of [s] satisfies [p]. *)
Fixpoint all_chars (p : ascii -> bool) (s : string) : bool :=
  match s with
  | EmptyString => true
  | String c t => p c && all_chars p t
  end.

Fixpoint has_char (a : ascii) (s : string) : bool :=
  match s with
  | EmptyString => false
  | String c t => (c =? a)%char || has_char a t
  end.

(** The hex digits. *)
Definition hex_digits : list ascii :=
  ["0"; "1"; "2"; "3"; "4"; "5"; "6"; "7"; "8"; "9";
   "a"; "b"; "c"; "d"; "e"; "f"; "A"; "B"; "C"; "D"; "E"; "F"]%char.

Definition is_esc (t : Re.token) : bool :=
  match t with
  | Re.Esc _ _ => true
  | Re.Lit _ => false
  end.

Definition hex_token (t : Re.token) : bool :=
  match t with
  | Re.Esc d1 d2 => Py.is_hex_digit d1 && Py.is_hex_digit d2
  | Re.Lit _ => true
  end.

(** The characters [b.hex()] is made of. *)
Definition is_lower_hex (c : ascii) : bool :=
  let n := N_of_ascii c in
  ((48 <=? n) && (n <=? 57) || (97 <=? n) && (n <=? 102))%N.

(* ===================================================================== *)
(** ** Spellings of a byte sequence as text *)

Module Spelling.

(** The characters that the first statement of [_parse_hex_string] removes
    one by one: the blank, the line feed and the carriage return. *)
Definition is_blank (c : ascii) : bool :=
  (c =? " ")%char || (c =? Py.LF)%char || (c =? Py.CR)%char.

Fixpoint str_filter (p : ascii -> bool) (s : string) : string :=
  match s with
  | EmptyString => EmptyString
  | String c t => if p c then String c (str_filter p t) else str_filter p t
  end.

Definition drop_blanks (s : string) : string :=
  str_filter (fun c => negb (is_blank c)) s.

(** A hex digit in upper case, as in [b.hex().upper()]. *)
Definition hex_digit_upper (n : N) : ascii :=
  if (n <? 10)%N then ascii_of_N (48 + n) else ascii_of_N (55 + n).

Definition byte_hex_case (upper : bool) (x : byte) : string :=
  let n := Byte.to_N x in
  let digit := if upper then hex_digit_upper else Py.hex_digit in
  String (digit (n / 16)%N) (String (digit (n mod 16)%N) EmptyString).

(** The hex pairs of [b], in one case, each followed by [sep]. *)
Fixpoint bytes_hex_with (upper : bool) (sep : string) (b : bytes) : string :=
  match b with
  | [] => EmptyString
  | x :: t =>
      String.append (byte_hex_case upper x)
        (String.append sep (bytes_hex_with upper sep t))
  end.

(** The legacy spelling: [\xNN] for each byte. *)
Fixpoint escaped (upper : bool) (b : bytes) : string :=
  match b with
  | [] => EmptyString
  | x :: t =>
      String.append "\x"
        (String.append (byte_hex_case upper x) (escaped upper t))
  end.

End Spelling.

(* ===================================================================== *)
(** ** What can be observed of a connection *)

Module Observe.

Import Connection.

(** Whether some trigger carries the identifier, or the pattern. *)
Definition has_id (trigger_id : string) (items : list trigger_entry) : bool :=
  existsb (fun e : trigger_entry => (fst (snd e) =? trigger_id)%string) items.

Definition has_pattern (pattern : string) (items : list trigger_entry)
    : bool :=
  existsb (fun e : trigger_entry => (fst e =? pattern)%string) items.

(** The chunks a script of reads delivers before its first end: an empty
    read, a cancellation or an error. *)
Fixpoint arrivals (script : list read_outcome) : list bytes :=
  match script with
  | ReadData (b :: data) :: r => (b :: data) :: arrivals r
  | _ => []
  end.

(** The fields of a connection other than its streams and its connected
    flag. *)
Definition same_data (c c' : TCPConnection) : Prop :=
  connection_id c' = connection_id c
  /\ host c' = host c
  /\ port c' = port c
  /\ buffer c' = buffer c
  /\ triggers c' = triggers c
  /\ bytes_sent c' = bytes_sent c
  /\ bytes_received c' = bytes_received c.

End Observe.

(* ===================================================================== *)
(** ** The server: its tables and its handlers *)

(** A Python [dict] with text keys, in insertion order. *)
Module Dict.

Section Operations.

Context {V : Type}.

(** [d.get(k)]; [k in d] is [mem]. *)
Fixpoint get (d : list (string * V)) (k : string) : option V :=
  match d with
  | [] => None
  | (k', v) :: r => if (k' =? k)%string then Some v else get r k
  end.

Definition mem (d : list (string * V)) (k : string) : bool :=
  match get d k with
  | Some _ => true
  | None => false
  end.

(** [d[k] = v]: a present key keeps its place, a new one goes last. *)
Fixpoint set (d : list (string * V)) (k : string) (v : V)
    : list (string * V) :=
  match d with
  | [] => [(k, v)]
  | (k', v') :: r =>
      if (k' =? k)%string then (k, v) :: r else (k', v') :: set r k v
  end.

(** [del d[k]]. *)
Fixpoint del (d : list (string * V)) (k : string) : list (string * V) :=
  match d with
  | [] => []
  | (k', v') :: r => if (k' =? k)%string then r else (k', v') :: del r k
  end.

End Operations.

End Dict.

Module Registry.

Import Connection.

(** An entry of [pending_triggers]: a trigger set for a connection that
    does not exist yet. *)
Record pending_trigger : Type := mkPending {
  pattern : string;
  response : bytes;                         (* already encoded *)
  response_str : string;
  response_encoding : string;
  response_terminator_str : option string
}.

(** The two tables of a [TCPSocketServer]. *)
Record TCPSocketServer : Type := mkServer {
  connections : list (string * TCPConnection);
  pending_triggers : list (string * list (string * pending_trigger))
}.

(** [TCPSocketServer.__init__]. *)
Definition init : TCPSocketServer :=
  {| connections := []; pending_triggers := [] |}.

(** The JSON objects the handlers return.  [Failure] is an object with
    the keys [error] and [message]; the others are the success objects of
    each handler, with their fields (the constant fields and the messages
    computed from the other fields are left out). *)
Inductive reply : Type :=
| Failure (error message : string)
| ConnectReply (connection_id host : string) (port : Z)
               (applied_triggers : list string)
| DisconnectReply (connection_id : string)
| SendReply (connection_id : string) (bytes_sent : Z)
| ClearBufferReply (connection_id : string)
| BufferInfoReply (info : BufferInfo)
| SetTriggerReply (connection_id trigger_id pattern status : string)
| RemoveTriggerReply (connection_id trigger_id status : string)
| ConnectAndSendReply (connection_id host : string) (port bytes_sent : Z)
                      (immediate_response : bool) (buffer_chunks : Z)
                      (applied_triggers : list string).

(** An f-string: its pieces one after the other; [str(n)] for an [int]. *)
Definition fmt (pieces : list string) : string :=
  String.concat EmptyString pieces.

Definition str_of_int (n : Z) : string :=
  NilZero.string_of_int (Z.to_int n).

Definition not_found (connection_id : string) : reply :=
  Failure "not_found" (fmt ["Connection "; connection_id; " not found"]).

(** The loop of [_handle_connect] over the pending triggers of the new
    connection. *)
Definition apply_pending (conn : TCPConnection)
    (pending : list (string * pending_trigger)) : TCPConnection :=
  fold_left
    (fun c (e : string * pending_trigger) =>
       add_trigger c (fst e) (pattern (snd e)) (response (snd e)))
    pending conn.

(** The connection [tcp_connect] and [tcp_connect_and_send] store before
    any data is sent. *)
Definition opened (s : TCPSocketServer) (connection_id host : string)
    (port : Z) (w : StreamWriter) : TCPConnection :=
  let conn := snd (connect (Established w) (new connection_id host port)) in
  match Dict.get (pending_triggers s) connection_id with
  | Some pending => apply_pending conn pending
  | None => conn
  end.

Section Handlers.

(** [base64.b64decode], of the Python library. *)
Variable b64decode : string -> result bytes.

Variable text : Type.
Variable decode_utf8_ignore : bytes -> text.
Variable re_search : string -> text -> search_result.

(** The conversion that [_handle_send], [_handle_set_trigger] and
    [_handle_connect_and_send] apply to their data: the encoding, which
    [args.get] defaults to utf-8, then the terminator, read as hex, when
    it is given and not empty. *)
Definition convert (encoding : option string) (data_str : string)
    (terminator_str : option string) : result bytes :=
  let encoding :=
    match encoding with Some e => e | None => "utf-8" end in
  data <- (if (encoding =? "base64")%string then b64decode data_str
           else if (encoding =? "hex")%string
                then Server.parse_hex_string data_str
                else Ok (Py.str_encode_utf8 data_str)) ;;
  match terminator_str with
  | Some (String c t) =>
      terminator <- Server.parse_hex_string (String c t) ;;
      Ok (data ++ terminator)
  | _ => Ok data
  end.

(** [_handle_connect].  [uuid] is the identifier [uuid.uuid4()] draws, used
    when none is given; [o] is how the connection attempt ends.  The
    registry holds the connection object itself, so the triggers added
    after it is stored are those of the stored connection. *)
Definition handle_connect (s : TCPSocketServer) (host : string) (port : Z)
    (connection_id : option string) (uuid : string) (o : connect_outcome)
    : reply * TCPSocketServer :=
  let connection_id :=
    match connection_id with Some i => i | None => uuid end in
  if Dict.mem (connections s) connection_id then
    (Failure "duplicate_id"
       (fmt ["Connection ID "; connection_id; " already exists"]), s)
  else
    let '(success, conn) := connect o (new connection_id host port) in
    if success then
      match Dict.get (pending_triggers s) connection_id with
      | Some pending =>
          (ConnectReply connection_id host port (map fst pending),
           {| connections :=
                Dict.set (connections s) connection_id
                         (apply_pending conn pending);
              pending_triggers :=
                Dict.del (pending_triggers s) connection_id |})
      | None =>
          (ConnectReply connection_id host port [],
           {| connections := Dict.set (connections s) connection_id conn;
              pending_triggers := pending_triggers s |})
      end
    else
      (Failure "connection_failed"
         (fmt ["Failed to connect to "; host; ":"; str_of_int port]), s).

(** [_handle_disconnect]. *)
Definition handle_disconnect (s : TCPSocketServer) (connection_id : string)
    : reply * TCPSocketServer :=
  match Dict.get (connections s) connection_id with
  | None => (not_found connection_id, s)
  | Some _ =>
      (DisconnectReply connection_id,
       {| connections := Dict.del (connections s) connection_id;
          pending_triggers := pending_triggers s |})
  end.

(** [_handle_send].  An exception of the conversion leaves the handler. *)
Definition handle_send (s : TCPSocketServer) (connection_id data_str : string)
    (encoding terminator_str : option string)
    : result reply * TCPSocketServer :=
  match Dict.get (connections s) connection_id with
  | None => (Ok (not_found connection_id), s)
  | Some conn =>
      match convert encoding data_str terminator_str with
      | Raise e => (Raise e, s)
      | Ok data =>
          let '(success, conn') := send conn data in
          let s' := {| connections :=
                         Dict.set (connections s) connection_id conn';
                       pending_triggers := pending_triggers s |} in
          if success
          then (Ok (SendReply connection_id (Py.len data)), s')
          else (Ok (Failure "send_failed" "Failed to send data"), s')
      end
  end.

(** [_handle_clear_buffer]. *)
Definition handle_clear_buffer (s : TCPSocketServer) (connection_id : string)
    : reply * TCPSocketServer :=
  match Dict.get (connections s) connection_id with
  | None => (not_found connection_id, s)
  | Some conn =>
      (ClearBufferReply connection_id,
       {| connections :=
            Dict.set (connections s) connection_id (clear_buffer conn);
          pending_triggers := pending_triggers s |})
  end.

(** [_handle_buffer_info]. *)
Definition handle_buffer_info (s : TCPSocketServer) (connection_id : string)
    : reply * TCPSocketServer :=
  match Dict.get (connections s) connection_id with
  | None => (not_found connection_id, s)
  | Some conn => (BufferInfoReply (get_buffer_info conn), s)
  end.

(** [_handle_set_trigger]: on a live connection the trigger is added at
    once; otherwise it is kept, by identifier, among the pending triggers
    of the connection identifier. *)
Definition handle_set_trigger (s : TCPSocketServer)
    (connection_id trigger_id pattern response_str : string)
    (response_encoding response_terminator_str : option string)
    : result reply * TCPSocketServer :=
  match convert response_encoding response_str response_terminator_str with
  | Raise e => (Raise e, s)
  | Ok response =>
      match Dict.get (connections s) connection_id with
      | Some conn =>
          (Ok (SetTriggerReply connection_id trigger_id pattern "active"),
           {| connections :=
                Dict.set (connections s) connection_id
                         (add_trigger conn trigger_id pattern response);
              pending_triggers := pending_triggers s |})
      | None =>
          let pending :=
            match Dict.get (pending_triggers s) connection_id with
            | Some p => p
            | None => []
            end in
          let entry :=
            {| pattern := pattern;
               response := response;
               response_str := response_str;
               response_encoding :=
                 match response_encoding with
                 | Some e => e
                 | None => "utf-8"
                 end;
               response_terminator_str := response_terminator_str |} in
          (Ok (SetTriggerReply connection_id trigger_id pattern "pending"),
           {| connections := connections s;
              pending_triggers :=
                Dict.set (pending_triggers s) connection_id
                         (Dict.set pending trigger_id entry) |})
      end
  end.

(** [_handle_remove_trigger]. *)
Definition handle_remove_trigger (s : TCPSocketServer)
    (connection_id trigger_id : string) : reply * TCPSocketServer :=
  match Dict.get (connections s) connection_id with
  | Some conn =>
      let '(success, conn') := remove_trigger conn trigger_id in
      let s' := {| connections :=
                     Dict.set (connections s) connection_id conn';
                   pending_triggers := pending_triggers s |} in
      if success
      then (RemoveTriggerReply connection_id trigger_id "removed_active", s')
      else (Failure "not_found"
              (fmt ["Trigger "; trigger_id;
                    " not found on active connection"]), s')
  | None =>
      match Dict.get (pending_triggers s) connection_id with
      | Some pending =>
          if Dict.mem pending trigger_id then
            let pending' := Dict.del pending trigger_id in
            (RemoveTriggerReply connection_id trigger_id "removed_pending",
             {| connections := connections s;
                pending_triggers :=
                  match pending' with
                  | [] => Dict.del (pending_triggers s) connection_id
                  | _ => Dict.set (pending_triggers s) connection_id pending'
                  end |})
          else
            (Failure "not_found"
               (fmt ["Trigger "; trigger_id;
                     " not found in pending triggers"]), s)
      | None =>
          (Failure "not_found"
             (fmt ["Connection "; connection_id;
                   " not found (neither active nor pending)"]), s)
      end
  end.

(** [_handle_connect_and_send].  [reads] are the reads of the receive loop
    that complete before the handler, after its short sleep, looks at the
    buffer. *)
Definition handle_connect_and_send (s : TCPSocketServer) (host : string)
    (port : Z) (data_str : string) (connection_id : option string)
    (uuid : string) (encoding terminator_str : option string)
    (o : connect_outcome) (reads : list read_outcome)
    : result reply * TCPSocketServer :=
  let connection_id :=
    match connection_id with Some i => i | None => uuid end in
  if Dict.mem (connections s) connection_id then
    (Ok (Failure "duplicate_id"
           (fmt ["Connection ID "; connection_id; " already exists"])), s)
  else
    let '(success, conn) := connect o (new connection_id host port) in
    if negb success then
      (Ok (Failure "connection_failed"
             (fmt ["Failed to connect to "; host; ":"; str_of_int port])), s)
    else
      let '(conn, applied_triggers, pending') :=
        match Dict.get (pending_triggers s) connection_id with
        | Some pending =>
            (apply_pending conn pending, map fst pending,
             Dict.del (pending_triggers s) connection_id)
        | None => (conn, [], pending_triggers s)
        end in
      let stored (c : TCPConnection) :=
        {| connections := Dict.set (connections s) connection_id c;
           pending_triggers := pending' |} in
      match convert encoding data_str terminator_str with
      | Raise e => (Raise e, stored conn)
      | Ok data =>
          let '(send_success, conn) := send conn data in
          if negb send_success then
            (Ok (Failure "send_failed"
                   (fmt ["Connected but failed to send data to "; host; ":";
                         str_of_int port])),
             {| connections :=
                  Dict.del (connections (stored (disconnect conn)))
                           connection_id;
                pending_triggers := pending' |})
          else
            let conn :=
              snd (read_loop text decode_utf8_ignore re_search reads conn) in
            let buffer_info := get_buffer_info conn in
            (Ok (ConnectAndSendReply connection_id host port (Py.len data)
                   (0 <? chunks buffer_info) (chunks buffer_info)
                   applied_triggers),
             stored conn)
      end.

End Handlers.

End Registry.

(* ===================================================================== *)
(** ** The handlers on the sample matcher, and well-formed tables *)

Module PlainServer.

Import Connection Registry.

(** A stand-in for [base64.b64decode], which is not modelled: the samples
    below never ask for base64. *)
Definition no_base64 (_ : string) : result bytes := Raise ValueError.

Definition convert := Registry.convert no_base64.
Definition handle_send := Registry.handle_send no_base64.
Definition handle_set_trigger := Registry.handle_set_trigger no_base64.
Definition handle_connect_and_send :=
  Registry.handle_connect_and_send no_base64 string Plain.decode_ascii
    Plain.search.

(** No key occurs twice, as in a [dict]. *)
Fixpoint unique {V : Type} (d : list (string * V)) : bool :=
  match d with
  | [] => true
  | (k, _) :: r => negb (Dict.mem r k) && unique r
  end.

Definition well_formed (s : TCPSocketServer) : bool :=
  unique (connections s)
  && unique (pending_triggers s)
  && forallb (fun e : string * list (string * pending_trigger) =>
                unique (snd e))
             (pending_triggers s).

(** A server with one live connection [conn-1] and one trigger pending for
    a connection [conn-2] that does not exist yet. *)
Definition one_live : TCPSocketServer :=
  snd (handle_set_trigger
         (snd (handle_connect init "localhost" 8080 (Some "conn-1") "uuid"
                 (Established (mkWriter [] []))))
         "conn-2" "ping_trigger" "PING" "PONG" None (Some "0D0A")).

(** [one_live] with a second trigger pending for [conn-2], on the pattern of
    the first. *)
Definition two_pending : TCPSocketServer :=
  snd (handle_set_trigger one_live "conn-2" "ping_again" "PING" "PONG again"
         None None).

(** A server whose only connection has a writer whose first flush fails. *)
Definition one_failing : TCPSocketServer :=
  snd (handle_connect init "localhost" 8080 (Some "conn-1") "uuid"
         (Established (mkWriter [] [DrainRaises]))).

End PlainServer.

(* ===================================================================== *)
(** * Properties of the hex codec *)

Section HexFacts.

Lemma all_chars_append p s t :
  all_chars p (String.append s t) = all_chars p s && all_chars p t.
Proof.
  induction s as [|c s IH]; simpl; [reflexivity|].
  now rewrite IH, andb_assoc.
Qed.

Lemma byte_hex_lower (x : byte) : all_chars is_lower_hex (Py.byte_hex x) = true.
Proof. destruct x; vm_compute; reflexivity. Qed.

Lemma bytes_hex_lower (b : bytes) :
  all_chars is_lower_hex (Py.bytes_hex b) = true.
Proof.
  induction b as [|x b IH]; [reflexivity|].
  cbn [Py.bytes_hex].
  now rewrite all_chars_append, byte_hex_lower, IH.
Qed.

(** A text that lacks one character of [old] does not start with [old]. *)
Lemma prefix_lacking (a : ascii) (old s : string) :
  has_char a old = true ->
  all_chars (fun c => negb (c =? a)%char) s = true ->
  prefix old s = false.
Proof.
  revert s; induction old as [|o old IH]; intros s Ha Hs; [discriminate|].
  destruct s as [|c s]; [reflexivity|].
  simpl in Hs. apply andb_true_iff in Hs as [Hc Hs].
  simpl. destruct (ascii_dec o c) as [->|Hoc]; [|reflexivity].
  simpl in Ha. apply orb_true_iff in Ha as [Ha|Ha].
  - apply Ascii.eqb_eq in Ha; subst.
    now rewrite Ascii.eqb_refl in Hc.
  - now apply IH.
Qed.

Lemma str_in_lacking (a : ascii) (old s : string) :
  has_char a old = true ->
  all_chars (fun c => negb (c =? a)%char) s = true ->
  Py.str_in old s = false.
Proof.
  intros Ha; induction s as [|c s IH]; intros Hs.
  - cbn [Py.str_in]. now rewrite (prefix_lacking a) by assumption.
  - cbn [Py.str_in]. rewrite (prefix_lacking a) by assumption.
    simpl in Hs. apply andb_true_iff in Hs as [_ Hs]. now rewrite IH.
Qed.

Lemma str_replace_lacking (a : ascii) (old new s : string) :
  has_char a old = true ->
  all_chars (fun c => negb (c =? a)%char) s = true ->
  Py.str_replace old new s = s.
Proof.
  intros Ha; unfold Py.str_replace.
  induction s as [|c s IH]; intros Hs; [reflexivity|].
  cbn [Py.replace_from]. rewrite (prefix_lacking a) by assumption.
  simpl in Hs. apply andb_true_iff in Hs as [_ Hs]. now rewrite IH.
Qed.

Lemma all_chars_impl (p q : ascii -> bool) (s : string) :
  (forall c, p c = true -> q c = true) ->
  all_chars p s = true -> all_chars q s = true.
Proof.
  intros Hpq; induction s as [|c s IH]; simpl; [reflexivity|].
  intros H; apply andb_true_iff in H as [Hc Hs].
  now rewrite (Hpq _ Hc), IH.
Qed.

(** A lowercase hex digit is none of the characters the parser looks for. *)
Lemma lower_hex_differs (a : ascii) :
  is_lower_hex a = false ->
  forall c, is_lower_hex c = true -> negb (c =? a)%char = true.
Proof.
  intros Ha c Hc. destruct (Ascii.eqb_spec c a) as [->|]; [|reflexivity].
  congruence.
Qed.

Lemma bytes_hex_lacks (a : ascii) (b : bytes) :
  is_lower_hex a = false ->
  all_chars (fun c => negb (c =? a)%char) (Py.bytes_hex b) = true.
Proof.
  intros Ha. apply (all_chars_impl is_lower_hex); [|apply bytes_hex_lower].
  now apply lower_hex_differs.
Qed.

(** The two digits of [x.hex()] are read back as [x]. *)
Lemma byte_hex_digits (x : byte) :
  let top := Py.hex_digit (Byte.to_N x / 16) in
  let bot := Py.hex_digit (Byte.to_N x mod 16) in
  Py.is_ascii_space top = false
  /\ Py.digit_value top = Some (Z.of_N (Byte.to_N x / 16))
  /\ Py.digit_value bot = Some (Z.of_N (Byte.to_N x mod 16))
  /\ Byte.of_N (Z.to_N (16 * Z.of_N (Byte.to_N x / 16)
                        + Z.of_N (Byte.to_N x mod 16))) = Some x.
Proof. destruct x; vm_compute; repeat split; reflexivity. Qed.

Lemma bytes_fromhex_hex (b : bytes) :
  Py.bytes_fromhex (Py.bytes_hex b) = Ok b.
Proof.
  induction b as [|x b IH]; [reflexivity|].
  destruct (byte_hex_digits x) as (Hsp & Htop & Hbot & Hx).
  cbn [Py.bytes_hex Py.byte_hex String.append Py.bytes_fromhex].
  rewrite Hsp, Htop, Hbot, IH. cbn [bind]. now rewrite Hx.
Qed.

(** [bytes.fromhex] raises nothing but [ValueError]. *)
Lemma bytes_fromhex_value_error (n : nat) : forall s e,
  (String.length s <= n)%nat ->
  Py.bytes_fromhex s = Raise e -> e = ValueError.
Proof.
  induction n as [|n IH]; intros s e Hlen H.
  - destruct s; [discriminate|simpl in Hlen; lia].
  - destruct s as [|c t]; [discriminate|].
    cbn [Py.bytes_fromhex] in H. simpl in Hlen.
    destruct (Py.is_ascii_space c).
    + apply (IH t); [lia|assumption].
    + destruct (Py.digit_value c); [|congruence].
      destruct t as [|d t']; [congruence|].
      destruct (Py.digit_value d); [|congruence].
      destruct (Py.bytes_fromhex t') as [rest|e'] eqn:Hr; cbn [bind] in H.
      * destruct (Byte.of_N _); congruence.
      * inversion H; subst. apply (IH t' e); [simpl in Hlen; lia|assumption].
Qed.

End HexFacts.

Section HexCodec.

Lemma clean_bytes_hex (b : bytes) : Server.clean (Py.bytes_hex b) = Py.bytes_hex b.
Proof.
  unfold Server.clean.
  rewrite (str_replace_lacking "x" "0x")
    by (reflexivity || now apply bytes_hex_lacks).
  rewrite (str_replace_lacking "X" "0X")
    by (reflexivity || now apply bytes_hex_lacks).
  rewrite (str_replace_lacking " " " ")
    by (reflexivity || now apply bytes_hex_lacks).
  rewrite (str_replace_lacking Py.LF (Py.str1 Py.LF))
    by (reflexivity || now apply bytes_hex_lacks).
  now rewrite (str_replace_lacking Py.CR (Py.str1 Py.CR))
    by (reflexivity || now apply bytes_hex_lacks).
Qed.

(** C5.  For every byte sequence [b], decoding the lowercase hex-pair
    string of [b] (no separators, no prefix) gives [b] back:
    [decode_hex (encode_hex b) = b]. *)
Theorem decode_hex_encode_hex (b : bytes) :
  Server.decode_hex (Server.encode_hex b) = Ok b.
Proof.
  unfold Server.decode_hex, Server.parse_hex_string, Server.encode_hex.
  rewrite (str_in_lacking "\" "\x") by (reflexivity || now apply bytes_hex_lacks).
  now rewrite clean_bytes_hex, bytes_fromhex_hex.
Qed.

(** Without the two characters [\x] in it, the text goes through the plain
    branch, which returns bytes whatever the text: the hex pairs when the
    cleaned text is valid hex, the UTF-8 bytes of the text as given
    otherwise. *)
Lemma parse_hex_string_plain (s : string) :
  Py.str_in "\x" s = false ->
  Server.parse_hex_string s
  = Ok (match Py.bytes_fromhex (Server.clean s) with
        | Ok b => b
        | Raise _ => Py.str_encode_utf8 s
        end).
Proof.
  intros H. unfold Server.parse_hex_string. rewrite H.
  destruct (Py.bytes_fromhex (Server.clean s)) as [b|e] eqn:Hb; [reflexivity|].
  apply (bytes_fromhex_value_error _ _ _ (le_n _)) in Hb. now subst.
Qed.

(** *** The escape branch against the specification's algorithm *)

Lemma hex_digit_listed (d : ascii) :
  Py.is_hex_digit d = true -> In d hex_digits.
Proof.
  intros H.
  assert (Hb : existsb (Ascii.eqb d) hex_digits = true).
  { revert H. destruct d as [[] [] [] [] [] [] [] []];
      vm_compute; intros H; exact H. }
  apply existsb_exists in Hb as (x & Hx & Hd).
  apply Ascii.eqb_eq in Hd. now subst.
Qed.

(** An escape is converted to the byte its two digits spell. *)
Lemma escape_converted (d1 d2 : ascii) :
  Py.is_hex_digit d1 = true -> Py.is_hex_digit d2 = true ->
  forall acc,
    (v <- Py.int16 (Re.group d1 d2) ;; Py.bytearray_append acc v)
    = Ok (acc ++ Spec.hex_byte d1 d2).
Proof.
  intros H1 H2 acc.
  apply hex_digit_listed in H1. apply hex_digit_listed in H2.
  unfold hex_digits in H1, H2. simpl in H1, H2.
  repeat (destruct H1 as [<-|H1]; [|]); try contradiction;
    repeat (destruct H2 as [<-|H2]; [|]); try contradiction;
    vm_compute; reflexivity.
Qed.

(** The tokens of a scan that are escapes hold hex digits. *)
Lemma scan_from_hex (s : string) :
  forall skip, forallb hex_token (Re.scan_from skip s) = true.
Proof.
  induction s as [|c s IH]; intros skip; [reflexivity|].
  cbn [Re.scan_from]. destruct skip as [|k]; [|apply IH].
  destruct (Re.matches_at (String c s)) as [[d1 d2]|] eqn:Hm.
  - cbn [forallb hex_token]. rewrite IH, andb_true_r.
    unfold Re.matches_at in Hm.
    destruct s as [|c1 [|e1 [|e2 s]]]; try discriminate.
    destruct (_ && _ && Py.is_hex_digit e1 && Py.is_hex_digit e2) eqn:Hh;
      [|discriminate].
    inversion Hm; subst.
    apply andb_true_iff in Hh as [Hh ->].
    apply andb_true_iff in Hh as [_ ->]. reflexivity.
  - cbn [forallb hex_token]. apply IH.
Qed.

(** The first loop of the escape branch succeeds and collects the bytes of
    the escapes. *)
Lemma append_matches_tokens (ts : list Re.token) :
  forallb hex_token ts = true ->
  forall acc,
    Server.append_matches acc (Re.findall_tokens ts)
    = Ok (acc ++ flat_map Spec.escape_bytes ts).
Proof.
  induction ts as [|[d1 d2|c] ts IH]; intros Hh acc.
  - simpl. now rewrite app_nil_r.
  - cbn [forallb hex_token] in Hh.
    apply andb_true_iff in Hh as [Hd Hh].
    apply andb_true_iff in Hd as [Hd1 Hd2].
    cbn [Re.findall_tokens Server.append_matches flat_map Spec.escape_bytes].
    pose proof (escape_converted d1 d2 Hd1 Hd2 acc) as He.
    destruct (Py.int16 (Re.group d1 d2)) as [v|e]; [|discriminate].
    cbn [bind] in He |- *. rewrite He. cbn [bind].
    rewrite IH by assumption. now rewrite <- app_assoc.
  - cbn [forallb hex_token] in Hh.
    cbn [Re.findall_tokens flat_map Spec.escape_bytes app]. now apply IH.
Qed.

Lemma str_encode_utf8_app (s t : string) :
  Py.str_encode_utf8 (String.append s t)
  = Py.str_encode_utf8 s ++ Py.str_encode_utf8 t.
Proof.
  induction s as [|c s IH]; [reflexivity|].
  cbn [String.append Py.str_encode_utf8]. now rewrite IH, app_assoc.
Qed.

(** A literal part that is not taken for an escape adds its UTF-8 bytes. *)
Lemma append_parts_literal (acc : bytes) (part : string) (r : list string) :
  Server.taken_for_escape part = false ->
  Server.append_parts acc (part :: r)
  = Server.append_parts (acc ++ Py.str_encode_utf8 part) r.
Proof.
  intros H. cbn [Server.append_parts]. rewrite H.
  destruct part; [|reflexivity]. simpl. now rewrite app_nil_r.
Qed.

Lemma append_parts_escape (acc : bytes) (d1 d2 : ascii) (r : list string) :
  Py.is_hex_digit d1 = true -> Py.is_hex_digit d2 = true ->
  Server.append_parts acc (Re.whole d1 d2 :: r)
  = Server.append_parts (acc ++ Spec.hex_byte d1 d2) r.
Proof.
  intros H1 H2. cbn [Server.append_parts].
  change (Server.taken_for_escape (Re.whole d1 d2)) with true.
  cbv iota. change (Server.drop2 (Re.whole d1 d2)) with (Re.group d1 d2).
  pose proof (escape_converted d1 d2 H1 H2 acc) as He.
  destruct (Py.int16 (Re.group d1 d2)) as [v|e]; [|discriminate].
  cbn [bind] in He |- *. now rewrite He.
Qed.

(** The second loop follows the specification as long as no literal part
    is taken for an escape. *)
Lemma append_parts_tokens (ts : list Re.token) :
  forallb hex_token ts = true ->
  forall cur acc,
    forallb (fun p => negb (Server.taken_for_escape p))
            (Re.literal_parts (Re.split_tokens cur ts)) = true ->
    Server.append_parts acc (Re.split_tokens cur ts)
    = Ok (acc ++ Py.str_encode_utf8 cur ++ flat_map Spec.fragment_bytes ts).
Proof.
  induction ts as [|[d1 d2|c] ts IH]; intros Hh cur acc Hlit.
  - cbn [Re.split_tokens Re.literal_parts forallb] in Hlit.
    rewrite andb_true_r in Hlit. apply negb_true_iff in Hlit.
    cbn [Re.split_tokens flat_map].
    rewrite append_parts_literal by assumption.
    now rewrite app_nil_r.
  - cbn [forallb hex_token] in Hh.
    apply andb_true_iff in Hh as [Hd Hh].
    apply andb_true_iff in Hd as [Hd1 Hd2].
    cbn [Re.split_tokens Re.literal_parts forallb] in Hlit.
    apply andb_true_iff in Hlit as [Hcur Hlit].
    apply negb_true_iff in Hcur.
    cbn [Re.split_tokens flat_map Spec.fragment_bytes].
    rewrite append_parts_literal by assumption.
    rewrite append_parts_escape by assumption.
    rewrite IH by assumption.
    cbn [Py.str_encode_utf8 app]. now rewrite <- !app_assoc.
  - cbn [forallb hex_token] in Hh.
    cbn [Re.split_tokens] in Hlit |- *.
    rewrite IH by assumption.
    rewrite str_encode_utf8_app.
    cbn [flat_map Spec.fragment_bytes Py.str1 Py.str_encode_utf8].
    now rewrite app_nil_r, <- !app_assoc.
Qed.

(** When the text left after replacing the escapes is nothing but the
    replacements, every token is an escape. *)
Lemma sub_tokens_length (c : ascii) (ts : list Re.token) :
  String.length (Re.sub_tokens (Py.str1 c) ts) = List.length ts.
Proof. induction ts as [|[d1 d2|x] ts IH]; simpl; congruence. Qed.

Lemma str_repeat_length (c : ascii) (n : nat) :
  String.length (Py.str_repeat c n) = n.
Proof. induction n; simpl; congruence. Qed.

Lemma findall_tokens_length (ts : list Re.token) :
  (List.length (Re.findall_tokens ts) <= List.length ts)%nat
  /\ (List.length (Re.findall_tokens ts) = List.length ts ->
      forallb is_esc ts = true).
Proof.
  induction ts as [|[d1 d2|x] ts [IHle IHeq]]; simpl.
  - split; [lia|reflexivity].
  - split; [lia|]. intros H. apply IHeq. lia.
  - split; [lia|]. intros H. lia.
Qed.

Lemma escapes_only (ts : list Re.token) :
  forallb is_esc ts = true ->
  flat_map Spec.escape_bytes ts = flat_map Spec.fragment_bytes ts.
Proof.
  induction ts as [|[d1 d2|x] ts IH]; simpl; intros H;
    [reflexivity| |discriminate].
  now rewrite IH.
Qed.

(** On a text with escapes, [_parse_hex_string] computes what the
    specification describes, provided no literal part of the split is
    taken for an escape (four characters, the first two being [\x]). *)
Lemma parse_hex_string_escapes (s : string) :
  Py.str_in "\x" s = true ->
  forallb (fun p => negb (Server.taken_for_escape p))
          (Re.literal_parts (Re.split s)) = true ->
  Server.parse_hex_string s = Ok (Spec.decode_escaped s).
Proof.
  intros Hin Hlit. unfold Server.parse_hex_string. rewrite Hin.
  unfold Re.findall, Re.sub, Re.split, Spec.decode_escaped, Re.scan in *.
  pose proof (scan_from_hex s 0) as Hh.
  set (ts := Re.scan_from 0 s) in *.
  rewrite append_matches_tokens by assumption. cbn [bind app].
  destruct (negb (Re.sub_tokens (Py.str1 Py.NUL) ts =? EmptyString)%string
            && negb (Re.sub_tokens (Py.str1 Py.NUL) ts
                     =? Py.str_repeat Py.NUL
                          (List.length (Re.findall_tokens ts)))%string)
    eqn:Hmixed.
  - now rewrite append_parts_tokens.
  - f_equal. apply escapes_only.
    apply (proj2 (findall_tokens_length ts)).
    apply andb_false_iff in Hmixed as [H|H];
      apply negb_false_iff, String.eqb_eq in H;
      apply (f_equal String.length) in H;
      rewrite sub_tokens_length in H.
    + simpl in H. destruct ts; [reflexivity|discriminate].
    + now rewrite str_repeat_length in H.
Qed.

(** Away from the literal parts that are taken for escapes,
    [decode_hex] returns bytes and follows the specification: the
    escapes and the literal text in their order when the text holds [\x];
    otherwise the hex pairs of the cleaned text, or the UTF-8 bytes of the
    text as given when the cleaned text is not valid hex.  The texts are
    those of code points below 256, as every [string] is: on them
    [str.encode] always returns.  A text with a lone surrogate, on which
    [str.encode] raises [UnicodeEncodeError], is not among them, and the
    statement says nothing about it. *)
Theorem decode_hex_follows_specification (s : string) :
  forallb (fun p => negb (Server.taken_for_escape p))
          (Re.literal_parts (Re.split s)) = true ->
  Server.decode_hex s
  = Ok (if Py.str_in "\x" s then Spec.decode_escaped s
        else match Py.bytes_fromhex (Server.clean s) with
             | Ok b => b
             | Raise _ => Py.str_encode_utf8 s
             end).
Proof.
  intros Hlit. unfold Server.decode_hex.
  destruct (Py.str_in "\x" s) eqn:Hin.
  - now apply parse_hex_string_escapes.
  - now apply parse_hex_string_plain.
Qed.

Lemma decode_hex_follows_specification_witness :
  forallb (fun p => negb (Server.taken_for_escape p))
          (Re.literal_parts (Re.split "Hello\x0D\x0A")) = true
  /\ Server.decode_hex "Hello\x0D\x0A"
     = Ok (Py.str_encode_utf8 "Hello" ++ [x0d; x0a]).
Proof.
  split; [reflexivity|].
  rewrite (decode_hex_follows_specification "Hello\x0D\x0A" eq_refl).
  reflexivity.
Defined.

(** *** Where the escape branch leaves the specification *)

Lemma bytearray_append_length (acc r : bytes) (v : Z) :
  Py.bytearray_append acc v = Ok r ->
  List.length r = (List.length acc + 1)%nat.
Proof.
  unfold Py.bytearray_append.
  destruct (_ && _); [|discriminate].
  destruct (Byte.of_N _); [|discriminate].
  intros H; inversion H; subst. now rewrite length_app.
Qed.

Lemma utf8_length (s : string) :
  (String.length s <= List.length (Py.str_encode_utf8 s))%nat.
Proof.
  induction s as [|c s IH]; simpl; [lia|].
  rewrite length_app. unfold Py.utf8_char.
  destruct (_ <? _)%N; simpl; lia.
Qed.

Lemma taken_length (part : string) :
  Server.taken_for_escape part = true ->
  (4 <= List.length (Py.str_encode_utf8 part))%nat.
Proof.
  unfold Server.taken_for_escape. intros H.
  apply andb_true_iff in H as [_ H]. apply Nat.eqb_eq in H.
  pose proof (utf8_length part). lia.
Qed.

Lemma hex_byte_length (d1 d2 : ascii) :
  Py.is_hex_digit d1 = true -> Py.is_hex_digit d2 = true ->
  List.length (Spec.hex_byte d1 d2) = 1%nat.
Proof.
  intros H1 H2.
  apply hex_digit_listed in H1. apply hex_digit_listed in H2.
  unfold hex_digits in H1, H2. simpl in H1, H2.
  repeat (destruct H1 as [<-|H1]; [|]); try contradiction;
    repeat (destruct H2 as [<-|H2]; [|]); try contradiction;
    reflexivity.
Qed.

Lemma append_parts_taken (acc : bytes) (part : string) (r : list string) :
  Server.taken_for_escape part = true ->
  Server.append_parts acc (part :: r)
  = (v <- Py.int16 (Server.drop2 part) ;;
     acc' <- Py.bytearray_append acc v ;;
     Server.append_parts acc' r).
Proof. intros H. cbn [Server.append_parts]. now rewrite H. Qed.

(** A literal part that is taken for an escape leaves one byte where the
    specification has at least four; every other part leaves what the
    specification has.  So the result, if any, is shorter. *)
Lemma append_parts_shorter (ts : list Re.token) :
  forallb hex_token ts = true ->
  forall cur acc r,
    Server.append_parts acc (Re.split_tokens cur ts) = Ok r ->
    (List.length r
     + (if existsb Server.taken_for_escape
                   (Re.literal_parts (Re.split_tokens cur ts))
        then 1 else 0)
     <= List.length acc + List.length (Py.str_encode_utf8 cur)
        + List.length (flat_map Spec.fragment_bytes ts))%nat.
Proof.
  induction ts as [|[d1 d2|c] ts IH]; intros Hh cur acc r Hr.
  - cbn [Re.split_tokens Re.literal_parts existsb flat_map] in *.
    rewrite orb_false_r.
    destruct (Server.taken_for_escape cur) eqn:Ht.
    + rewrite append_parts_taken in Hr by assumption.
      destruct (Py.int16 (Server.drop2 cur)) as [v|]; [|discriminate].
      cbn [bind] in Hr.
      destruct (Py.bytearray_append acc v) as [acc'|] eqn:Ha; [|discriminate].
      cbn [bind Server.append_parts] in Hr. inversion Hr; subst.
      apply bytearray_append_length in Ha.
      pose proof (taken_length cur Ht). simpl. lia.
    + rewrite append_parts_literal in Hr by assumption.
      cbn [Server.append_parts] in Hr. inversion Hr; subst.
      rewrite length_app. simpl. lia.
  - cbn [forallb hex_token] in Hh.
    apply andb_true_iff in Hh as [Hd Hh].
    apply andb_true_iff in Hd as [Hd1 Hd2].
    cbn [Re.split_tokens Re.literal_parts existsb flat_map
         Spec.fragment_bytes] in *.
    rewrite length_app, (hex_byte_length d1 d2) by assumption.
    destruct (Server.taken_for_escape cur) eqn:Ht.
    + rewrite append_parts_taken in Hr by assumption.
      destruct (Py.int16 (Server.drop2 cur)) as [v|]; [|discriminate].
      cbn [bind] in Hr.
      destruct (Py.bytearray_append acc v) as [acc'|] eqn:Ha; [|discriminate].
      cbn [bind] in Hr.
      rewrite append_parts_escape in Hr by assumption.
      apply IH in Hr; [|assumption].
      apply bytearray_append_length in Ha.
      rewrite length_app, (hex_byte_length d1 d2) in Hr by assumption.
      pose proof (taken_length cur Ht).
      cbn [orb]. simpl in Hr.
      destruct (existsb _ _); lia.
    + rewrite append_parts_literal in Hr by assumption.
      rewrite append_parts_escape in Hr by assumption.
      apply IH in Hr; [|assumption].
      rewrite !length_app, (hex_byte_length d1 d2) in Hr by assumption.
      cbn [orb]. simpl in Hr.
      destruct (existsb _ _); lia.
  - cbn [forallb hex_token] in Hh.
    cbn [Re.split_tokens flat_map Spec.fragment_bytes] in *.
    apply IH in Hr; [|assumption].
    rewrite str_encode_utf8_app in Hr.
    cbn [Py.str1 Py.str_encode_utf8] in Hr.
    rewrite !length_app in *. simpl in Hr.
    destruct (existsb _ _); lia.
Qed.

(** A part that is taken for an escape is not empty, so the split has
    literal text and the second loop runs. *)
Lemma taken_part_has_literal (ts : list Re.token) :
  forall cur,
    existsb Server.taken_for_escape
            (Re.literal_parts (Re.split_tokens cur ts)) = true ->
    cur <> EmptyString \/ forallb is_esc ts = false.
Proof.
  induction ts as [|[d1 d2|c] ts IH]; intros cur H.
  - cbn [Re.split_tokens Re.literal_parts existsb] in H.
    rewrite orb_false_r in H. left. intros ->. discriminate.
  - cbn [Re.split_tokens Re.literal_parts existsb] in H.
    apply orb_true_iff in H as [H|H].
    + left. intros ->. discriminate.
    + apply IH in H as [H|H]; [now contradiction H|].
      right. exact H.
  - right. reflexivity.
Qed.

(** Conversely to C6: on a text with escapes, as soon as a literal part of
    the split is taken for an escape, [decode_hex] does not return what
    the specification describes (it raises, or returns fewer bytes). *)
Theorem decode_hex_departs_from_specification (s : string) :
  Py.str_in "\x" s = true ->
  existsb Server.taken_for_escape (Re.literal_parts (Re.split s)) = true ->
  Server.decode_hex s <> Ok (Spec.decode_escaped s).
Proof.
  intros Hin Htaken.
  unfold Server.decode_hex, Server.parse_hex_string. rewrite Hin.
  unfold Re.findall, Re.sub, Re.split, Spec.decode_escaped, Re.scan in *.
  pose proof (scan_from_hex s 0) as Hh.
  set (ts := Re.scan_from 0 s) in *.
  rewrite append_matches_tokens by assumption. cbn [bind app].
  destruct (taken_part_has_literal ts EmptyString Htaken) as [Hc|Hlit];
    [now contradiction Hc|].
  pose proof (findall_tokens_length ts) as [Hle Heq].
  assert (Hlt : (List.length (Re.findall_tokens ts) < List.length ts)%nat).
  { destruct (Nat.eq_dec (List.length (Re.findall_tokens ts))
                         (List.length ts)) as [E|E]; [|lia].
    rewrite (Heq E) in Hlit. discriminate. }
  assert (Hne : (Re.sub_tokens (Py.str1 Py.NUL) ts =? EmptyString)%string
                = false).
  { apply String.eqb_neq. intros E.
    apply (f_equal String.length) in E.
    rewrite sub_tokens_length in E. simpl in E. lia. }
  assert (Hnr : (Re.sub_tokens (Py.str1 Py.NUL) ts
                 =? Py.str_repeat Py.NUL
                      (List.length (Re.findall_tokens ts)))%string = false).
  { apply String.eqb_neq. intros E.
    apply (f_equal String.length) in E.
    rewrite sub_tokens_length, str_repeat_length in E. lia. }
  rewrite Hne, Hnr. cbn [negb andb].
  intros Hr. apply append_parts_shorter in Hr; [|assumption].
  rewrite Htaken in Hr. simpl in Hr. lia.
Qed.

Lemma decode_hex_departs_from_specification_witness :
  Py.str_in "\x" "\x 1" = true
  /\ existsb Server.taken_for_escape (Re.literal_parts (Re.split "\x 1"))
     = true
  /\ Server.decode_hex "\x 1" <> Ok (Spec.decode_escaped "\x 1").
Proof.
  split; [reflexivity|]. split; [reflexivity|].
  exact (decode_hex_departs_from_specification "\x 1" eq_refl eq_refl).
Defined.

(** The examples of section 8 of the specification. *)
Example decode_hex_plain_pairs :
  Server.decode_hex "48656C6C6F" = Ok (Py.str_encode_utf8 "Hello")
  /\ Server.decode_hex "48 65 6c 6c 6f" = Ok (Py.str_encode_utf8 "Hello")
  /\ Server.decode_hex "0x48656C6C6F" = Ok (Py.str_encode_utf8 "Hello")
  /\ Server.decode_hex "not-valid-hex!" = Ok (Py.str_encode_utf8 "not-valid-hex!").
Proof. repeat split; vm_compute; reflexivity. Qed.

Example decode_hex_escapes :
  Server.decode_hex "\x48\x65\x6C\x6C\x6F" = Ok (Py.str_encode_utf8 "Hello")
  /\ Server.decode_hex "Hello\x0D\x0A"
     = Ok (Py.str_encode_utf8 "Hello" ++ [x0d; x0a]).
Proof. split; vm_compute; reflexivity. Qed.

(** C4.  The claim is that [decode_hex] returns bytes for every text and
    never raises.  On the text [\xZZ] the escape branch takes the literal
    part [\xZZ] for an escape, since it starts with [\x] and has four
    characters, and [int("ZZ", 16)] raises [ValueError], which nothing
    catches: the call raises. *)
Theorem decode_hex_raises_on_malformed_escape :
  Py.str_in "\x" "\xZZ" = true
  /\ Re.split "\xZZ" = ["\xZZ"]
  /\ Py.int16 "ZZ" = Raise ValueError
  /\ Server.decode_hex "\xZZ" = Raise ValueError.
Proof. repeat split; vm_compute; reflexivity. Qed.

(** C6.  The claim is that, in mixed content, a literal fragment yields its
    raw UTF-8 bytes.  A literal fragment of four characters that starts
    with [\x] is treated as an escape instead: after the escape [\x41] the
    fragment [\xZZ] makes the call raise where the specification gives the
    byte 41 and the four bytes of [\xZZ], and the fragment [\x 1] yields the
    single byte 01 where the specification gives its four bytes. *)
Theorem decode_hex_literal_fragment_taken_for_escape :
  Re.split "\x41\xZZ" = [EmptyString; "\x41"; "\xZZ"]
  /\ Server.decode_hex "\x41\xZZ" = Raise ValueError
  /\ Spec.decode_escaped "\x41\xZZ" = x41 :: Py.str_encode_utf8 "\xZZ"
  /\ Re.split "\x 1" = ["\x 1"]
  /\ Server.decode_hex "\x 1" = Ok [x01]
  /\ Spec.decode_escaped "\x 1" = Py.str_encode_utf8 "\x 1".
Proof. repeat split; vm_compute; reflexivity. Qed.

End HexCodec.

(* ===================================================================== *)
(** * Properties of the connection *)

Section BufferReads.

Import Connection.

(** Slices with bounds inside the list. *)
Lemma slice_from (A : Type) (l : list A) (i : Z) :
  0 <= i <= Py.len l ->
  Py.slice l (Some i) None = skipn (Z.to_nat i) l.
Proof.
  intros Hi. unfold Py.slice, Py.adjust_index, Py.len in *.
  destruct (Z.ltb_spec i 0) as [?|_]; [lia|].
  rewrite Z.min_l by lia.
  apply firstn_all2. rewrite length_skipn. lia.
Qed.

Lemma slice_between (A : Type) (l : list A) (i j : Z) :
  0 <= i <= Py.len l -> 0 <= j <= Py.len l ->
  Py.slice l (Some i) (Some j)
  = firstn (Z.to_nat (j - i)) (skipn (Z.to_nat i) l).
Proof.
  intros Hi Hj. unfold Py.slice, Py.adjust_index, Py.len in *.
  destruct (Z.ltb_spec i 0) as [?|_]; [lia|].
  destruct (Z.ltb_spec j 0) as [?|_]; [lia|].
  now rewrite !Z.min_l by lia.
Qed.

(** A negative bound within the list counts from its end. *)
Lemma adjust_negative (len i : Z) :
  - len <= i < 0 -> Py.adjust_index len i = len + i.
Proof.
  intros Hi. unfold Py.adjust_index.
  destruct (Z.ltb_spec i 0) as [_|?]; lia.
Qed.

Lemma firstn_clamped (A : Type) (l : list A) (n m : nat) :
  (m = Nat.min n (List.length l))%nat -> firstn m l = firstn n l.
Proof.
  intros ->. destruct (Nat.le_ge_cases n (List.length l)) as [H|H].
  - now rewrite Nat.min_l.
  - rewrite Nat.min_r by assumption.
    now rewrite !firstn_all2 by lia.
Qed.

(** C2.  For a non-negative [index] and [count]: without an index the whole
    buffer is returned, in arrival order; with an index alone, the chunks
    from [index] to the end; with both, the chunks of
    [index, index + count) that the buffer holds (the [k]-th chunk of the
    result is the chunk [index + k] of the buffer, and the range stops at
    the end of the buffer); and an index at or past the end of the buffer
    gives the empty sequence. *)
Theorem read_buffer_ranges (c : TCPConnection) (index count : Z) :
  0 <= index -> 0 <= count ->
  (forall n, read_buffer c None n = buffer c)
  /\ read_buffer c (Some index) None = skipn (Z.to_nat index) (buffer c)
  /\ read_buffer c (Some index) (Some count)
     = firstn (Z.to_nat count) (skipn (Z.to_nat index) (buffer c))
  /\ Py.len (read_buffer c (Some index) (Some count))
     = Z.max 0 (Z.min (index + count) (Py.len (buffer c)) - index)
  /\ (forall k, (k < Z.to_nat count)%nat ->
        nth_error (read_buffer c (Some index) (Some count)) k
        = nth_error (buffer c) (Z.to_nat index + k))
  /\ (Py.len (buffer c) <= index ->
        read_buffer c (Some index) None = []
        /\ read_buffer c (Some index) (Some count) = []).
Proof.
  intros Hi Hc.
  assert (Hfrom : read_buffer c (Some index) None
                  = skipn (Z.to_nat index) (buffer c)).
  { unfold read_buffer.
    destruct (Z.ltb_spec index (Py.len (buffer c))) as [Hlt|Hge].
    - apply slice_from; lia.
    - symmetry; apply skipn_all2. unfold Py.len in Hge; lia. }
  assert (Hrange : read_buffer c (Some index) (Some count)
                   = firstn (Z.to_nat count)
                            (skipn (Z.to_nat index) (buffer c))).
  { unfold read_buffer.
    destruct (Z.ltb_spec index (Py.len (buffer c))) as [Hlt|Hge].
    - rewrite slice_between by lia.
      apply firstn_clamped. rewrite length_skipn.
      unfold Py.len in *; lia.
    - rewrite skipn_all2 by (unfold Py.len in Hge; lia).
      now rewrite firstn_nil. }
  repeat split.
  - assumption.
  - assumption.
  - rewrite Hrange. unfold Py.len.
    rewrite length_firstn, length_skipn. lia.
  - intros k Hk. rewrite Hrange.
    rewrite nth_error_firstn.
    destruct (Nat.ltb_spec k (Z.to_nat count)) as [_|?]; [|lia].
    now rewrite nth_error_skipn.
  - rewrite Hfrom. apply skipn_all2. unfold Py.len in *; lia.
  - rewrite Hrange, skipn_all2 by (unfold Py.len in *; lia).
    apply firstn_nil.
Qed.

Lemma skipn_last (A : Type) (l : list A) (d : A) :
  l <> [] -> skipn (List.length l - 1) l = [last l d].
Proof.
  intros Hl. destruct (exists_last Hl) as (l' & x & ->).
  rewrite last_last, length_app. simpl.
  replace (List.length l' + 1 - 1)%nat with (List.length l' + 0)%nat by lia.
  rewrite skipn_app, skipn_all2 by lia.
  now replace (List.length l' + 0 - List.length l')%nat with 0%nat by lia.
Qed.

(** C10, as the code has it.  For a negative [index] within the buffer,
    [read_buffer(index)] returns the last [-index] chunks, a non-empty
    sequence ([read_buffer(-1)] is the last chunk alone).  With a [count],
    [read_buffer(index, count)] returns trailing chunks counted from the end
    in two cases: the [count] chunks that start [-index] places before the
    end when the range ends before the end of the buffer
    ([index + count < 0]); and all of the last [-index] chunks, as
    [read_buffer(index)] does, when the range reaches the length of the
    buffer ([index + count >= len(buffer)]).  In between
    ([0 <= index + count < len(buffer)]) the end index is counted from the
    start of the buffer: the result holds [count - len(buffer)] of those
    chunks, none when [count <= len(buffer)], fewer than [count] and fewer
    than [-index] in every case. *)
Theorem read_buffer_negative_index (c : TCPConnection) (index : Z) :
  - Py.len (buffer c) <= index < 0 ->
  read_buffer c (Some index) None
  = skipn (Z.to_nat (Py.len (buffer c) + index)) (buffer c)
  /\ Py.len (read_buffer c (Some index) None) = - index
  /\ read_buffer c (Some index) None <> []
  /\ (forall d, index = -1 ->
        read_buffer c (Some index) None = [last (buffer c) d])
  /\ (forall count, 0 <= count -> index + count < 0 ->
        read_buffer c (Some index) (Some count)
        = firstn (Z.to_nat count)
                 (skipn (Z.to_nat (Py.len (buffer c) + index)) (buffer c)))
  /\ (forall count, Py.len (buffer c) <= index + count ->
        read_buffer c (Some index) (Some count)
        = skipn (Z.to_nat (Py.len (buffer c) + index)) (buffer c)
        /\ read_buffer c (Some index) (Some count)
           = read_buffer c (Some index) None
        /\ Py.len (read_buffer c (Some index) (Some count)) = - index)
  /\ (forall count, 0 <= index + count < Py.len (buffer c) ->
        read_buffer c (Some index) (Some count)
        = firstn (Z.to_nat (count - Py.len (buffer c)))
                 (skipn (Z.to_nat (Py.len (buffer c) + index)) (buffer c))
        /\ Py.len (read_buffer c (Some index) (Some count))
           = Z.max 0 (count - Py.len (buffer c))
        /\ Py.len (read_buffer c (Some index) (Some count)) < count
        /\ Py.len (read_buffer c (Some index) (Some count)) < - index).
Proof.
  intros Hi.
  assert (Hfrom : read_buffer c (Some index) None
                  = skipn (Z.to_nat (Py.len (buffer c) + index)) (buffer c)).
  { unfold read_buffer.
    destruct (Z.ltb_spec index (Py.len (buffer c))) as [_|?];
      [|unfold Py.len in *; lia].
    unfold Py.slice. fold (Py.len (buffer c)).
    rewrite adjust_negative by assumption.
    apply firstn_all2. rewrite length_skipn. unfold Py.len; lia. }
  assert (Hlen : Py.len (read_buffer c (Some index) None) = - index).
  { rewrite Hfrom. unfold Py.len. rewrite length_skipn.
    unfold Py.len in *; lia. }
  split; [exact Hfrom|]. split; [exact Hlen|].
  split; [|split; [|split; [|split]]].
  - intros Hnil. rewrite Hnil in Hlen. unfold Py.len in Hlen; simpl in Hlen; lia.
  - intros d ->. rewrite Hfrom.
    replace (Z.to_nat (Py.len (buffer c) + -1))
      with (List.length (buffer c) - 1)%nat by (unfold Py.len; lia).
    apply skipn_last. intros Hnil. rewrite Hnil in Hi.
    unfold Py.len in Hi; simpl in Hi; lia.
  - intros count Hc Hneg. unfold read_buffer.
    destruct (Z.ltb_spec index (Py.len (buffer c))) as [_|?];
      [|unfold Py.len in *; lia].
    rewrite Z.min_l by (unfold Py.len; lia).
    unfold Py.slice. fold (Py.len (buffer c)).
    rewrite !adjust_negative by lia.
    f_equal. lia.
  - intros count Hsum.
    assert (Hall : read_buffer c (Some index) (Some count)
                   = skipn (Z.to_nat (Py.len (buffer c) + index)) (buffer c)).
    { unfold read_buffer.
      destruct (Z.ltb_spec index (Py.len (buffer c))) as [_|?]; [|lia].
      rewrite Z.min_r by lia.
      unfold Py.slice. fold (Py.len (buffer c)).
      rewrite (adjust_negative _ index) by assumption.
      unfold Py.adjust_index.
      destruct (Z.ltb_spec (Py.len (buffer c)) 0) as [?|_]; [lia|].
      rewrite Z.min_id.
      apply firstn_all2. rewrite length_skipn. unfold Py.len; lia. }
    split; [exact Hall|]. split; [now rewrite Hall, Hfrom|].
    now rewrite Hall, <- Hfrom.
  - intros count Hsum.
    assert (Hmid : read_buffer c (Some index) (Some count)
                   = firstn (Z.to_nat (count - Py.len (buffer c)))
                       (skipn (Z.to_nat (Py.len (buffer c) + index))
                              (buffer c))).
    { unfold read_buffer.
      destruct (Z.ltb_spec index (Py.len (buffer c))) as [_|?]; [|lia].
      rewrite Z.min_l by lia.
      unfold Py.slice. fold (Py.len (buffer c)).
      rewrite (adjust_negative _ index) by assumption.
      unfold Py.adjust_index.
      destruct (Z.ltb_spec (index + count) 0) as [?|_]; [lia|].
      rewrite Z.min_l by lia.
      f_equal. lia. }
    assert (Hn : Py.len (read_buffer c (Some index) (Some count))
                 = Z.max 0 (count - Py.len (buffer c))).
    { rewrite Hmid. unfold Py.len. rewrite length_firstn, length_skipn.
      unfold Py.len in *. lia. }
    split; [exact Hmid|]. split; [exact Hn|].
    rewrite Hn. unfold Py.len in *. lia.
Qed.

(** Beside C10: when the range reaches the end of the buffer or beyond
    ([index + count >= 0]) and [count] does not exceed the length of the
    buffer, [read_buffer(index, count)] is empty, because the end index is
    then counted from the start of the buffer. *)
Theorem read_buffer_negative_index_wraps (c : TCPConnection)
    (index count : Z) :
  - Py.len (buffer c) <= index < 0 ->
  0 <= index + count ->
  count <= Py.len (buffer c) ->
  read_buffer c (Some index) (Some count) = [].
Proof.
  intros Hi Hsum Hc. unfold read_buffer.
  destruct (Z.ltb_spec index (Py.len (buffer c))) as [_|?]; [|lia].
  rewrite Z.min_l by lia.
  unfold Py.slice. fold (Py.len (buffer c)).
  rewrite (adjust_negative _ index) by assumption.
  unfold Py.adjust_index.
  destruct (Z.ltb_spec (index + count) 0) as [?|_]; [lia|].
  rewrite Z.min_l by lia.
  replace (Z.to_nat (index + count - (Py.len (buffer c) + index)))
    with 0%nat by lia.
  reflexivity.
Qed.

End BufferReads.

Section BufferReadsAt.

Import Connection.

Lemma read_buffer_ranges_witness :
  0 <= 1 /\ 0 <= 1
  /\ read_buffer Sample.three_chunks (Some 1) (Some 1)
     = firstn 1 (skipn 1 (buffer Sample.three_chunks))
  /\ read_buffer Sample.three_chunks (Some 1) (Some 1) = [Sample.b "c1"].
Proof.
  assert (H0 : 0 <= 1) by lia.
  pose proof (read_buffer_ranges Sample.three_chunks 1 1 H0 H0)
    as (_ & _ & Hrange & _).
  split; [exact H0|]. split; [exact H0|]. split.
  - exact Hrange.
  - rewrite Hrange. reflexivity.
Defined.

(** The examples of section 8 of the specification. *)
Example read_buffer_examples :
  read_buffer Sample.three_chunks None None
  = [Sample.b "c0"; Sample.b "c1"; Sample.b "c2"]
  /\ read_buffer Sample.three_chunks (Some 1) None
     = [Sample.b "c1"; Sample.b "c2"]
  /\ read_buffer Sample.three_chunks (Some 1) (Some 1) = [Sample.b "c1"]
  /\ read_buffer Sample.three_chunks (Some 10) None = [].
Proof. repeat split. Qed.

(** C10, where the claim fails: on a buffer of three chunks the index -1
    is within the buffer and [read_buffer(-1)] is the last chunk, yet
    [read_buffer(-1, 1)] is empty, since its end index
    [min(-1 + 1, 3) = 0] is taken from the start of the buffer. *)
Lemma read_buffer_negative_index_count_empty :
  - Py.len (buffer Sample.three_chunks) <= -1 < 0
  /\ read_buffer Sample.three_chunks (Some (-1)) None = [Sample.b "c2"]
  /\ read_buffer Sample.three_chunks (Some (-1)) (Some 1) = [].
Proof.
  split; [unfold Py.len; simpl; lia|].
  split; reflexivity.
Qed.

Lemma read_buffer_negative_index_witness :
  - Py.len (buffer Sample.three_chunks) <= -2 < 0
  /\ read_buffer Sample.three_chunks (Some (-2)) None
     = [Sample.b "c1"; Sample.b "c2"]
  /\ read_buffer Sample.three_chunks (Some (-2)) (Some 1) = [Sample.b "c1"]
  /\ read_buffer Sample.three_chunks (Some (-2)) (Some 5)
     = [Sample.b "c1"; Sample.b "c2"]
  /\ read_buffer Sample.three_chunks (Some (-2)) (Some 4) = [Sample.b "c1"].
Proof.
  assert (H : - Py.len (buffer Sample.three_chunks) <= -2 < 0)
    by (unfold Py.len; simpl; lia).
  pose proof (read_buffer_negative_index Sample.three_chunks (-2) H)
    as (Hfrom & _ & _ & _ & Hcount & Hall & Hmid).
  split; [exact H|]. split; [|split; [|split]].
  - rewrite Hfrom. reflexivity.
  - rewrite (Hcount 1) by lia. reflexivity.
  - assert (H5 : Py.len (buffer Sample.three_chunks) <= -2 + 5)
      by (unfold Py.len; simpl; lia).
    rewrite (proj1 (Hall 5 H5)). reflexivity.
  - assert (H4 : 0 <= -2 + 4 < Py.len (buffer Sample.three_chunks))
      by (unfold Py.len; simpl; lia).
    rewrite (proj1 (Hmid 4 H4)). reflexivity.
Defined.

Lemma read_buffer_negative_index_wraps_witness :
  - Py.len (buffer Sample.three_chunks) <= -2 < 0
  /\ 0 <= -2 + 3
  /\ 3 <= Py.len (buffer Sample.three_chunks)
  /\ read_buffer Sample.three_chunks (Some (-2)) (Some 3) = [].
Proof.
  assert (H1 : - Py.len (buffer Sample.three_chunks) <= -2 < 0)
    by (unfold Py.len; simpl; lia).
  assert (H2 : 0 <= -2 + 3) by lia.
  assert (H3 : 3 <= Py.len (buffer Sample.three_chunks))
    by (unfold Py.len; simpl; lia).
  repeat (split; [assumption|]).
  exact (read_buffer_negative_index_wraps Sample.three_chunks (-2) 3 H1 H2 H3).
Defined.

End BufferReadsAt.

Section Operations.

Import Connection.

(** C9.  [clear_buffer] empties the chunk sequence, so that
    [get_buffer_info] then reports no chunk and no byte, and leaves
    [bytes_received], [bytes_sent], the connected flag and the triggers as
    they were. *)
Theorem clear_buffer_frame (c : TCPConnection) :
  buffer (clear_buffer c) = []
  /\ chunks (get_buffer_info (clear_buffer c)) = 0
  /\ total_bytes (get_buffer_info (clear_buffer c)) = 0
  /\ bytes_received (clear_buffer c) = bytes_received c
  /\ info_bytes_received (get_buffer_info (clear_buffer c)) = bytes_received c
  /\ bytes_sent (clear_buffer c) = bytes_sent c
  /\ info_bytes_sent (get_buffer_info (clear_buffer c)) = bytes_sent c
  /\ connected (clear_buffer c) = connected c
  /\ info_connected (get_buffer_info (clear_buffer c)) = connected c
  /\ triggers (clear_buffer c) = triggers c.
Proof. repeat split. Qed.

(** What [send] leaves alone. *)
Lemma send_frame (c : TCPConnection) (data : bytes) :
  buffer (snd (send c data)) = buffer c
  /\ bytes_received (snd (send c data)) = bytes_received c
  /\ triggers (snd (send c data)) = triggers c
  /\ reader (snd (send c data)) = reader c.
Proof.
  unfold send. destruct (connected c); simpl; [|repeat split].
  destruct (writer c) as [w|]; [|repeat split].
  destruct (next_outcome w); repeat split.
Qed.

(** C3.  [send(data)] returns false when the connection is not connected,
    and when the write (or the flush) raises, in which case the connection
    becomes disconnected; on a connected connection whose write succeeds it
    returns true; a true result adds exactly [len(data)] to [bytes_sent],
    a false one leaves [bytes_sent] as it was. *)
Theorem send_result (c : TCPConnection) (data : bytes) :
  (connected c = false -> send c data = (false, c))
  /\ (forall w, connected c = true -> writer c = Some w ->
        next_outcome w <> WriteOk ->
        fst (send c data) = false
        /\ connected (snd (send c data)) = false
        /\ bytes_sent (snd (send c data)) = bytes_sent c)
  /\ (forall w, connected c = true -> writer c = Some w ->
        next_outcome w = WriteOk ->
        fst (send c data) = true
        /\ connected (snd (send c data)) = true
        /\ writer (snd (send c data))
           = Some (mkWriter (written w ++ [data]) (tl (outcomes w))))
  /\ (fst (send c data) = true ->
        bytes_sent (snd (send c data)) = bytes_sent c + Py.len data)
  /\ (fst (send c data) = false ->
        bytes_sent (snd (send c data)) = bytes_sent c).
Proof.
  unfold send. split; [|split; [|split; [|split]]].
  - now intros ->.
  - intros w Hc Hw Ho. rewrite Hc, Hw. simpl.
    destruct (next_outcome w); [congruence| |]; repeat split.
  - intros w Hc Hw Ho. rewrite Hc, Hw, Ho. simpl.
    unfold write_and_drain. rewrite Ho. repeat split; assumption.
  - destruct (connected c); simpl; [|discriminate].
    destruct (writer c) as [w|]; [|discriminate].
    destruct (next_outcome w); simpl; congruence.
  - destruct (connected c); simpl; [|reflexivity].
    destruct (writer c) as [w|]; [|reflexivity].
    destruct (next_outcome w); simpl; congruence.
Qed.

Lemma send_result_witness :
  (* not connected *)
  (connected Sample.fresh = false
   /\ send Sample.fresh (Sample.b "GET /") = (false, Sample.fresh))
  (* the write raises *)
  /\ (connected (Sample.live [WriteRaises]) = true
      /\ fst (send (Sample.live [WriteRaises]) (Sample.b "GET /")) = false
      /\ connected (snd (send (Sample.live [WriteRaises]) (Sample.b "GET /")))
         = false)
  (* the write succeeds *)
  /\ (fst (send (Sample.live []) (Sample.b "GET /")) = true
      /\ bytes_sent (snd (send (Sample.live []) (Sample.b "GET /"))) = 0 + 5).
Proof.
  split; [|split].
  - split; [reflexivity|].
    exact (proj1 (send_result Sample.fresh (Sample.b "GET /")) eq_refl).
  - split; [reflexivity|].
    pose proof (proj1 (proj2 (send_result (Sample.live [WriteRaises])
                                          (Sample.b "GET /")))
                  (mkWriter [] [WriteRaises]) eq_refl eq_refl) as H.
    destruct H as (Hr & Hc & _); [discriminate|].
    split; assumption.
  - pose proof (send_result (Sample.live []) (Sample.b "GET /"))
      as (_ & _ & Hok & Hsent & _).
    destruct (Hok (mkWriter [] []) eq_refl eq_refl eq_refl) as (Hr & _).
    split; [exact Hr|]. exact (Hsent Hr).
Defined.

End Operations.

Section ReceiveLoop.

Import Connection.

Variable text : Type.
Variable decode_utf8_ignore : bytes -> text.
Variable re_search : string -> text -> search_result.

Let check_loop := Connection.check_loop text re_search.
Let check_triggers := Connection.check_triggers text decode_utf8_ignore re_search.
Let loop_body := Connection.loop_body text decode_utf8_ignore re_search.
Let step := Connection.step text decode_utf8_ignore re_search.
Let run := Connection.run text decode_utf8_ignore re_search.
Let reaches := Connection.reaches text decode_utf8_ignore re_search.
Let evaluated := Connection.evaluated text re_search.
Let matches := Connection.matches text re_search.
Let pattern_fails := Connection.pattern_fails text re_search.

Lemma sum_len_app (l1 l2 : list bytes) :
  Py.sum_len (l1 ++ l2) = Py.sum_len l1 + Py.sum_len l2.
Proof. induction l1 as [|x l1 IH]; simpl; [reflexivity|]. rewrite IH; lia. Qed.

(** The dispatch of triggers touches neither the buffer nor
    [bytes_received] nor the triggers. *)
Lemma check_loop_frame (items : list trigger_entry) (d : text) :
  forall c,
    buffer (snd (fst (check_loop items d c))) = buffer c
    /\ bytes_received (snd (fst (check_loop items d c))) = bytes_received c
    /\ triggers (snd (fst (check_loop items d c))) = triggers c.
Proof.
  induction items as [|[pattern [tid response]] items IH]; intros c;
    [repeat split|].
  unfold check_loop in *. cbn [Connection.check_loop].
  destruct (re_search pattern d); [| apply IH | repeat split].
  destruct (send c response) as [ok c1] eqn:Hs.
  pose proof (send_frame c response) as (Hb & Hr & Ht & _).
  rewrite Hs in Hb, Hr, Ht; simpl in Hb, Hr, Ht.
  specialize (IH c1).
  destruct (Connection.check_loop text re_search items d c1) as [[calls c2] e].
  simpl in *. intuition congruence.
Qed.

Lemma check_triggers_frame (c : TCPConnection) (data : bytes) :
  buffer (snd (check_triggers c data)) = buffer c
  /\ bytes_received (snd (check_triggers c data)) = bytes_received c
  /\ triggers (snd (check_triggers c data)) = triggers c.
Proof.
  unfold check_triggers, Connection.check_triggers.
  pose proof (check_loop_frame (triggers c) (decode_utf8_ignore data) c) as H.
  unfold check_loop in H.
  destruct (Connection.check_loop text re_search (triggers c)
              (decode_utf8_ignore data) c) as [[calls c'] e].
  exact H.
Qed.

(** One operation: what it does to [bytes_received] and to the buffer. *)
Lemma step_bytes_received (o : op) (c : TCPConnection) :
  bytes_received (step o c) = bytes_received c + Py.sum_len (appended o).
Proof.
  destruct o as [o| |data|r|? ?| | |? ? ?|tid|]; simpl;
    try (unfold Connection.step; simpl; lia).
  - destruct o; simpl; lia.
  - unfold step, Connection.step. rewrite (proj1 (proj2 (send_frame c data))). lia.
  - unfold step, Connection.step, Connection.loop_body.
    destruct r as [[|b data]| |]; simpl; try lia.
    pose proof (check_triggers_frame
                  (set_bytes_received
                     (bytes_received c + Py.len (b :: data))
                     (set_buffer (buffer c ++ [b :: data]) c))
                  (b :: data)) as (_ & Hr & _).
    unfold check_triggers in Hr. simpl in Hr.
    destruct (Connection.check_triggers _ _ _ _ _) as [calls c3].
    simpl in *. rewrite Hr. lia.
  - unfold step, Connection.step, remove_trigger.
    destruct (find_pattern (triggers c) tid); simpl; lia.
Qed.

Lemma step_buffer (o : op) (c : TCPConnection) :
  buffer (step o c) = (if is_clear o then [] else buffer c) ++ appended o.
Proof.
  destruct o as [o| |data|r|? ?| | |? ? ?|tid|]; simpl;
    try (unfold Connection.step; simpl; now rewrite ?app_nil_r).
  - destruct o; simpl; now rewrite app_nil_r.
  - unfold step, Connection.step.
    now rewrite (proj1 (send_frame c data)), app_nil_r.
  - unfold step, Connection.step, Connection.loop_body.
    destruct r as [[|b data]| |]; simpl; try now rewrite app_nil_r.
    pose proof (check_triggers_frame
                  (set_bytes_received
                     (bytes_received c + Py.len (b :: data))
                     (set_buffer (buffer c ++ [b :: data]) c))
                  (b :: data)) as (Hb & _).
    unfold check_triggers in Hb. simpl in Hb.
    destruct (Connection.check_triggers _ _ _ _ _) as [calls c3].
    simpl in *. exact Hb.
  - unfold step, Connection.step, remove_trigger.
    destruct (find_pattern (triggers c) tid); simpl; now rewrite app_nil_r.
Qed.

(** The invariant, by induction on the way the state was reached. *)
Lemma reaches_counts (hist : list bytes) (c : TCPConnection) :
  reaches hist c -> bytes_received c = Py.sum_len hist.
Proof.
  intros Hreach.
  induction Hreach as [id h p|hist c o Hreach IH]; [reflexivity|].
  fold step. rewrite step_bytes_received, sum_len_app, IH. reflexivity.
Qed.

(** C1.  At every state [c] reached from a fresh connection,
    [bytes_received] is the sum of the lengths of the chunks [hist] ever
    appended to the buffer, cleared or not.  Every operation keeps it so:
    the state after it is reached with the history extended by what the
    operation appended, and the buffer grows by exactly that (after being
    emptied, for [clear_buffer]); an operation that appends nothing, such
    as [send], [read_buffer], [clear_buffer], [get_buffer_info],
    [add_trigger], [remove_trigger] and [disconnect], leaves
    [bytes_received] as it was. *)
Theorem bytes_received_invariant (hist : list bytes) (c : TCPConnection) :
  reaches hist c ->
  bytes_received c = Py.sum_len hist
  /\ (forall o,
        reaches (hist ++ appended o) (step o c)
        /\ bytes_received (step o c) = Py.sum_len (hist ++ appended o)
        /\ buffer (step o c)
           = (if is_clear o then [] else buffer c) ++ appended o)
  /\ (forall o, appended o = [] ->
        bytes_received (step o c) = bytes_received c)
  /\ (forall data index count tid pattern response,
        appended (OpSend data) = []
        /\ appended (OpReadBuffer index count) = []
        /\ appended OpClearBuffer = []
        /\ appended OpGetBufferInfo = []
        /\ appended (OpAddTrigger tid pattern response) = []
        /\ appended (OpRemoveTrigger tid) = []
        /\ appended OpDisconnect = []).
Proof.
  intros Hreach.
  pose proof (reaches_counts hist c Hreach) as Hinv.
  split; [exact Hinv|]. split; [|split].
  - intros o. split; [|split].
    + apply reaches_step. exact Hreach.
    + rewrite step_bytes_received, sum_len_app, Hinv. reflexivity.
    + apply step_buffer.
  - intros o Ho. rewrite step_bytes_received, Ho. simpl. lia.
  - intros. repeat split.
Qed.

(** Every run of operations from a fresh connection is reached, with the
    chunks it appended as history. *)
Lemma reaches_run (ops : list op) : forall hist c,
  reaches hist c -> reaches (hist ++ history ops) (run ops c).
Proof.
  induction ops as [|o ops IH]; intros hist c H; simpl.
  - now rewrite app_nil_r.
  - unfold history; simpl. rewrite app_assoc.
    apply IH. apply reaches_step. exact H.
Qed.

(** After any sequence of operations on a fresh connection,
    [bytes_received] is the total length of the chunks the sequence
    appended. *)
Corollary bytes_received_of_run (ops : list op) (id h : string) (p : Z) :
  bytes_received (run ops (new id h p)) = Py.sum_len (history ops).
Proof.
  apply (reaches_counts (history ops)).
  apply (reaches_run ops [] (new id h p)). constructor.
Qed.

End ReceiveLoop.

Section TriggerDispatch.

Import Connection.

Variable text : Type.
Variable decode_utf8_ignore : bytes -> text.
Variable re_search : string -> text -> search_result.

Let check_loop := Connection.check_loop text re_search.
Let check_triggers := Connection.check_triggers text decode_utf8_ignore re_search.
Let evaluated := Connection.evaluated text re_search.
Let matches := Connection.matches text re_search.
Let pattern_fails := Connection.pattern_fails text re_search.

(** The responses handed to [send], in order: those of the matching
    triggers among the ones the loop gets to, whatever [send] returns. *)
Lemma check_loop_calls (items : list trigger_entry) (d : text) :
  forall c,
    map fst (fst (fst (check_loop items d c)))
    = map response_of (filter (matches d) (evaluated items d)).
Proof.
  induction items as [|[pattern [tid response]] items IH]; intros c;
    [reflexivity|].
  unfold check_loop, evaluated, matches in *.
  cbn [Connection.check_loop Connection.evaluated fst].
  destruct (re_search pattern d) eqn:Hp.
  - cbn [filter]. unfold Connection.matches at 1. cbn [fst]. rewrite Hp.
    destruct (send c response) as [ok c1].
    specialize (IH c1).
    destruct (Connection.check_loop text re_search items d c1)
      as [[calls c2] e].
    simpl in *. now rewrite IH.
  - cbn [filter]. unfold Connection.matches at 1. cbn [fst]. rewrite Hp.
    apply IH.
  - reflexivity.
Qed.

(** When no pattern test raises, the loop gets to every trigger. *)
Lemma evaluated_all (items : list trigger_entry) (d : text) :
  forallb (fun e => negb (pattern_fails d e)) items = true ->
  evaluated items d = items.
Proof.
  unfold evaluated, pattern_fails.
  induction items as [|e items IH]; intros H; [reflexivity|].
  simpl in H. apply andb_true_iff in H as [He H].
  cbn [Connection.evaluated]. unfold Connection.pattern_fails in He.
  destruct (re_search (fst e) d); [| |discriminate]; now rewrite IH.
Qed.

(** A pattern test that raises hides the triggers behind it. *)
Lemma evaluated_until (front back : list trigger_entry) (e : trigger_entry)
    (d : text) :
  forallb (fun e => negb (pattern_fails d e)) front = true ->
  pattern_fails d e = true ->
  evaluated (front ++ e :: back) d = front.
Proof.
  unfold evaluated, pattern_fails.
  induction front as [|x front IH]; intros H He.
  - cbn [app Connection.evaluated]. unfold Connection.pattern_fails in He.
    destruct (re_search (fst e) d); try discriminate. reflexivity.
  - simpl in H. apply andb_true_iff in H as [Hx H].
    cbn [app Connection.evaluated]. unfold Connection.pattern_fails in Hx.
    destruct (re_search (fst x) d); [| |discriminate]; now rewrite IH.
Qed.

(** C7, as the code has it.  The evaluation of a chunk never raises to its
    caller, and a failed [send] does not end it: whatever the sends return,
    [send] is called, in iteration order, with the response of each
    matching trigger that stands in front of the first trigger whose
    pattern test raises.  So when no pattern test raises, every matching
    trigger is dispatched; and when the test of a trigger raises, the
    triggers behind it are not evaluated. *)
Theorem check_triggers_dispatch (c : TCPConnection) (data : bytes) :
  let d := decode_utf8_ignore data in
  map fst (fst (check_triggers c data))
  = map response_of (filter (matches d) (evaluated (triggers c) d))
  /\ (forallb (fun e => negb (pattern_fails d e)) (triggers c) = true ->
        map fst (fst (check_triggers c data))
        = map response_of (filter (matches d) (triggers c)))
  /\ (forall front e back,
        triggers c = front ++ e :: back ->
        forallb (fun e => negb (pattern_fails d e)) front = true ->
        pattern_fails d e = true ->
        map fst (fst (check_triggers c data))
        = map response_of (filter (matches d) front)).
Proof.
  intros d.
  assert (H : map fst (fst (check_triggers c data))
              = map response_of (filter (matches d) (evaluated (triggers c) d))).
  { unfold check_triggers, Connection.check_triggers. fold d.
    pose proof (check_loop_calls (triggers c) d c) as H.
    unfold check_loop in H.
    destruct (Connection.check_loop text re_search (triggers c) d c)
      as [[calls c'] e].
    exact H. }
  split; [exact H|]. split.
  - intros Hall. now rewrite H, evaluated_all.
  - intros front e back Ht Hfront He.
    now rewrite H, Ht, (evaluated_until front back e d).
Qed.

(** On a connected connection whose writer accepts every call, the
    responses reach the writer as they are stored. *)
Lemma check_loop_written (items : list trigger_entry) (d : text) :
  forallb (fun e => negb (pattern_fails d e)) items = true ->
  forall c w,
    connected c = true -> writer c = Some w -> outcomes w = [] ->
    let sent := map response_of (filter (matches d) items) in
    writer (snd (fst (check_loop items d c)))
    = Some (mkWriter (written w ++ sent) [])
    /\ forallb snd (fst (fst (check_loop items d c))) = true
    /\ connected (snd (fst (check_loop items d c))) = true
    /\ bytes_sent (snd (fst (check_loop items d c)))
       = bytes_sent c + Py.sum_len sent.
Proof.
  unfold check_loop, pattern_fails, matches.
  induction items as [|[pattern [tid response]] items IH];
    intros Hall c w Hc Hw Ho.
  - simpl. rewrite app_nil_r, Hw. destruct w as [wr oc]; simpl in *.
    subst. repeat split; try assumption; lia.
  - simpl in Hall. apply andb_true_iff in Hall as [Hp Hall].
    unfold Connection.pattern_fails in Hp. cbn [fst] in Hp.
    cbn [Connection.check_loop filter].
    unfold Connection.matches at 1 2 3 4. cbn [fst].
    destruct (re_search pattern d) eqn:Hs; [| |discriminate].
    + unfold send. rewrite Hc, Hw. cbn [negb].
      assert (Hn : next_outcome w = WriteOk)
        by (unfold next_outcome; now rewrite Ho).
      rewrite Hn.
      set (c1 := set_bytes_sent _ _).
      assert (Ho1 : outcomes (write_and_drain w response) = [])
        by (unfold write_and_drain; simpl; now rewrite Ho).
      specialize (IH Hall c1 (write_and_drain w response) Hc eq_refl Ho1).
      destruct (Connection.check_loop text re_search items d c1)
        as [[calls c2] e].
      cbn [fst snd map forallb] in *.
      destruct IH as (IHw & IHr & IHc & IHs).
      unfold write_and_drain in IHw. rewrite Hn in IHw. simpl in IHw.
      rewrite <- app_assoc in IHw. simpl in IHw.
      repeat split; try assumption.
      rewrite IHs. unfold c1, response_of. simpl. lia.
    + now apply IH.
Qed.

(** C8, as the code has it.  When no trigger's pattern test raises on the
    chunk, [send] is called with the stored response of every matching
    trigger, in the iteration order of [triggers] and with no change to
    the bytes (no substitution of capture groups); and on a connected
    connection whose writer accepts the calls, these very bytes are what
    the writer receives, in that order. *)
Theorem check_triggers_sends_stored_responses (c : TCPConnection)
    (data : bytes) :
  let d := decode_utf8_ignore data in
  forallb (fun e => negb (pattern_fails d e)) (triggers c) = true ->
  map fst (fst (check_triggers c data))
  = map response_of (filter (matches d) (triggers c))
  /\ (forall w, connected c = true -> writer c = Some w -> outcomes w = [] ->
        writer (snd (check_triggers c data))
        = Some (mkWriter
                  (written w
                   ++ map response_of (filter (matches d) (triggers c)))
                  [])
        /\ forallb snd (fst (check_triggers c data)) = true).
Proof.
  intros d Hall. split.
  - pose proof (check_loop_calls (triggers c) d c) as H.
    unfold check_triggers, Connection.check_triggers. fold d.
    unfold check_loop in H.
    destruct (Connection.check_loop text re_search (triggers c) d c)
      as [[calls c'] e].
    simpl in *. rewrite H. unfold evaluated. now rewrite evaluated_all.
  - intros w Hc Hw Ho.
    pose proof (check_loop_written (triggers c) d Hall c w Hc Hw Ho)
      as (Hwr & Hres & _).
    unfold check_triggers, Connection.check_triggers. fold d.
    unfold check_loop in Hwr, Hres.
    destruct (Connection.check_loop text re_search (triggers c) d c)
      as [[calls c'] e].
    simpl in *. split; assumption.
Qed.

End TriggerDispatch.

(* ===================================================================== *)
(** * The theorems at work on sample connections *)

Section OnSamples.

Import Connection.

Lemma bytes_received_invariant_witness :
  Plain.reaches [Sample.ping_chunk; Sample.both_chunk; Sample.b "bye"]
                (Plain.run Sample.session Sample.fresh)
  /\ buffer (Plain.run Sample.session Sample.fresh) = [Sample.b "bye"]
  /\ bytes_received (Plain.run Sample.session Sample.fresh) = 17 + 12 + 3.
Proof.
  assert (H : Plain.reaches
                [Sample.ping_chunk; Sample.both_chunk; Sample.b "bye"]
                (Plain.run Sample.session Sample.fresh)).
  { exact (reaches_run string Plain.decode_ascii Plain.search Sample.session []
             Sample.fresh
             (reaches_new string Plain.decode_ascii Plain.search
                "conn-1" "localhost" 8080)). }
  split; [exact H|]. split; [reflexivity|].
  rewrite (proj1 (bytes_received_invariant string Plain.decode_ascii
                    Plain.search _ _ H)).
  reflexivity.
Defined.

(** The scenario of the unit tests: the chunks of a script are appended in
    order and counted, and the end of the stream disconnects. *)
Example read_loop_script :
  buffer (snd (Plain.read_loop
                 [ReadData (Sample.b "data1"); ReadData (Sample.b "data2");
                  ReadData []]
                 (Sample.live [])))
  = [Sample.b "data1"; Sample.b "data2"]
  /\ bytes_received (snd (Plain.read_loop
                 [ReadData (Sample.b "data1"); ReadData (Sample.b "data2");
                  ReadData []]
                 (Sample.live []))) = 10
  /\ connected (snd (Plain.read_loop
                 [ReadData (Sample.b "data1"); ReadData (Sample.b "data2");
                  ReadData []]
                 (Sample.live []))) = false.
Proof. repeat split. Qed.

(** C7, where the claim fails.  Two triggers are registered, the first
    with the pattern [(], which does not compile, the second with the
    pattern [PING].  On a chunk that [PING] matches, the test of the first
    pattern raises, the handler of [_check_triggers] absorbs the error, and
    the second trigger is never dispatched: [send] is not called at all. *)
Lemma check_triggers_stops_at_failing_pattern :
  triggers Sample.unclosed_then_ping
  = [("(", ("bad_trigger", Sample.b "never"));
     ("PING", ("ping_trigger", Sample.pong))]
  /\ Plain.in_fragment "(" = true
  /\ Plain.in_fragment "PING" = true
  /\ Plain.search "(" (Plain.decode_ascii Sample.ping_chunk) = PatternError
  /\ Plain.search "PING" (Plain.decode_ascii Sample.ping_chunk) = Found
  /\ Plain.check_triggers Sample.unclosed_then_ping Sample.ping_chunk
     = ([], Sample.unclosed_then_ping).
Proof. repeat split. Qed.

(** A failed send, on the other hand, does not end the evaluation: the
    first response meets a write error, which disconnects, and [send] is
    still called with the second response (and returns false). *)
Lemma check_triggers_dispatch_witness :
  map fst (fst (Plain.check_triggers (Sample.hello_ping [WriteRaises])
                                     Sample.both_chunk))
  = [Sample.b "HI THERE"; Sample.pong]
  /\ map snd (fst (Plain.check_triggers (Sample.hello_ping [WriteRaises])
                                        Sample.both_chunk))
     = [false; false]
  /\ connected (snd (Plain.check_triggers (Sample.hello_ping [WriteRaises])
                                          Sample.both_chunk)) = false.
Proof.
  split; [|split; reflexivity].
  unfold Plain.check_triggers.
  rewrite (proj1 (proj2 (check_triggers_dispatch string Plain.decode_ascii
                           Plain.search (Sample.hello_ping [WriteRaises])
                           Sample.both_chunk)) eq_refl).
  reflexivity.
Defined.

(** C8, where the claim fails.  Three triggers are registered: [HELLO],
    then the pattern [(] that does not compile, then [PING].  On a chunk
    that both [HELLO] and [PING] match, only the response of [HELLO] is
    sent: the response of the matching trigger [PING] is not. *)
Lemma check_triggers_skips_matching_trigger :
  map fst (triggers Sample.hello_unclosed_ping) = ["HELLO"; "("; "PING"]
  /\ Plain.search "HELLO" (Plain.decode_ascii Sample.both_chunk) = Found
  /\ Plain.search "PING" (Plain.decode_ascii Sample.both_chunk) = Found
  /\ fst (Plain.check_triggers Sample.hello_unclosed_ping Sample.both_chunk)
     = [(Sample.b "HI THERE", true)]
  /\ writer (snd (Plain.check_triggers Sample.hello_unclosed_ping
                                       Sample.both_chunk))
     = Some (mkWriter [Sample.b "HI THERE"] []).
Proof. repeat split. Qed.

(** With patterns that compile, both responses are sent, in the order of
    registration, and the [$1] of the second goes out as it is stored. *)
Lemma check_triggers_sends_stored_responses_witness :
  forallb (fun e => negb (Plain.pattern_fails
                            (Plain.decode_ascii Sample.both_chunk) e))
          (triggers (Sample.hello_ping [])) = true
  /\ map fst (fst (Plain.check_triggers (Sample.hello_ping [])
                                        Sample.both_chunk))
     = [Sample.b "HI THERE"; Sample.b "PONG :$1" ++ [x0d; x0a]]
  /\ writer (snd (Plain.check_triggers (Sample.hello_ping [])
                                       Sample.both_chunk))
     = Some (mkWriter
               [Sample.b "HI THERE"; Sample.b "PONG :$1" ++ [x0d; x0a]] []).
Proof.
  assert (H : forallb (fun e => negb (Plain.pattern_fails
                                        (Plain.decode_ascii Sample.both_chunk)
                                        e))
                      (triggers (Sample.hello_ping [])) = true)
    by reflexivity.
  pose proof (check_triggers_sends_stored_responses string Plain.decode_ascii
                Plain.search (Sample.hello_ping []) Sample.both_chunk H)
    as (Hcalls & Hwire).
  split; [exact H|]. split.
  - unfold Plain.check_triggers. rewrite Hcalls. reflexivity.
  - unfold Plain.check_triggers.
    rewrite (proj1 (Hwire (mkWriter [] []) eq_refl eq_refl eq_refl)).
    reflexivity.
Defined.

End OnSamples.

(* ===================================================================== *)
(** * More on the hex codec: the spellings it accepts *)

Section HexSpellings.

Import Spelling.

Lemma str_filter_append (p : ascii -> bool) (s t : string) :
  str_filter p (String.append s t)
  = String.append (str_filter p s) (str_filter p t).
Proof.
  induction s as [|c s IH]; [reflexivity|].
  cbn [String.append str_filter]. destruct (p c); cbn [String.append];
    now rewrite IH.
Qed.

Lemma str_filter_all (p : ascii -> bool) (s : string) :
  all_chars p s = true -> str_filter p s = s.
Proof.
  induction s as [|c s IH]; [reflexivity|]. simpl.
  intros H. apply andb_true_iff in H as [-> H]. now rewrite IH.
Qed.

Lemma str_filter_none (p : ascii -> bool) (s : string) :
  all_chars (fun c => negb (p c)) s = true -> str_filter p s = EmptyString.
Proof.
  induction s as [|c s IH]; [reflexivity|]. simpl.
  intros H. apply andb_true_iff in H as [Hc H].
  apply negb_true_iff in Hc. now rewrite Hc, IH.
Qed.

Lemma str_filter_filter (p q : ascii -> bool) (s : string) :
  str_filter p (str_filter q s) = str_filter (fun c => q c && p c) s.
Proof.
  induction s as [|c s IH]; [reflexivity|]. simpl.
  destruct (q c); simpl; [destruct (p c)|]; now rewrite IH.
Qed.

Lemma str_filter_ext (p q : ascii -> bool) (s : string) :
  (forall c, p c = q c) -> str_filter p s = str_filter q s.
Proof.
  intros H. induction s as [|c s IH]; [reflexivity|]. simpl.
  now rewrite H, IH.
Qed.

(** Replacing a one-character text by nothing removes that character. *)
Lemma str_replace_char (a : ascii) (s : string) :
  Py.str_replace (Py.str1 a) EmptyString s
  = str_filter (fun c => negb (c =? a)%char) s.
Proof.
  unfold Py.str_replace.
  induction s as [|c s IH]; [reflexivity|].
  cbn [Py.replace_from Py.str1 prefix str_filter String.length Nat.sub].
  destruct (ascii_dec a c) as [->|Hac].
  - rewrite Ascii.eqb_refl. cbn [negb String.append].
    destruct s; exact IH.
  - assert (Hca : (c =? a)%char = false)
      by (apply Ascii.eqb_neq; congruence).
    rewrite Hca. cbn [negb]. now rewrite IH.
Qed.

(** On a text without [x] and [X], the cleaning only drops the blanks. *)
Lemma clean_drops_blanks (s : string) :
  all_chars (fun c => negb (c =? "x")%char) s = true ->
  all_chars (fun c => negb (c =? "X")%char) s = true ->
  Server.clean s = drop_blanks s.
Proof.
  intros Hx HX. unfold Server.clean.
  rewrite (str_replace_lacking "x" "0x") by (reflexivity || assumption).
  rewrite (str_replace_lacking "X" "0X") by (reflexivity || assumption).
  change (String " " EmptyString) with (Py.str1 " ").
  rewrite !str_replace_char, !str_filter_filter.
  apply str_filter_ext. intros c. unfold is_blank.
  destruct (c =? " ")%char, (c =? Py.LF)%char, (c =? Py.CR)%char;
    reflexivity.
Qed.

(** What the two digits of a byte are, in either case. *)
Lemma byte_hex_case_digits (upper : bool) (x : byte) :
  exists d1 d2 top bot,
    byte_hex_case upper x = String d1 (String d2 EmptyString)
    /\ Py.is_ascii_space d1 = false
    /\ Py.digit_value d1 = Some top
    /\ Py.digit_value d2 = Some bot
    /\ Byte.of_N (Z.to_N (16 * top + bot)) = Some x
    /\ Spec.hex_byte d1 d2 = [x]
    /\ all_chars (fun c => Py.is_hex_digit c && negb (is_blank c))
                 (byte_hex_case upper x) = true.
Proof.
  destruct upper, x;
    (eexists; eexists; eexists; eexists;
     split; [reflexivity|repeat split; reflexivity]).
Qed.

Lemma hex_digit_no_marker (a : ascii) (c : ascii) :
  Py.is_hex_digit a = false ->
  Py.is_hex_digit c && negb (is_blank c) = true ->
  negb (c =? a)%char = true.
Proof.
  intros Ha Hc. apply andb_true_iff in Hc as [Hc _].
  destruct (Ascii.eqb_spec c a) as [->|]; [congruence|reflexivity].
Qed.


(** The characters of a spelling with separators. *)
Lemma bytes_hex_with_chars (upper : bool) (sep : string) (b : bytes) :
  all_chars is_blank sep = true ->
  all_chars (fun c => Py.is_hex_digit c || is_blank c)
            (bytes_hex_with upper sep b) = true.
Proof.
  intros Hsep. induction b as [|x b IH]; [reflexivity|].
  cbn [bytes_hex_with]. rewrite !all_chars_append, IH, andb_true_r.
  destruct (byte_hex_case_digits upper x)
    as (d1 & d2 & top & bot & _ & _ & _ & _ & _ & _ & Hall).
  apply andb_true_iff. split.
  - revert Hall. apply all_chars_impl. intros c H.
    apply andb_true_iff in H as [-> _]. reflexivity.
  - revert Hsep. apply all_chars_impl. intros c H.
    rewrite H. apply orb_true_r.
Qed.

Lemma bytes_hex_with_lacks (a : ascii) (upper : bool) (sep : string)
    (b : bytes) :
  Py.is_hex_digit a = false -> is_blank a = false ->
  all_chars is_blank sep = true ->
  all_chars (fun c => negb (c =? a)%char) (bytes_hex_with upper sep b) = true.
Proof.
  intros Hh Hb Hsep.
  apply (all_chars_impl (fun c => Py.is_hex_digit c || is_blank c));
    [|now apply bytes_hex_with_chars].
  intros c Hc. destruct (Ascii.eqb_spec c a) as [->|]; [|reflexivity].
  rewrite Hh, Hb in Hc. discriminate.
Qed.

Lemma drop_blanks_spelling (upper : bool) (sep : string) (b : bytes) :
  all_chars is_blank sep = true ->
  drop_blanks (bytes_hex_with upper sep b)
  = bytes_hex_with upper EmptyString b.
Proof.
  intros Hsep. unfold drop_blanks.
  induction b as [|x b IH]; [reflexivity|].
  cbn [bytes_hex_with]. rewrite !str_filter_append, IH.
  destruct (byte_hex_case_digits upper x)
    as (d1 & d2 & top & bot & _ & _ & _ & _ & _ & _ & Hall).
  rewrite (str_filter_all _ (byte_hex_case upper x)).
  - rewrite (str_filter_none _ sep); [reflexivity|].
    apply (all_chars_impl is_blank); [|assumption].
    intros c Hc. now rewrite Hc.
  - revert Hall. apply all_chars_impl. intros c H.
    apply andb_true_iff in H as [_ H]. exact H.
Qed.

Lemma bytes_fromhex_spelling (upper : bool) (b : bytes) :
  Py.bytes_fromhex (bytes_hex_with upper EmptyString b) = Ok b.
Proof.
  induction b as [|x b IH]; [reflexivity|].
  destruct (byte_hex_case_digits upper x)
    as (d1 & d2 & top & bot & Hx & Hsp & Htop & Hbot & Hb & _).
  cbn [bytes_hex_with]. rewrite Hx.
  cbn [String.append Py.bytes_fromhex].
  rewrite Hsp, Htop, Hbot, IH. cbn [bind]. now rewrite Hb.
Qed.

Lemma parse_spelling (upper : bool) (sep : string) (b : bytes) :
  all_chars is_blank sep = true ->
  Server.parse_hex_string (bytes_hex_with upper sep b) = Ok b.
Proof.
  intros Hsep.
  rewrite parse_hex_string_plain
    by (apply (str_in_lacking "\"); [reflexivity|];
        now apply bytes_hex_with_lacks).
  rewrite clean_drops_blanks by now apply bytes_hex_with_lacks.
  now rewrite drop_blanks_spelling, bytes_fromhex_spelling.
Qed.

Lemma replace_from_skip (old new t s : string) :
  Py.replace_from old new (String.length t) (String.append t s)
  = Py.replace_from old new 0 s.
Proof. induction t as [|c t IH]; [reflexivity|exact IH]. Qed.

Lemma prefix_append (old s : string) : prefix old (String.append old s) = true.
Proof.
  induction old as [|c old IH]; [destruct s; reflexivity|].
  cbn [String.append prefix].
  destruct (ascii_dec c c) as [_|N]; [exact IH|now contradiction N].
Qed.

(** An occurrence in front is replaced, and the search goes on behind it. *)
Lemma str_replace_front (a : ascii) (old new s : string) :
  Py.str_replace (String a old) new (String.append (String a old) s)
  = String.append new (Py.str_replace (String a old) new s).
Proof.
  unfold Py.str_replace.
  change (String.append (String a old) s)
    with (String a (String.append old s)).
  cbn [Py.replace_from].
  change (String a (String.append old s))
    with (String.append (String a old) s).
  rewrite prefix_append.
  cbn [String.length Nat.sub]. rewrite Nat.sub_0_r.
  now rewrite replace_from_skip.
Qed.

Lemma all_chars_cons (p : ascii -> bool) (c : ascii) (s : string) :
  all_chars p (String c s) = p c && all_chars p s.
Proof. reflexivity. Qed.

(** Beside C5: plain hex is read whatever the case of its digits, with
    blanks, line feeds and carriage returns after the pairs, and with a
    [0x] or [0X] in front. *)
Theorem decode_hex_plain_spellings (upper : bool) (sep : string) (b : bytes) :
  all_chars is_blank sep = true ->
  Server.decode_hex (bytes_hex_with upper sep b) = Ok b
  /\ Server.decode_hex (String.append "0x" (bytes_hex_with upper sep b))
     = Ok b
  /\ Server.decode_hex (String.append "0X" (bytes_hex_with upper sep b))
     = Ok b.
Proof.
  intros Hsep. unfold Server.decode_hex.
  pose proof (parse_spelling upper sep b Hsep) as Hplain.
  set (t := bytes_hex_with upper sep b) in *.
  assert (Hlb := bytes_hex_with_lacks "\" upper sep b eq_refl eq_refl Hsep).
  assert (Hlx := bytes_hex_with_lacks "x" upper sep b eq_refl eq_refl Hsep).
  assert (HlX := bytes_hex_with_lacks "X" upper sep b eq_refl eq_refl Hsep).
  fold t in Hlb, Hlx, HlX.
  assert (Hclean : Py.bytes_fromhex (Server.clean t) = Ok b).
  { rewrite clean_drops_blanks by assumption. unfold t.
    now rewrite drop_blanks_spelling, bytes_fromhex_spelling. }
  split; [exact Hplain|]. split.
  - rewrite parse_hex_string_plain.
    + replace (Server.clean (String.append "0x" t)) with (Server.clean t);
        [now rewrite Hclean|].
      unfold Server.clean. now rewrite str_replace_front.
    + apply (str_in_lacking "\"); [reflexivity|].
      change (String.append "0x" t) with (String "0" (String "x" t)).
      now rewrite !all_chars_cons, Hlb.
  - rewrite parse_hex_string_plain.
    + replace (Server.clean (String.append "0X" t)) with (Server.clean t);
        [now rewrite Hclean|].
      unfold Server.clean.
      rewrite (str_replace_lacking "x" "0x" _ t)
        by (reflexivity || assumption).
      rewrite (str_replace_lacking "x" "0x" _ (String.append "0X" t)).
      * now rewrite str_replace_front.
      * reflexivity.
      * change (String.append "0X" t) with (String "0" (String "X" t)).
        now rewrite !all_chars_cons, Hlx.
    + apply (str_in_lacking "\"); [reflexivity|].
      change (String.append "0X" t) with (String "0" (String "X" t)).
      now rewrite !all_chars_cons, Hlb.
Qed.

Lemma decode_hex_plain_spellings_witness :
  all_chars is_blank (String " " (String Py.LF EmptyString)) = true
  /\ Server.decode_hex
       (String.append "0x"
          (bytes_hex_with true (String " " (String Py.LF EmptyString))
             [x48; x65; x6c]))
     = Ok [x48; x65; x6c].
Proof.
  split; [reflexivity|].
  exact (proj1 (proj2 (decode_hex_plain_spellings true
                         (String " " (String Py.LF EmptyString))
                         [x48; x65; x6c] eq_refl))).
Defined.

End HexSpellings.

Section HexEdges.

Import Spelling.


(** Blanks, line feeds and carriage returns are ignored wherever they
    stand in plain hex, inside a pair too; so a text made of them alone,
    such as a terminator given as a literal CR LF, is read as no byte at
    all. *)
Theorem decode_hex_ignores_blanks (s : string) (b : bytes) :
  all_chars (fun c => negb (c =? "x")%char) s = true ->
  all_chars (fun c => negb (c =? "X")%char) s = true ->
  all_chars (fun c => negb (c =? "\")%char) s = true ->
  Py.bytes_fromhex (drop_blanks s) = Ok b ->
  Server.decode_hex s = Ok b
  /\ (all_chars is_blank s = true -> b = []).
Proof.
  intros Hx HX Hb Hhex. unfold Server.decode_hex. split.
  - rewrite parse_hex_string_plain
      by (apply (str_in_lacking "\"); [reflexivity|assumption]).
    now rewrite clean_drops_blanks, Hhex.
  - intros Hblank. unfold drop_blanks in Hhex.
    rewrite str_filter_none in Hhex.
    + now inversion Hhex.
    + revert Hblank. apply all_chars_impl. intros c ->. reflexivity.
Qed.

Lemma decode_hex_ignores_blanks_witness :
  Py.bytes_fromhex
    (drop_blanks (String "4" (String " " (String "8" (String Py.CR "6 5")))))
  = Ok [x48; x65]
  /\ Server.decode_hex
       (String "4" (String " " (String "8" (String Py.CR "6 5"))))
     = Ok [x48; x65]
  /\ Server.decode_hex (String Py.CR (String Py.LF EmptyString)) = Ok [].
Proof.
  split; [reflexivity|]. split.
  - exact (proj1 (decode_hex_ignores_blanks
                    (String "4" (String " " (String "8" (String Py.CR "6 5"))))
                    [x48; x65] eq_refl eq_refl eq_refl eq_refl)).
  - exact (proj1 (decode_hex_ignores_blanks
                    (String Py.CR (String Py.LF EmptyString))
                    [] eq_refl eq_refl eq_refl eq_refl)).
Defined.

(** The scan of a text of escapes. *)
Lemma scan_escaped (upper : bool) (b : bytes) :
  exists ts,
    Re.scan (escaped upper b) = ts
    /\ forallb is_esc ts = true
    /\ flat_map Spec.fragment_bytes ts = b
    /\ forall cur,
         Server.taken_for_escape cur = false ->
         forallb (fun p => negb (Server.taken_for_escape p))
                 (Re.literal_parts (Re.split_tokens cur ts)) = true.
Proof.
  unfold Re.scan.
  induction b as [|x b (ts & Hts & Hesc & Hbytes & Hlit)].
  - exists []. repeat split. intros cur Hcur. simpl. now rewrite Hcur.
  - destruct (byte_hex_case_digits upper x)
      as (d1 & d2 & top & bot & Hx & _ & Htop & Hbot & _ & Hbyte & _).
    exists (Re.Esc d1 d2 :: ts). split; [|split; [|split]].
    + cbn [escaped]. rewrite Hx.
      cbn [String.append Re.scan_from Re.matches_at].
      unfold Py.is_hex_digit. rewrite Htop, Hbot.
      cbn [Ascii.eqb Bool.eqb andb]. now rewrite Hts.
    + exact Hesc.
    + cbn [flat_map Spec.fragment_bytes]. now rewrite Hbyte, Hbytes.
    + intros cur Hcur.
      cbn [Re.split_tokens Re.literal_parts forallb].
      rewrite Hcur. cbn [negb andb]. now apply Hlit.
Qed.

(** The legacy spelling is read back: decoding [\xNN] for each byte of
    [b], in either case, gives [b]. *)
Theorem decode_hex_escaped (upper : bool) (b : bytes) :
  Server.decode_hex (escaped upper b) = Ok b.
Proof.
  unfold Server.decode_hex.
  destruct b as [|x b]; [reflexivity|].
  destruct (scan_escaped upper (x :: b)) as (ts & Hts & _ & Hbytes & Hlit).
  rewrite parse_hex_string_escapes.
  - unfold Spec.decode_escaped. now rewrite Hts, Hbytes.
  - cbn [escaped String.append Py.str_in prefix].
    destruct (ascii_dec "\" "\") as [_|N]; [|now contradiction N].
    destruct (ascii_dec "x" "x") as [_|N]; [|now contradiction N].
    reflexivity.
  - unfold Re.split. rewrite Hts. now apply Hlit.
Qed.

End HexEdges.

(* ===================================================================== *)
(** * More on the connection: its buffer, its counters, its streams *)

Section ConnectionInvariants.

Import Connection Observe.

Variable text : Type.
Variable decode_utf8_ignore : bytes -> text.
Variable re_search : string -> text -> search_result.

Let check_loop := Connection.check_loop text re_search.
Let check_triggers := Connection.check_triggers text decode_utf8_ignore re_search.
Let loop_body := Connection.loop_body text decode_utf8_ignore re_search.
Let read_loop := Connection.read_loop text decode_utf8_ignore re_search.
Let step := Connection.step text decode_utf8_ignore re_search.
Let run := Connection.run text decode_utf8_ignore re_search.
Let reaches := Connection.reaches text decode_utf8_ignore re_search.

Lemma sum_len_nonneg (l : list bytes) : 0 <= Py.sum_len l.
Proof.
  induction l as [|x l IH]; simpl; [lia|]. unfold Py.len. lia.
Qed.

(** [send] never connects, never changes which streams are there, and
    never lowers [bytes_sent]. *)
Lemma send_streams (c : TCPConnection) (data : bytes) :
  (connected (snd (send c data)) = true -> connected c = true)
  /\ (writer (snd (send c data)) = None <-> writer c = None)
  /\ reader (snd (send c data)) = reader c
  /\ bytes_sent c <= bytes_sent (snd (send c data))
  /\ connection_id (snd (send c data)) = connection_id c
  /\ host (snd (send c data)) = host c
  /\ port (snd (send c data)) = port c.
Proof.
  unfold send. destruct (connected c) eqn:Hc; simpl.
  - destruct (writer c) as [w|] eqn:Hw; simpl.
    + destruct (next_outcome w); simpl;
        repeat split; try congruence; try discriminate;
        unfold Py.len; lia.
    + rewrite Hc, Hw. repeat split; try congruence; lia.
  - rewrite Hc. repeat split; try congruence; lia.
Qed.

Lemma check_loop_streams (items : list trigger_entry) (d : text) :
  forall c,
    (connected (snd (fst (check_loop items d c))) = true -> connected c = true)
    /\ (writer (snd (fst (check_loop items d c))) = None <-> writer c = None)
    /\ reader (snd (fst (check_loop items d c))) = reader c
    /\ bytes_sent c <= bytes_sent (snd (fst (check_loop items d c)))
    /\ connection_id (snd (fst (check_loop items d c))) = connection_id c
    /\ host (snd (fst (check_loop items d c))) = host c
    /\ port (snd (fst (check_loop items d c))) = port c.
Proof.
  unfold check_loop.
  induction items as [|[pattern [tid response]] items IH]; intros c.
  - simpl. repeat split; try tauto; lia.
  - cbn [Connection.check_loop].
    destruct (re_search pattern d).
    + pose proof (send_streams c response) as (Hc & Hw & Hr & Hs & Hi & Hh & Hp).
      destruct (send c response) as [ok c1]. simpl in *.
      specialize (IH c1).
      destruct (Connection.check_loop text re_search items d c1)
        as [[calls c2] e].
      simpl in *. destruct IH as (Ic & Iw & Ir & Is & Ii & Ih & Ip).
      repeat split; try tauto; try congruence; lia.
    + apply IH.
    + simpl. repeat split; try tauto; lia.
Qed.

Lemma check_triggers_streams (c : TCPConnection) (data : bytes) :
  (connected (snd (check_triggers c data)) = true -> connected c = true)
  /\ (writer (snd (check_triggers c data)) = None <-> writer c = None)
  /\ reader (snd (check_triggers c data)) = reader c
  /\ bytes_sent c <= bytes_sent (snd (check_triggers c data))
  /\ connection_id (snd (check_triggers c data)) = connection_id c
  /\ host (snd (check_triggers c data)) = host c
  /\ port (snd (check_triggers c data)) = port c.
Proof.
  unfold check_triggers, Connection.check_triggers.
  pose proof (check_loop_streams (triggers c) (decode_utf8_ignore data) c) as H.
  unfold check_loop in H.
  destruct (Connection.check_loop text re_search (triggers c)
              (decode_utf8_ignore data) c) as [[calls c'] e].
  exact H.
Qed.

(** One operation: the streams, the flag and [bytes_sent] after it. *)
Lemma step_streams (o : op) (c : TCPConnection) :
  (connected c = true -> reader c = true /\ writer c <> None) ->
  connected (step o c) = true ->
  reader (step o c) = true /\ writer (step o c) <> None.
Proof.
  intros Hinv.
  destruct o as [o| |data|r|? ?| | |? ? ?|tid|];
    unfold step, Connection.step; simpl; try exact Hinv.
  - destruct o; simpl; [split; congruence|discriminate].
  - discriminate.
  - pose proof (send_streams c data) as (Hc & Hw & Hr & _).
    intros H. destruct (Hinv (Hc H)) as [H1 H2].
    split; [congruence|]. intros N. apply H2. now apply Hw.
  - unfold Connection.loop_body.
    destruct r as [[|b data]| |]; simpl; try discriminate; try exact Hinv.
    set (c2 := set_bytes_received _ _).
    pose proof (check_triggers_streams c2 (b :: data)) as (Hc & Hw & Hr & _).
    unfold check_triggers in Hc, Hw, Hr.
    destruct (Connection.check_triggers _ _ _ c2 _) as [calls c3].
    simpl in *. intros H. destruct (Hinv (Hc H)) as [H1 H2].
    split; [congruence|]. intros N. apply H2. now apply Hw.
  - unfold remove_trigger.
    destruct (find_pattern (triggers c) tid); simpl; exact Hinv.
Qed.

Lemma step_bytes_sent (o : op) (c : TCPConnection) :
  bytes_sent c <= bytes_sent (step o c).
Proof.
  destruct o as [o| |data|r|? ?| | |? ? ?|tid|];
    unfold step, Connection.step; simpl; try lia.
  - destruct o; simpl; lia.
  - apply send_streams.
  - unfold Connection.loop_body.
    destruct r as [[|b data]| |]; simpl; try lia.
    set (c2 := set_bytes_received _ _).
    pose proof (check_triggers_streams c2 (b :: data)) as (_ & _ & _ & Hs & _).
    unfold check_triggers in Hs.
    destruct (Connection.check_triggers _ _ _ c2 _) as [calls c3].
    simpl in *. exact Hs.
  - unfold remove_trigger.
    destruct (find_pattern (triggers c) tid); simpl; lia.
Qed.

Lemma appended_nonempty (o : op) :
  Forall (fun chunk : bytes => chunk <> []) (appended o).
Proof.
  destruct o as [o| |data|r|? ?| | |? ? ?|tid|]; simpl; try constructor.
  destruct r as [[|b data]| |]; simpl; constructor;
    [discriminate|constructor].
Qed.

Lemma len_le_sum_len (l : list bytes) :
  Forall (fun chunk : bytes => chunk <> []) l -> Py.len l <= Py.sum_len l.
Proof.
  induction l as [|x l IH]; intros H; [reflexivity|].
  inversion H as [|? ? Hx Hl]; subst. specialize (IH Hl).
  destruct x as [|b x]; [now contradiction Hx|].
  cbn [Py.sum_len]. unfold Py.len in *.
  cbn [List.length]. rewrite !Nat2Z.inj_succ. lia.
Qed.

(** The buffer is the end of the arrival history: what was received since
    the last [clear_buffer], each chunk as it arrived and in the order of
    arrival; no chunk of the buffer is empty; and [get_buffer_info] never
    reports more bytes in the buffer than were received, nor more chunks
    than bytes. *)
Theorem buffer_is_tail_of_history (hist : list bytes) (c : TCPConnection) :
  reaches hist c ->
  (exists cleared, hist = cleared ++ buffer c)
  /\ Forall (fun chunk : bytes => chunk <> []) (buffer c)
  /\ total_bytes (get_buffer_info c)
     <= info_bytes_received (get_buffer_info c)
  /\ chunks (get_buffer_info c) <= total_bytes (get_buffer_info c).
Proof.
  intros Hreach.
  assert (Htail : exists cleared, hist = cleared ++ buffer c).
  { induction Hreach as [id h p|hist c o Hreach [cleared IH]].
    - exists []. reflexivity.
    - pose proof (step_buffer text decode_utf8_ignore re_search o c) as Hb.
      rewrite Hb. destruct (is_clear o) eqn:Hclear.
      + exists hist. destruct o; try discriminate. simpl.
        now rewrite app_nil_r.
      + exists cleared. now rewrite IH, app_assoc. }
  assert (Hhist : Forall (fun chunk : bytes => chunk <> []) hist).
  { clear Htail. induction Hreach as [id h p|hist c o Hreach IH].
    - constructor.
    - apply Forall_app. split; [exact IH|apply appended_nonempty]. }
  assert (Hne : Forall (fun chunk : bytes => chunk <> []) (buffer c)).
  { destruct Htail as [cleared E]. rewrite E in Hhist.
    now apply Forall_app in Hhist. }
  split; [exact Htail|]. split; [exact Hne|]. split.
  - simpl. rewrite (reaches_counts text decode_utf8_ignore re_search hist c)
      by exact Hreach.
    destruct Htail as [cleared ->]. rewrite sum_len_app.
    pose proof (sum_len_nonneg cleared). lia.
  - simpl. now apply len_le_sum_len.
Qed.

(** On a connection reached from a fresh one: a connected connection has
    its reader and its writer, so that [send] does not fail for want of a
    writer; [bytes_sent] is not negative; and no operation lowers
    [bytes_sent] or [bytes_received]. *)
Theorem connected_has_streams (hist : list bytes) (c : TCPConnection) :
  reaches hist c ->
  (connected c = true -> reader c = true /\ exists w, writer c = Some w)
  /\ 0 <= bytes_sent c
  /\ 0 <= bytes_received c
  /\ (forall o,
        bytes_sent c <= bytes_sent (step o c)
        /\ bytes_received c <= bytes_received (step o c)).
Proof.
  intros Hreach.
  assert (Hs : (connected c = true -> reader c = true /\ writer c <> None)
               /\ 0 <= bytes_sent c).
  { induction Hreach as [id h p|hist c o Hreach [IH1 IH2]].
    - split; [discriminate|simpl; lia].
    - split; [now apply step_streams|].
      pose proof (step_bytes_sent o c). fold step. lia. }
  destruct Hs as [Hstreams Hsent].
  split; [|split; [exact Hsent|split]].
  - intros Hc. destruct (Hstreams Hc) as [Hr Hw]. split; [exact Hr|].
    destruct (writer c) as [w|]; [now exists w|now contradiction Hw].
  - rewrite (reaches_counts text decode_utf8_ignore re_search hist c)
      by exact Hreach.
    apply sum_len_nonneg.
  - intros o. split; [apply step_bytes_sent|].
    unfold step.
    rewrite (step_bytes_received text decode_utf8_ignore re_search).
    pose proof (sum_len_nonneg (appended o)). lia.
Qed.

End ConnectionInvariants.

Section ReceiveLoopRuns.

Import Connection Observe.

Variable text : Type.
Variable decode_utf8_ignore : bytes -> text.
Variable re_search : string -> text -> search_result.

Let check_triggers := Connection.check_triggers text decode_utf8_ignore re_search.
Let loop_body := Connection.loop_body text decode_utf8_ignore re_search.
Let read_loop := Connection.read_loop text decode_utf8_ignore re_search.

(** The loop appends chunks of the script, from the first on, as long as
    it runs. *)
Lemma read_loop_prefix (script : list read_outcome) :
  forall c,
  exists n,
    buffer (snd (read_loop script c)) = buffer c ++ firstn n (arrivals script)
    /\ bytes_received (snd (read_loop script c))
       = bytes_received c + Py.sum_len (firstn n (arrivals script)).
Proof.
  unfold read_loop.
  induction script as [|r rest IH]; intros c.
  - exists 0%nat. simpl. rewrite app_nil_r. split; [reflexivity|lia].
  - cbn [Connection.read_loop].
    destruct (connected c && reader c).
    + destruct r as [[|b data]| |].
      * exists 0%nat. simpl. rewrite app_nil_r. split; [reflexivity|lia].
      * cbn [Connection.loop_body].
        set (c2 := set_bytes_received _ _).
        pose proof (check_triggers_frame text decode_utf8_ignore re_search
                      c2 (b :: data)) as (Hb & Hr & _).
        destruct (Connection.check_triggers _ _ _ c2 _) as [calls c3].
        simpl in Hb, Hr.
        destruct (IH c3) as (n & Hn1 & Hn2).
        destruct (Connection.read_loop text decode_utf8_ignore re_search
                    rest c3) as [calls' c4].
        cbn [fst snd] in *. exists (S n).
        cbn [arrivals firstn Py.sum_len].
        rewrite Hn1, Hn2, Hb, Hr. unfold c2.
        cbn [buffer bytes_received set_bytes_received set_buffer].
        rewrite <- app_assoc. split; [reflexivity|lia].
      * exists 0%nat. simpl. rewrite app_nil_r. split; [reflexivity|lia].
      * exists 0%nat. simpl. rewrite app_nil_r. split; [reflexivity|lia].
    + exists 0%nat. simpl. rewrite app_nil_r. split; [reflexivity|lia].
Qed.

(** Without triggers nothing stops the loop before the script does. *)
Lemma read_loop_all (script : list read_outcome) :
  forall c,
    triggers c = [] -> connected c = true -> reader c = true ->
    buffer (snd (read_loop script c)) = buffer c ++ arrivals script.
Proof.
  unfold read_loop.
  induction script as [|r rest IH]; intros c Ht Hc Hr.
  - simpl. now rewrite app_nil_r.
  - cbn [Connection.read_loop]. rewrite Hc, Hr. cbn [andb].
    destruct r as [[|b data]| |]; try (simpl; now rewrite app_nil_r).
    cbn [Connection.loop_body]. unfold Connection.check_triggers.
    cbn [triggers set_bytes_received set_buffer]. rewrite Ht.
    cbn [Connection.check_loop].
    set (c2 := set_bytes_received _ _).
    specialize (IH c2 Ht Hc Hr).
    destruct (Connection.read_loop text decode_utf8_ignore re_search rest c2)
      as [calls' c4].
    simpl in *. rewrite IH. now rewrite <- app_assoc.
Qed.

(** The receive loop appends the chunks it reads in the order they arrive,
    each as one chunk, and counts them: after it the buffer is the old
    buffer followed by the first chunks of the script, and
    [bytes_received] has grown by their lengths.  Without triggers these
    are all the chunks the script delivers before its first end; and on a
    connection that is not connected the loop does nothing. *)
Theorem read_loop_appends_arrivals (script : list read_outcome)
    (c : TCPConnection) :
  (exists n,
     buffer (snd (read_loop script c)) = buffer c ++ firstn n (arrivals script)
     /\ bytes_received (snd (read_loop script c))
        = bytes_received c + Py.sum_len (firstn n (arrivals script)))
  /\ (triggers c = [] -> connected c = true -> reader c = true ->
        buffer (snd (read_loop script c)) = buffer c ++ arrivals script)
  /\ (connected c = false -> read_loop script c = ([], c)).
Proof.
  split; [apply read_loop_prefix|]. split; [apply read_loop_all|].
  intros Hc. unfold read_loop. destruct script; [reflexivity|].
  cbn [Connection.read_loop]. now rewrite Hc.
Qed.

(** After [disconnect] the connection is inert and still readable:
    disconnecting again changes nothing, [send] returns false and the
    receive loop does nothing, while the buffer, the triggers and the
    counters are those of before. *)
Theorem disconnect_inert (c : TCPConnection) :
  disconnect (disconnect c) = disconnect c
  /\ same_data c (disconnect c)
  /\ connected (disconnect c) = false
  /\ (forall data, send (disconnect c) data = (false, disconnect c))
  /\ (forall script, read_loop script (disconnect c) = ([], disconnect c))
  /\ (forall index count,
        read_buffer (disconnect c) index count = read_buffer c index count).
Proof.
  split; [reflexivity|]. split; [repeat split|]. split; [reflexivity|].
  split; [reflexivity|]. split; [|reflexivity].
  intros script. unfold read_loop. destruct script; reflexivity.
Qed.

End ReceiveLoopRuns.

Section TriggerTable.

Import Connection Observe.

Lemma dict_set_in (d : list trigger_entry) (k : string) (v : string * bytes) :
  In (k, v) (dict_set d k v).
Proof.
  induction d as [|[k' v'] d IH]; simpl; [now left|].
  destruct (k' =? k)%string; [now left|now right].
Qed.

Lemma dict_set_other (d : list trigger_entry) (k k' : string)
    (v v' : string * bytes) :
  k' <> k -> In (k', v') d -> In (k', v') (dict_set d k v).
Proof.
  intros Hk. induction d as [|[k0 v0] d IH]; simpl; [tauto|].
  intros [H|H].
  - inversion H; subst.
    destruct (String.eqb_spec k' k) as [E|_]; [now contradiction Hk|now left].
  - destruct (k0 =? k)%string; right; [exact H|now apply IH].
Qed.

Lemma dict_set_length (d : list trigger_entry) (k : string)
    (v : string * bytes) :
  List.length (dict_set d k v)
  = if has_pattern k d then List.length d else S (List.length d).
Proof.
  unfold has_pattern.
  induction d as [|[k' v'] d IH]; [reflexivity|].
  cbn [dict_set existsb fst].
  destruct (k' =? k)%string; cbn [orb]; [reflexivity|].
  cbn [List.length]. rewrite IH. now destruct (existsb _ d).
Qed.

Lemma dict_set_keys (d : list trigger_entry) (k : string)
    (v : string * bytes) :
  map fst (dict_set d k v)
  = if has_pattern k d then map fst d else map fst d ++ [k].
Proof.
  unfold has_pattern.
  induction d as [|[k' v'] d IH]; [reflexivity|].
  cbn [dict_set existsb fst].
  destruct (String.eqb_spec k' k) as [->|Hne]; cbn [orb]; [reflexivity|].
  cbn [map fst]. rewrite IH. now destruct (existsb _ d).
Qed.

Lemma dict_del_other (d : list trigger_entry) (k q : string)
    (v : string * bytes) :
  k <> q -> In (k, v) d -> In (k, v) (dict_del d q).
Proof.
  intros Hk. induction d as [|[k0 v0] d IH]; simpl; [tauto|].
  intros [H|H].
  - inversion H; subst.
    destruct (String.eqb_spec k q) as [E|_]; [now contradiction Hk|now left].
  - destruct (k0 =? q)%string; [exact H|right; now apply IH].
Qed.

Lemma dict_del_set_fresh (d : list trigger_entry) (k : string)
    (v : string * bytes) :
  has_pattern k d = false -> dict_del (dict_set d k v) k = d.
Proof.
  unfold has_pattern.
  induction d as [|[k' v'] d IH]; intros H.
  - simpl. now rewrite String.eqb_refl.
  - cbn [existsb fst] in H. apply orb_false_iff in H as [Hk H].
    cbn [dict_set]. rewrite Hk. cbn [dict_del]. rewrite Hk.
    now rewrite IH.
Qed.

Lemma dict_del_length (d : list trigger_entry) (k : string) :
  has_pattern k d = true ->
  S (List.length (dict_del d k)) = List.length d.
Proof.
  unfold has_pattern.
  induction d as [|[k' v'] d IH]; intros H; [discriminate|].
  cbn [existsb fst] in H. cbn [dict_del].
  destruct (k' =? k)%string; [reflexivity|].
  cbn [orb] in H. cbn [List.length]. now rewrite IH.
Qed.

Lemma find_pattern_has_id (d : list trigger_entry) (tid : string) :
  match find_pattern d tid with
  | Some p => has_id tid d = true /\ has_pattern p d = true
  | None => has_id tid d = false
  end.
Proof.
  unfold has_id, has_pattern.
  induction d as [|[k [t r]] d IH]; [reflexivity|].
  cbn [find_pattern existsb fst snd].
  destruct (t =? tid)%string.
  - split; [reflexivity|]. now rewrite String.eqb_refl.
  - cbn [orb]. destruct (find_pattern d tid) as [p|]; [|exact IH].
    destruct IH as [H1 H2]. split; [exact H1|].
    rewrite H2. apply orb_true_r.
Qed.

Lemma find_pattern_set_fresh (d : list trigger_entry) (tid k : string)
    (r : bytes) :
  has_id tid d = false ->
  find_pattern (dict_set d k (tid, r)) tid = Some k.
Proof.
  unfold has_id.
  induction d as [|[k' [t' r']] d IH]; intros H.
  - simpl. now rewrite String.eqb_refl.
  - cbn [existsb fst snd] in H. apply orb_false_iff in H as [Ht H].
    cbn [dict_set]. destruct (k' =? k)%string;
      cbn [find_pattern]; [now rewrite String.eqb_refl|].
    rewrite Ht. now apply IH.
Qed.

Lemma has_id_in (d : list trigger_entry) (tid k : string) (r : bytes) :
  In (k, (tid, r)) d -> has_id tid d = true.
Proof.
  intros H. unfold has_id. apply existsb_exists.
  exists (k, (tid, r)). split; [exact H|]. simpl. apply String.eqb_refl.
Qed.

Lemma dict_set_twice (d : list trigger_entry) (k : string)
    (v1 v2 : string * bytes) :
  dict_set (dict_set d k v1) k v2 = dict_set d k v2.
Proof.
  induction d as [|[k' v'] d IH]; simpl.
  - now rewrite String.eqb_refl.
  - destruct (k' =? k)%string eqn:Hk; simpl.
    + now rewrite String.eqb_refl.
    + now rewrite Hk, IH.
Qed.

Lemma has_id_set_other (d : list trigger_entry) (tid t k : string)
    (r : bytes) :
  has_id tid d = false -> t <> tid ->
  has_id tid (dict_set d k (t, r)) = false.
Proof.
  unfold has_id. intros H Hne.
  assert (Ht : (t =? tid)%string = false) by now apply String.eqb_neq.
  induction d as [|[k' [t' r']] d IH].
  - simpl. now rewrite Ht.
  - cbn [existsb fst snd] in H. apply orb_false_iff in H as [Ht' H].
    cbn [dict_set]. destruct (k' =? k)%string; cbn [existsb fst snd].
    + now rewrite Ht, H.
    + now rewrite Ht', IH.
Qed.

Lemma remove_trigger_missing (c : TCPConnection) (trigger_id : string) :
  has_id trigger_id (triggers c) = false ->
  remove_trigger c trigger_id = (false, c).
Proof.
  intros H. pose proof (find_pattern_has_id (triggers c) trigger_id) as Hfind.
  unfold remove_trigger.
  destruct (find_pattern (triggers c) trigger_id) as [p|]; [|reflexivity].
  destruct Hfind as [Hid _]. congruence.
Qed.

Lemma has_pattern_in (d : list trigger_entry) (k : string) :
  has_pattern k d = true <-> In k (map fst d).
Proof.
  unfold has_pattern. rewrite existsb_exists, in_map_iff. split.
  - intros (e & He & Hk). apply String.eqb_eq in Hk. now exists e.
  - intros (e & Hk & He). exists e. split; [exact He|].
    now apply String.eqb_eq.
Qed.

(** The patterns stay distinct, as the keys of a [dict] are. *)
Lemma nodup_keys_set (d : list trigger_entry) (k : string)
    (v : string * bytes) :
  NoDup (map fst d) -> NoDup (map fst (dict_set d k v)).
Proof.
  intros Hd. rewrite dict_set_keys.
  destruct (has_pattern k d) eqn:Hk; [exact Hd|].
  apply NoDup_app; [exact Hd|repeat constructor; simpl; tauto|].
  intros x Hx [<-|[]]. apply has_pattern_in in Hx. congruence.
Qed.

Lemma dict_del_keys (d : list trigger_entry) (k x : string) :
  In x (map fst (dict_del d k)) -> In x (map fst d).
Proof.
  induction d as [|[k' v'] d IH]; simpl; [tauto|].
  destruct (k' =? k)%string; simpl; tauto.
Qed.

Lemma nodup_keys_del (d : list trigger_entry) (k : string) :
  NoDup (map fst d) -> NoDup (map fst (dict_del d k)).
Proof.
  induction d as [|[k' v'] d IH]; simpl; [trivial|].
  intros Hd. inversion Hd as [|? ? Hk' Hd']; subst.
  destruct (k' =? k)%string; [exact Hd'|].
  simpl. constructor; [|now apply IH].
  intros Hin. apply Hk'. now apply dict_del_keys in Hin.
Qed.

(** What [remove_trigger] deletes: the first entry, in insertion order,
    whose identifier is the one given, and no other. *)
Lemma dict_del_found (d : list trigger_entry) (tid p : string) :
  NoDup (map fst d) ->
  find_pattern d tid = Some p ->
  exists before response after,
    d = before ++ (p, (tid, response)) :: after
    /\ has_id tid before = false
    /\ dict_del d p = before ++ after.
Proof.
  unfold has_id.
  induction d as [|[k [t r]] d IH]; [discriminate|].
  intros Hd Hfind. inversion Hd as [|? ? Hk Hd']; subst.
  cbn [find_pattern] in Hfind.
  destruct (String.eqb_spec t tid) as [->|Ht].
  - injection Hfind as <-. exists [], r, d.
    cbn [dict_del app existsb]. now rewrite String.eqb_refl.
  - destruct (IH Hd' Hfind) as (before & response & after & -> & Hid & Hdel).
    exists ((k, (t, r)) :: before), response, after.
    split; [reflexivity|]. split.
    + cbn [existsb fst snd]. rewrite Hid.
      apply String.eqb_neq in Ht. now rewrite Ht.
    + cbn [dict_del].
      destruct (String.eqb_spec k p) as [->|_].
      * exfalso. apply Hk. rewrite map_app, in_app_iff. right. now left.
      * now rewrite Hdel.
Qed.

(** [remove_trigger] returns whether some trigger carries the identifier.
    If none does, the connection is left as it is.  If one does, the
    trigger removed is the first one, in insertion order, that carries the
    identifier: the triggers in front of it and behind it are kept, in
    their order, and nothing else of the connection changes; so exactly
    one trigger is removed.  And removing the identifier of a trigger just
    added, when neither its identifier nor its pattern was in use, gives
    the connection of before. *)
Theorem remove_trigger_result (c : TCPConnection) (trigger_id : string) :
  fst (remove_trigger c trigger_id) = has_id trigger_id (triggers c)
  /\ (has_id trigger_id (triggers c) = false ->
        remove_trigger c trigger_id = (false, c))
  /\ (has_id trigger_id (triggers c) = true ->
        S (List.length (triggers (snd (remove_trigger c trigger_id))))
        = List.length (triggers c))
  /\ (forall pattern response,
        has_id trigger_id (triggers c) = false ->
        has_pattern pattern (triggers c) = false ->
        remove_trigger (add_trigger c trigger_id pattern response) trigger_id
        = (true, c))
  /\ (NoDup (map fst (triggers c)) ->
      has_id trigger_id (triggers c) = true ->
      exists before pattern response after,
        triggers c = before ++ (pattern, (trigger_id, response)) :: after
        /\ has_id trigger_id before = false
        /\ remove_trigger c trigger_id
           = (true, set_triggers (before ++ after) c)
        /\ NoDup (map fst (before ++ after))).
Proof.
  pose proof (find_pattern_has_id (triggers c) trigger_id) as Hfind.
  unfold remove_trigger.
  destruct (find_pattern (triggers c) trigger_id) as [p|] eqn:Hp.
  - destruct Hfind as [Hid Hpat]. rewrite Hid.
    split; [reflexivity|]. split; [discriminate|]. split; [|split].
    + intros _. simpl. now apply dict_del_length.
    + discriminate.
    + intros Hd _.
      destruct (dict_del_found (triggers c) trigger_id p Hd Hp)
        as (before & response & after & Heq & Hbefore & Hdel).
      exists before, p, response, after.
      split; [exact Heq|]. split; [exact Hbefore|].
      split; [now rewrite Hdel|].
      rewrite <- Hdel. now apply nodup_keys_del.
  - rewrite Hfind. split; [reflexivity|]. split; [reflexivity|].
    split; [discriminate|]. split; [|discriminate].
    intros pattern response _ Hpat.
    unfold add_trigger. cbn [triggers set_triggers].
    rewrite find_pattern_set_fresh by exact Hfind.
    rewrite dict_del_set_fresh by exact Hpat.
    f_equal. destruct c; reflexivity.
Qed.

(** Triggers are stored by pattern.  Registering a second trigger under a
    pattern already in use replaces the first in place: the number and the
    order of the patterns do not change, and if the first identifier was
    used for that pattern only, it can no longer be removed. *)
Theorem add_trigger_same_pattern (c : TCPConnection)
    (t1 t2 pattern : string) (r1 r2 : bytes) :
  t1 <> t2 ->
  has_id t1 (triggers c) = false ->
  let c1 := add_trigger c t1 pattern r1 in
  let c2 := add_trigger c1 t2 pattern r2 in
  map fst (triggers c2) = map fst (triggers c1)
  /\ In (pattern, (t2, r2)) (triggers c2)
  /\ remove_trigger c2 t1 = (false, c2).
Proof.
  intros Hne Hid c1 c2. unfold c2, c1, add_trigger.
  cbn [triggers set_triggers].
  assert (Hpat : has_pattern pattern
                   (dict_set (triggers c) pattern (t1, r1)) = true).
  { unfold has_pattern. apply existsb_exists.
    exists (pattern, (t1, r1)). split; [apply dict_set_in|].
    apply String.eqb_refl. }
  split; [|split].
  - now rewrite dict_set_keys, Hpat.
  - apply dict_set_in.
  - apply remove_trigger_missing. cbn [triggers].
    rewrite dict_set_twice. apply has_id_set_other; [exact Hid|congruence].
Qed.

End TriggerTable.

Section TriggerKeys.

Import Connection Observe.

Variable text : Type.
Variable decode_utf8_ignore : bytes -> text.
Variable re_search : string -> text -> search_result.

Let check_triggers := Connection.check_triggers text decode_utf8_ignore re_search.
Let step := Connection.step text decode_utf8_ignore re_search.
Let reaches := Connection.reaches text decode_utf8_ignore re_search.

(** Only [add_trigger] and [remove_trigger] touch the triggers. *)
Lemma step_triggers (o : op) (c : TCPConnection) :
  triggers (step o c)
  = match o with
    | OpAddTrigger trigger_id pattern response =>
        dict_set (triggers c) pattern (trigger_id, response)
    | OpRemoveTrigger trigger_id =>
        triggers (snd (remove_trigger c trigger_id))
    | _ => triggers c
    end.
Proof.
  destruct o as [o| |data|r|? ?| | |? ? ?|tid|];
    unfold step, Connection.step; simpl; try reflexivity.
  - destruct o; reflexivity.
  - apply send_frame.
  - unfold Connection.loop_body.
    destruct r as [[|b data]| |]; simpl; try reflexivity.
    set (c2 := set_bytes_received _ _).
    pose proof (check_triggers_frame text decode_utf8_ignore re_search c2
                  (b :: data)) as (_ & _ & Ht).
    destruct (Connection.check_triggers _ _ _ c2 _) as [calls c3].
    simpl in *. exact Ht.
Qed.

(** On a connection reached from a fresh one no pattern occurs twice among
    the triggers: they are the keys of a [dict]. *)
Lemma reaches_triggers_nodup (hist : list bytes) (c : TCPConnection) :
  reaches hist c -> NoDup (map fst (triggers c)).
Proof.
  intros Hreach.
  induction Hreach as [id h p|hist c o Hreach IH]; [constructor|].
  fold step. rewrite step_triggers.
  destruct o as [o| |data|r|? ?| | |tid pattern response|tid|]; try exact IH.
  - now apply nodup_keys_set.
  - unfold remove_trigger.
    destruct (find_pattern (triggers c) tid); [|exact IH].
    cbn [snd triggers set_triggers]. now apply nodup_keys_del.
Qed.

End TriggerKeys.

Section TriggerIdentifiers.

Import Connection Observe.

(** An identifier is not a key.  Registering one identifier with two
    different patterns leaves two triggers, and after one successful
    [remove_trigger] of that identifier a trigger still carries it. *)
Theorem add_trigger_same_id (c : TCPConnection) (trigger_id p1 p2 : string)
    (r1 r2 : bytes) :
  p1 <> p2 ->
  let c2 := add_trigger (add_trigger c trigger_id p1 r1) trigger_id p2 r2 in
  In (p1, (trigger_id, r1)) (triggers c2)
  /\ In (p2, (trigger_id, r2)) (triggers c2)
  /\ fst (remove_trigger c2 trigger_id) = true
  /\ has_id trigger_id (triggers (snd (remove_trigger c2 trigger_id))) = true.
Proof.
  intros Hne c2.
  assert (H2 : In (p2, (trigger_id, r2)) (triggers c2))
    by apply dict_set_in.
  assert (H1 : In (p1, (trigger_id, r1)) (triggers c2))
    by (apply dict_set_other; [exact Hne|apply dict_set_in]).
  split; [exact H1|]. split; [exact H2|].
  pose proof (find_pattern_has_id (triggers c2) trigger_id) as Hfind.
  unfold remove_trigger.
  destruct (find_pattern (triggers c2) trigger_id) as [q|].
  - split; [reflexivity|]. cbn [snd triggers set_triggers].
    destruct (String.eqb_spec p1 q) as [E|E].
    + apply (has_id_in _ _ p2 r2). apply dict_del_other; [congruence|exact H2].
    + apply (has_id_in _ _ p1 r1). apply dict_del_other; [exact E|exact H1].
  - rewrite (has_id_in _ _ _ _ H2) in Hfind. discriminate.
Qed.

Lemma remove_trigger_result_witness :
  NoDup (map fst (triggers (Sample.hello_ping [])))
  /\ has_id "hello_trigger" (triggers (Sample.hello_ping [])) = true
  /\ triggers (Sample.hello_ping [])
     = [("HELLO", ("hello_trigger", Sample.b "HI THERE"));
        ("PING", ("ping_trigger", Sample.pong))]
  /\ remove_trigger (Sample.hello_ping []) "hello_trigger"
     = (true,
        set_triggers [("PING", ("ping_trigger", Sample.pong))]
                     (Sample.hello_ping [])).
Proof.
  assert (Hd : NoDup (map fst (triggers (Sample.hello_ping [])))).
  { repeat constructor; simpl; intros H; repeat destruct H as [H|H];
      try discriminate; exact H. }
  split; [exact Hd|]. split; [reflexivity|]. split; [reflexivity|].
  destruct (proj2 (proj2 (proj2 (proj2
              (remove_trigger_result (Sample.hello_ping []) "hello_trigger"))))
              Hd eq_refl)
    as (before & pattern & response & after & Heq & Hid & Hrem & _).
  destruct before as [|x before].
  - injection Heq as _ _ <-. exact Hrem.
  - injection Heq as <- _. discriminate Hid.
Defined.

Lemma add_trigger_same_id_witness :
  "PING" <> "PONG"
  /\ fst (remove_trigger
            (add_trigger (add_trigger Sample.fresh "t" "PING" (Sample.b "a"))
                         "t" "PONG" (Sample.b "b"))
            "t") = true
  /\ has_id "t"
       (triggers
          (snd (remove_trigger
                  (add_trigger
                     (add_trigger Sample.fresh "t" "PING" (Sample.b "a"))
                     "t" "PONG" (Sample.b "b"))
                  "t"))) = true.
Proof.
  assert (H : "PING" <> "PONG") by discriminate.
  split; [exact H|].
  exact (proj2 (proj2 (add_trigger_same_id Sample.fresh "t" "PING" "PONG"
                         (Sample.b "a") (Sample.b "b") H))).
Defined.

Lemma add_trigger_same_pattern_witness :
  "first" <> "second"
  /\ has_id "first" (triggers Sample.fresh) = false
  /\ remove_trigger
       (add_trigger (add_trigger Sample.fresh "first" "PING" (Sample.b "a"))
                    "second" "PING" (Sample.b "b"))
       "first"
     = (false,
        add_trigger (add_trigger Sample.fresh "first" "PING" (Sample.b "a"))
                    "second" "PING" (Sample.b "b")).
Proof.
  assert (H : "first" <> "second") by discriminate.
  split; [exact H|]. split; [reflexivity|].
  exact (proj2 (proj2 (add_trigger_same_pattern Sample.fresh "first" "second"
                         "PING" (Sample.b "a") (Sample.b "b") H eq_refl))).
Defined.

Lemma buffer_is_tail_of_history_witness :
  Plain.reaches [Sample.ping_chunk; Sample.both_chunk; Sample.b "bye"]
                (Plain.run Sample.session Sample.fresh)
  /\ [Sample.ping_chunk; Sample.both_chunk; Sample.b "bye"]
     = [Sample.ping_chunk; Sample.both_chunk]
       ++ buffer (Plain.run Sample.session Sample.fresh)
  /\ total_bytes (get_buffer_info (Plain.run Sample.session Sample.fresh))
     <= info_bytes_received
          (get_buffer_info (Plain.run Sample.session Sample.fresh)).
Proof.
  assert (H : Plain.reaches
                [Sample.ping_chunk; Sample.both_chunk; Sample.b "bye"]
                (Plain.run Sample.session Sample.fresh)).
  { exact (reaches_run string Plain.decode_ascii Plain.search Sample.session
             [] Sample.fresh
             (reaches_new string Plain.decode_ascii Plain.search
                "conn-1" "localhost" 8080)). }
  split; [exact H|]. split; [reflexivity|].
  exact (proj1 (proj2 (proj2 (buffer_is_tail_of_history string
                                Plain.decode_ascii Plain.search _ _ H)))).
Defined.

Lemma connected_has_streams_witness :
  Plain.reaches [Sample.ping_chunk; Sample.both_chunk; Sample.b "bye"]
                (Plain.run Sample.session Sample.fresh)
  /\ connected (Plain.run Sample.session Sample.fresh) = true
  /\ reader (Plain.run Sample.session Sample.fresh) = true
  /\ 0 <= bytes_sent (Plain.run Sample.session Sample.fresh).
Proof.
  assert (H : Plain.reaches
                [Sample.ping_chunk; Sample.both_chunk; Sample.b "bye"]
                (Plain.run Sample.session Sample.fresh)).
  { exact (reaches_run string Plain.decode_ascii Plain.search Sample.session
             [] Sample.fresh
             (reaches_new string Plain.decode_ascii Plain.search
                "conn-1" "localhost" 8080)). }
  pose proof (connected_has_streams string Plain.decode_ascii Plain.search
                _ _ H) as (Hstreams & Hsent & _).
  split; [exact H|]. split; [reflexivity|].
  split; [exact (proj1 (Hstreams eq_refl))|exact Hsent].
Defined.

End TriggerIdentifiers.

(* ===================================================================== *)
(** * The server: its tables and its handlers *)

Section DictFacts.

Context {V : Type}.

Lemma dict_get_set_same (d : list (string * V)) (k : string) (v : V) :
  Dict.get (Dict.set d k v) k = Some v.
Proof.
  induction d as [|[k' v'] d IH]; simpl.
  - now rewrite String.eqb_refl.
  - destruct (k' =? k)%string eqn:Hk; simpl.
    + now rewrite String.eqb_refl.
    + now rewrite Hk.
Qed.

Lemma dict_get_set_other (d : list (string * V)) (k k' : string) (v : V) :
  k' <> k -> Dict.get (Dict.set d k v) k' = Dict.get d k'.
Proof.
  intros Hne. induction d as [|[k0 v0] d IH]; simpl.
  - destruct (String.eqb_spec k k') as [E|_]; [congruence|reflexivity].
  - destruct (String.eqb_spec k0 k) as [->|Hk]; simpl.
    + destruct (String.eqb_spec k k') as [E|_]; [congruence|reflexivity].
    + destruct (k0 =? k')%string; [reflexivity|exact IH].
Qed.

Lemma dict_get_del_other (d : list (string * V)) (k k' : string) :
  k' <> k -> Dict.get (Dict.del d k) k' = Dict.get d k'.
Proof.
  intros Hne. induction d as [|[k0 v0] d IH]; simpl; [reflexivity|].
  destruct (String.eqb_spec k0 k) as [->|Hk]; simpl.
  - destruct (String.eqb_spec k k') as [E|_]; [congruence|reflexivity].
  - destruct (k0 =? k')%string; [reflexivity|exact IH].
Qed.

Lemma dict_get_del_same (d : list (string * V)) (k : string) :
  PlainServer.unique d = true -> Dict.get (Dict.del d k) k = None.
Proof.
  induction d as [|[k0 v0] d IH]; simpl; [reflexivity|].
  intros H. apply andb_true_iff in H as [Hk0 H].
  destruct (String.eqb_spec k0 k) as [->|Hk]; simpl.
  - unfold Dict.mem in Hk0. now destruct (Dict.get d k).
  - destruct (String.eqb_spec k0 k) as [E|_]; [congruence|now apply IH].
Qed.

Lemma dict_set_set (d : list (string * V)) (k : string) (v1 v2 : V) :
  Dict.set (Dict.set d k v1) k v2 = Dict.set d k v2.
Proof.
  induction d as [|[k' v'] d IH]; simpl.
  - now rewrite String.eqb_refl.
  - destruct (k' =? k)%string eqn:Hk; simpl.
    + now rewrite String.eqb_refl.
    + now rewrite Hk, IH.
Qed.

Lemma dict_del_set_new (d : list (string * V)) (k : string) (v : V) :
  Dict.mem d k = false -> Dict.del (Dict.set d k v) k = d.
Proof.
  unfold Dict.mem.
  induction d as [|[k' v'] d IH]; simpl; intros H.
  - now rewrite String.eqb_refl.
  - destruct (k' =? k)%string eqn:Hk; [discriminate|].
    simpl. now rewrite Hk, IH.
Qed.

Lemma dict_mem_get (d : list (string * V)) (k : string) :
  Dict.mem d k = false -> Dict.get d k = None.
Proof. unfold Dict.mem. now destruct (Dict.get d k). Qed.

End DictFacts.

Section Payload.

Import Connection Registry Spelling.

Variable b64decode : string -> result bytes.

Let convert := Registry.convert b64decode.


Lemma parse_encode_hex (b : bytes) :
  Server.parse_hex_string (Server.encode_hex b) = Ok b.
Proof.
  unfold Server.parse_hex_string, Server.encode_hex.
  rewrite (str_in_lacking "\" "\x") by (reflexivity || now apply bytes_hex_lacks).
  now rewrite clean_bytes_hex, bytes_fromhex_hex.
Qed.

Lemma convert_hex (b t : bytes) :
  convert (Some "hex") (Server.encode_hex b) (Some (Server.encode_hex t))
  = Ok (b ++ t).
Proof.
  unfold convert, Registry.convert. cbn [String.eqb Ascii.eqb Bool.eqb].
  rewrite parse_encode_hex. cbn [bind].
  destruct t as [|x t].
  - cbn [Server.encode_hex Py.bytes_hex]. now rewrite app_nil_r.
  - destruct (Server.encode_hex (x :: t)) as [|c s] eqn:E.
    + pose proof (parse_encode_hex (x :: t)) as H. rewrite E in H.
      discriminate.
    + rewrite <- E, parse_encode_hex. reflexivity.
Qed.


End Payload.

Section PendingTriggers.

Import Connection Registry Observe.

(** The triggers after the pending ones are applied; the rest of the
    connection is untouched. *)
Lemma apply_pending_triggers (pending : list (string * pending_trigger)) :
  forall conn,
    triggers (apply_pending conn pending)
    = fold_left
        (fun d (e : string * pending_trigger) =>
           dict_set d (pattern (snd e)) (fst e, response (snd e)))
        pending (triggers conn)
    /\ connected (apply_pending conn pending) = connected conn
    /\ writer (apply_pending conn pending) = writer conn
    /\ buffer (apply_pending conn pending) = buffer conn.
Proof.
  unfold apply_pending.
  induction pending as [|e pending IH]; intros conn; [repeat split|].
  cbn [fold_left]. destruct (IH (add_trigger conn (fst e) (pattern (snd e))
                                              (response (snd e))))
    as (H1 & H2 & H3 & H4).
  rewrite H1, H2, H3, H4. repeat split.
Qed.

Lemma dict_set_origin (d : list trigger_entry) (k : string)
    (v : string * bytes) (x : trigger_entry) :
  In x (dict_set d k v) -> x = (k, v) \/ In x d.
Proof.
  induction d as [|[k' v'] d IH]; simpl.
  - intros [H|[]]. now left.
  - destruct (k' =? k)%string; simpl.
    + intros [H|H]; [now left|right; now right].
    + intros [H|H]; [right; now left|].
      destruct (IH H) as [E|E]; [now left|right; now right].
Qed.

Lemma has_pattern_set (d : list trigger_entry) (k p : string)
    (v : string * bytes) :
  has_pattern p (dict_set d k v) = (k =? p)%string || has_pattern p d.
Proof.
  unfold has_pattern.
  induction d as [|[k' v'] d IH]; cbn [dict_set existsb fst].
  - now rewrite orb_false_r.
  - destruct (String.eqb_spec k' k) as [->|Hk]; cbn [existsb fst].
    + now destruct (k =? p)%string.
    + rewrite IH. destruct (k' =? p)%string, (k =? p)%string; reflexivity.
Qed.

Lemma fold_dict_set_facts (pending : list (string * pending_trigger)) :
  forall d,
    let d' :=
      fold_left
        (fun d (e : string * pending_trigger) =>
           dict_set d (pattern (snd e)) (fst e, response (snd e)))
        pending d in
    (List.length d' <= List.length d + List.length pending)%nat
    /\ (forall p, has_pattern p d = true -> has_pattern p d' = true)
    /\ (forall e, In e pending -> has_pattern (pattern (snd e)) d' = true)
    /\ (forall p t r,
          In (p, (t, r)) d' ->
          In (p, (t, r)) d
          \/ exists e, In e pending /\ fst e = t /\ pattern (snd e) = p
                       /\ response (snd e) = r).
Proof.
  induction pending as [|e pending IH]; intros d.
  - simpl. repeat split; try tauto; try lia.
  - cbn [fold_left].
    destruct (IH (dict_set d (pattern (snd e)) (fst e, response (snd e))))
      as (Hlen & Hmono & Hpat & Horigin).
    split; [|split; [|split]].
    + rewrite dict_set_length in Hlen. cbn [List.length].
      destruct (has_pattern _ d); lia.
    + intros p Hp. apply Hmono. rewrite has_pattern_set, Hp.
      apply orb_true_r.
    + intros e' [<-|He'].
      * apply Hmono. rewrite has_pattern_set, String.eqb_refl. reflexivity.
      * now apply Hpat.
    + intros p t r Hin. destruct (Horigin p t r Hin) as [H|(e' & H1 & H2)].
      * apply dict_set_origin in H as [H|H]; [|now left].
        inversion H; subst. right. exists e. repeat split. now left.
      * right. exists e'. split; [now right|exact H2].
Qed.

Lemma dict_set_source (d : list trigger_entry) (k p : string)
    (v0 v : string * bytes) :
  NoDup (map fst d) ->
  In (p, v) (dict_set d k v0) ->
  (p = k /\ v = v0) \/ (p <> k /\ In (p, v) d).
Proof.
  induction d as [|[k' v'] d IH]; simpl; intros Hd.
  - intros [H|[]]. injection H as <- <-. now left.
  - inversion Hd as [|? ? Hk' Hd']; subst.
    destruct (String.eqb_spec k' k) as [->|Hne]; simpl.
    + intros [H|H]; [injection H as <- <-; now left|].
      right. split; [|now right].
      intros ->. apply Hk'. apply in_map_iff. now exists (k, v).
    + intros [H|H].
      * injection H as <- <-. right. split; [exact Hne|now left].
      * destruct (IH Hd' H) as [E|[E1 E2]]; [now left|].
        right. split; [exact E1|now right].
Qed.

Lemma apply_pending_cons (conn : TCPConnection) (e : string * pending_trigger)
    (pending : list (string * pending_trigger)) :
  apply_pending conn (e :: pending)
  = apply_pending
      (add_trigger conn (fst e) (pattern (snd e)) (response (snd e))) pending.
Proof. reflexivity. Qed.

Lemma apply_pending_nodup (pending : list (string * pending_trigger)) :
  forall conn,
    NoDup (map fst (triggers conn)) ->
    NoDup (map fst (triggers (apply_pending conn pending))).
Proof.
  induction pending as [|e pending IH]; intros conn Hd; [exact Hd|].
  rewrite apply_pending_cons. apply IH.
  unfold add_trigger. cbn [triggers set_triggers]. now apply nodup_keys_set.
Qed.

(** A trigger stays as it is while the triggers added afterwards have
    other patterns. *)
Lemma apply_pending_keeps (pending : list (string * pending_trigger)) :
  forall conn p v,
    In (p, v) (triggers conn) ->
    (forall e, In e pending -> pattern (snd e) <> p) ->
    In (p, v) (triggers (apply_pending conn pending)).
Proof.
  induction pending as [|e pending IH]; intros conn p v Hin Hno;
    [exact Hin|].
  rewrite apply_pending_cons. apply IH.
  - unfold add_trigger. cbn [triggers set_triggers].
    apply dict_set_other; [|exact Hin].
    intros E. apply (Hno e (or_introl eq_refl)). now symmetry.
  - intros e' He'. apply Hno. now right.
Qed.

Lemma apply_pending_last (l1 l2 : list (string * pending_trigger))
    (e : string * pending_trigger) (conn : TCPConnection) :
  (forall e', In e' l2 -> pattern (snd e') <> pattern (snd e)) ->
  In (pattern (snd e), (fst e, response (snd e)))
     (triggers (apply_pending conn (l1 ++ e :: l2))).
Proof.
  intros Hno. unfold apply_pending. rewrite fold_left_app.
  cbn [fold_left].
  apply (apply_pending_keeps l2); [|exact Hno].
  unfold add_trigger. cbn [triggers set_triggers]. apply dict_set_in.
Qed.

(** Where a trigger of the connection comes from: it was there before and
    no pending trigger has its pattern, or it is the last pending trigger
    with its pattern. *)
Lemma apply_pending_source (pending : list (string * pending_trigger)) :
  forall conn p t r,
    NoDup (map fst (triggers conn)) ->
    In (p, (t, r)) (triggers (apply_pending conn pending)) ->
    (In (p, (t, r)) (triggers conn)
     /\ forall e, In e pending -> pattern (snd e) <> p)
    \/ exists l1 e l2,
         pending = l1 ++ e :: l2
         /\ fst e = t /\ pattern (snd e) = p /\ response (snd e) = r
         /\ forall e', In e' l2 -> pattern (snd e') <> p.
Proof.
  induction pending as [|e0 pending IH]; intros conn p t r Hd Hin.
  - left. split; [exact Hin|]. intros e [].
  - rewrite apply_pending_cons in Hin.
    apply IH in Hin;
      [|unfold add_trigger; cbn [triggers set_triggers];
        now apply nodup_keys_set].
    destruct Hin as [[Hin Hno]|(l1 & e & l2 & -> & H1 & H2 & H3 & H4)].
    + unfold add_trigger in Hin. cbn [triggers set_triggers] in Hin.
      apply dict_set_source in Hin; [|exact Hd].
      destruct Hin as [[-> E]|[Hne Hin]].
      * right. exists [], e0, pending. injection E as <- <-.
        repeat split. exact Hno.
      * left. split; [exact Hin|].
        intros e [<-|He]; [congruence|now apply Hno].
    + right. exists (e0 :: l1), e, l2. repeat split; assumption.
Qed.

(** When a connection is opened under an identifier that has pending
    triggers, they are added to it in the order they were set and leave
    the pending table, and the reply lists all their identifiers.  The
    connection holds one trigger per pattern, though: its patterns are the
    pending patterns, each once; the trigger kept for a pattern is the
    last pending one with that pattern; so there are as many triggers as
    identifiers in the reply when the pending patterns are distinct, and
    fewer when two pending triggers share a pattern. *)
Theorem connect_applies_pending (s : TCPSocketServer) (host : string)
    (port : Z) (connection_id uuid : string) (w : StreamWriter)
    (pending : list (string * pending_trigger)) :
  Dict.mem (connections s) connection_id = false ->
  Dict.get (pending_triggers s) connection_id = Some pending ->
  let r := handle_connect s host port (Some connection_id) uuid
             (Established w) in
  let patterns :=
    map (fun e : string * pending_trigger => pattern (snd e)) pending in
  fst r = ConnectReply connection_id host port (map fst pending)
  /\ pending_triggers (snd r) = Dict.del (pending_triggers s) connection_id
  /\ exists conn,
       Dict.get (connections (snd r)) connection_id = Some conn
       /\ connected conn = true
       /\ (List.length (triggers conn) <= List.length pending)%nat
       /\ (forall e, In e pending ->
             has_pattern (pattern (snd e)) (triggers conn) = true)
       /\ (forall p t resp,
             In (p, (t, resp)) (triggers conn) ->
             exists e, In e pending /\ fst e = t /\ pattern (snd e) = p
                       /\ response (snd e) = resp)
       /\ NoDup (map fst (triggers conn))
       /\ (forall p, In p (map fst (triggers conn)) <-> In p patterns)
       /\ (forall p t resp,
             In (p, (t, resp)) (triggers conn)
             <-> exists l1 e l2,
                   pending = l1 ++ e :: l2
                   /\ fst e = t /\ pattern (snd e) = p
                   /\ response (snd e) = resp
                   /\ forall e', In e' l2 -> pattern (snd e') <> p)
       /\ (forall l1 e1 l2 e2 l3,
             pending = l1 ++ e1 :: l2 ++ e2 :: l3 ->
             pattern (snd e1) = pattern (snd e2) ->
             (List.length (triggers conn) < List.length pending)%nat)
       /\ (NoDup patterns ->
           List.length (triggers conn) = List.length pending).
Proof.
  intros Hmem Hpend r patterns. unfold r, handle_connect.
  rewrite Hmem. cbn [connect fst snd]. rewrite Hpend. cbn [fst snd].
  split; [reflexivity|]. split; [reflexivity|].
  set (conn := set_connected true _).
  exists (apply_pending conn pending).
  cbn [connections]. rewrite dict_get_set_same.
  destruct (apply_pending_triggers pending conn) as (Ht & Hc & _).
  destruct (fold_dict_set_facts pending (triggers conn))
    as (Hlen & _ & Hpat & Horigin).
  rewrite <- Ht in Hlen, Hpat, Horigin.
  assert (Hfresh : NoDup (map fst (triggers conn))) by constructor.
  pose proof (apply_pending_nodup pending conn Hfresh) as Hnodup.
  assert (Hfrom : forall p t resp,
            In (p, (t, resp)) (triggers (apply_pending conn pending)) ->
            exists e, In e pending /\ fst e = t /\ pattern (snd e) = p
                      /\ response (snd e) = resp).
  { intros p t resp Hin. destruct (Horigin p t resp Hin) as [[]|H].
    exact H. }
  assert (Hkeys : forall p,
            In p (map fst (triggers (apply_pending conn pending)))
            <-> In p patterns).
  { intros p. split.
    - intros Hin. apply in_map_iff in Hin as ([p' [t resp]] & E & Hin).
      cbn [fst] in E. subst p'.
      destruct (Hfrom p t resp Hin) as (e & He & _ & Hp & _).
      apply in_map_iff. now exists e.
    - intros Hin. apply in_map_iff in Hin as (e & Hp & He).
      apply has_pattern_in. rewrite <- Hp. now apply Hpat. }
  split; [reflexivity|]. split; [now rewrite Hc|]. split; [exact Hlen|].
  split; [exact Hpat|]. split; [exact Hfrom|]. split; [exact Hnodup|].
  split; [exact Hkeys|]. split; [|split].
  - intros p t resp. split.
    + intros Hin.
      destruct (apply_pending_source pending conn p t resp Hfresh Hin)
        as [[[] _]|H].
      exact H.
    + intros (l1 & e & l2 & -> & <- & <- & <- & Hno).
      now apply apply_pending_last.
  - intros l1 e1 l2 e2 l3 Hsplit Hsame.
    assert (Hincl : incl (map fst (triggers (apply_pending conn pending)))
                         (map (fun e : string * pending_trigger =>
                                 pattern (snd e))
                              (l1 ++ e1 :: l2 ++ l3))).
    { intros p Hin. apply Hkeys in Hin. unfold patterns in Hin.
      rewrite Hsplit in Hin.
      repeat (rewrite ?map_app, ?in_app_iff in Hin; cbn [map In] in Hin).
      repeat (rewrite ?map_app, ?in_app_iff; cbn [map In]).
      rewrite <- Hsame in Hin. tauto. }
    apply NoDup_incl_length in Hincl; [|exact Hnodup].
    rewrite !length_map in Hincl.
    assert (Hcount : List.length pending
                     = S (List.length (l1 ++ e1 :: l2 ++ l3))).
    { rewrite Hsplit, !length_app. cbn [List.length].
      rewrite !length_app. cbn [List.length]. lia. }
    rewrite Hcount. apply Nat.lt_succ_r. exact Hincl.
  - intros Hdistinct.
    assert (Hincl : incl patterns
                         (map fst (triggers (apply_pending conn pending)))).
    { intros p Hin. now apply Hkeys. }
    apply NoDup_incl_length in Hincl; [|exact Hdistinct].
    unfold patterns in Hincl. rewrite !length_map in Hincl.
    apply Nat.le_antisymm; [exact Hlen|exact Hincl].
Qed.

End PendingTriggers.

Section PreRegistration.

Import Connection Registry.

Variable b64decode : string -> result bytes.

Let handle_set_trigger := Registry.handle_set_trigger b64decode.

(** Setting a trigger for an identifier that is neither connected nor
    pending and then connecting under it leaves the server as connecting
    first and setting the trigger afterwards does, whether the connection
    attempt succeeds or not. *)
Theorem set_trigger_commutes_with_connect (s : TCPSocketServer)
    (host : string) (port : Z) (connection_id uuid : string)
    (o : connect_outcome) (trigger_id pattern response_str : string)
    (response_encoding response_terminator_str : option string) :
  Dict.mem (connections s) connection_id = false ->
  Dict.mem (pending_triggers s) connection_id = false ->
  snd (handle_connect
         (snd (handle_set_trigger s connection_id trigger_id pattern
                 response_str response_encoding response_terminator_str))
         host port (Some connection_id) uuid o)
  = snd (handle_set_trigger
           (snd (handle_connect s host port (Some connection_id) uuid o))
           connection_id trigger_id pattern response_str response_encoding
           response_terminator_str).
Proof.
  intros Hconn Hpend.
  pose proof (dict_mem_get _ _ Hconn) as Hgc.
  pose proof (dict_mem_get _ _ Hpend) as Hgp.
  unfold handle_set_trigger, Registry.handle_set_trigger.
  destruct (Registry.convert b64decode response_encoding response_str
              response_terminator_str) as [resp|e]; [|reflexivity].
  rewrite Hgc, Hgp. cbn [snd].
  unfold handle_connect. cbn [connections pending_triggers].
  rewrite Hconn. destruct o as [w|]; cbn [connect fst snd].
  - rewrite dict_get_set_same, Hgp. cbn [snd connections pending_triggers].
    rewrite dict_get_set_same, dict_set_set.
    rewrite dict_del_set_new by exact Hpend.
    reflexivity.
  - cbn [connections pending_triggers]. rewrite Hgc, Hgp. reflexivity.
Qed.

End PreRegistration.

Section Tables.

Import PlainServer.

Context {V : Type}.

Lemma dict_set_get (d : list (string * V)) (k : string) (v : V) :
  Dict.get d k = Some v -> Dict.set d k v = d.
Proof.
  induction d as [|[k' v'] d IH]; simpl; [discriminate|].
  destruct (String.eqb_spec k' k) as [->|Hk].
  - now intros [= ->].
  - intros H. now rewrite IH.
Qed.

Lemma dict_del_missing (d : list (string * V)) (k : string) :
  Dict.mem d k = false -> Dict.del d k = d.
Proof.
  unfold Dict.mem.
  induction d as [|[k' v'] d IH]; simpl; [reflexivity|].
  destruct (k' =? k)%string; [discriminate|].
  intros H. now rewrite IH.
Qed.

Lemma dict_keys_set (d : list (string * V)) (k : string) (v : V) :
  Dict.mem d k = true -> map fst (Dict.set d k v) = map fst d.
Proof.
  unfold Dict.mem.
  induction d as [|[k' v'] d IH]; simpl; [discriminate|].
  destruct (String.eqb_spec k' k) as [->|Hk]; [reflexivity|].
  intros H. simpl. now rewrite IH.
Qed.

Lemma dict_mem_set (d : list (string * V)) (k k' : string) (v : V) :
  Dict.mem (Dict.set d k v) k' = (k =? k')%string || Dict.mem d k'.
Proof.
  unfold Dict.mem. destruct (String.eqb_spec k k') as [<-|Hk].
  - now rewrite dict_get_set_same.
  - rewrite dict_get_set_other by congruence. reflexivity.
Qed.

Lemma dict_mem_del (d : list (string * V)) (k k' : string) :
  Dict.mem (Dict.del d k) k' = true -> Dict.mem d k' = true.
Proof.
  unfold Dict.mem.
  induction d as [|[k0 v0] d IH]; simpl; [discriminate|].
  destruct (k0 =? k)%string; simpl.
  - destruct (k0 =? k')%string; [reflexivity|tauto].
  - destruct (k0 =? k')%string; [reflexivity|exact IH].
Qed.

Lemma unique_set (d : list (string * V)) (k : string) (v : V) :
  unique d = true -> unique (Dict.set d k v) = true.
Proof.
  induction d as [|[k' v'] d IH]; simpl; [reflexivity|].
  intros H. apply andb_true_iff in H as [Hk' H].
  destruct (String.eqb_spec k' k) as [->|Hk]; simpl.
  - now rewrite Hk', H.
  - rewrite dict_mem_set, IH by exact H.
    apply negb_true_iff in Hk'. rewrite Hk'.
    destruct (String.eqb_spec k k') as [E|_]; [congruence|reflexivity].
Qed.

Lemma unique_del (d : list (string * V)) (k : string) :
  unique d = true -> unique (Dict.del d k) = true.
Proof.
  induction d as [|[k' v'] d IH]; simpl; [reflexivity|].
  intros H. apply andb_true_iff in H as [Hk' H].
  destruct (k' =? k)%string; simpl; [exact H|].
  rewrite IH by exact H. rewrite andb_true_r.
  apply negb_true_iff in Hk'. apply negb_true_iff.
  destruct (Dict.mem (Dict.del d k) k') eqn:E; [|reflexivity].
  apply dict_mem_del in E. congruence.
Qed.

End Tables.

Section Requests.

Import Connection Registry.

Variable b64decode : string -> result bytes.
Variable text : Type.
Variable decode_utf8_ignore : bytes -> text.
Variable re_search : string -> text -> search_result.

Let convert := Registry.convert b64decode.
Let handle_send := Registry.handle_send b64decode.
Let handle_set_trigger := Registry.handle_set_trigger b64decode.
Let handle_connect_and_send :=
  Registry.handle_connect_and_send b64decode text decode_utf8_ignore re_search.
Let read_loop := Connection.read_loop text decode_utf8_ignore re_search.

Lemma len_app {A : Type} (l1 l2 : list A) :
  Py.len (l1 ++ l2) = Py.len l1 + Py.len l2.
Proof. unfold Py.len. rewrite length_app. lia. Qed.

Lemma send_succeeds (c : TCPConnection) (w : StreamWriter) (data : bytes) :
  connected c = true -> writer c = Some w -> next_outcome w = WriteOk ->
  send c data
  = (true,
     set_bytes_sent (bytes_sent c + Py.len data)
       (set_streams (reader c)
          (Some {| written := written w ++ [data];
                   outcomes := tl (outcomes w) |}) c)).
Proof.
  intros Hc Hw Ho. unfold send, write_and_drain. now rewrite Hc, Hw, Ho.
Qed.

Lemma send_fails (c : TCPConnection) (w : StreamWriter) (data : bytes) :
  connected c = true -> writer c = Some w -> next_outcome w <> WriteOk ->
  fst (send c data) = false /\ connected (snd (send c data)) = false.
Proof.
  intros Hc Hw Ho. unfold send. rewrite Hc, Hw. cbn [negb].
  destruct (next_outcome w); [contradiction|split; reflexivity..].
Qed.

Lemma send_disconnected (c : TCPConnection) (data : bytes) :
  connected c = false -> send c data = (false, c).
Proof. intros Hc. unfold send. now rewrite Hc. Qed.

(** [tcp_send] with hex data and a hex terminator, on a live connection
    whose write succeeds: the writer is handed exactly the bytes followed by
    the terminator, in one piece; the reply and [bytes_sent] count them
    all; the buffer and the triggers of the connection, the other
    connections, the set of connection identifiers and the pending triggers
    are as before. *)
Theorem handle_send_delivers (s : TCPSocketServer) (connection_id : string)
    (conn : TCPConnection) (w : StreamWriter) (b t : bytes) :
  Dict.get (connections s) connection_id = Some conn ->
  connected conn = true ->
  writer conn = Some w ->
  next_outcome w = WriteOk ->
  let r := handle_send s connection_id (Server.encode_hex b) (Some "hex")
             (Some (Server.encode_hex t)) in
  fst r = Ok (SendReply connection_id (Py.len b + Py.len t))
  /\ (exists conn',
        Dict.get (connections (snd r)) connection_id = Some conn'
        /\ option_map written (writer conn') = Some (written w ++ [b ++ t])
        /\ bytes_sent conn' = bytes_sent conn + Py.len b + Py.len t
        /\ connected conn' = true
        /\ buffer conn' = buffer conn
        /\ triggers conn' = triggers conn)
  /\ (forall other, other <> connection_id ->
        Dict.get (connections (snd r)) other = Dict.get (connections s) other)
  /\ map fst (connections (snd r)) = map fst (connections s)
  /\ pending_triggers (snd r) = pending_triggers s.
Proof.
  intros Hget Hc Hw Ho r. unfold r, handle_send, Registry.handle_send.
  rewrite Hget, (convert_hex b64decode b t).
  rewrite (send_succeeds conn w (b ++ t) Hc Hw Ho). cbn [fst snd].
  rewrite len_app. split; [reflexivity|]. split; [|split; [|split]].
  - eexists. cbn [connections]. rewrite dict_get_set_same.
    split; [reflexivity|]. cbn. rewrite Hc.
    repeat split. lia.
  - intros other Hne. cbn [connections].
    now rewrite dict_get_set_other by exact Hne.
  - cbn [connections]. apply dict_keys_set. unfold Dict.mem. now rewrite Hget.
  - reflexivity.
Qed.

(** When the write of [tcp_send] fails, the reply is [send_failed] and the
    connection stays in the table, marked as not connected: every later
    [tcp_send] to it, whatever its data, is answered [send_failed] as well
    and changes nothing, and [tcp_buffer_info] reports it as not
    connected. *)
Theorem failed_send_keeps_connection (s : TCPSocketServer)
    (connection_id data_str : string) (encoding terminator_str : option string)
    (conn : TCPConnection) (w : StreamWriter) (data : bytes) :
  Dict.get (connections s) connection_id = Some conn ->
  connected conn = true ->
  writer conn = Some w ->
  next_outcome w <> WriteOk ->
  convert encoding data_str terminator_str = Ok data ->
  let r := handle_send s connection_id data_str encoding terminator_str in
  fst r = Ok (Failure "send_failed" "Failed to send data")
  /\ map fst (connections (snd r)) = map fst (connections s)
  /\ (exists info,
        fst (handle_buffer_info (snd r) connection_id) = BufferInfoReply info
        /\ info_connected info = false
        /\ info_bytes_sent info = bytes_sent conn)
  /\ (forall data_str' encoding' terminator_str' data',
        convert encoding' data_str' terminator_str' = Ok data' ->
        handle_send (snd r) connection_id data_str' encoding' terminator_str'
        = (Ok (Failure "send_failed" "Failed to send data"), snd r)).
Proof.
  intros Hget Hc Hw Ho Hconv r. unfold r, handle_send, Registry.handle_send.
  fold convert. rewrite Hget, Hconv.
  destruct (send_fails conn w data Hc Hw Ho) as [Hr Hconn].
  pose proof (send_streams conn data) as (_ & _ & _ & _).
  assert (Hsent : bytes_sent (snd (send conn data)) = bytes_sent conn).
  { unfold send. rewrite Hc, Hw. cbn [negb].
    destruct (next_outcome w); [contradiction|reflexivity..]. }
  destruct (send conn data) as [ok conn'] eqn:Hsend. cbn [fst snd] in *.
  subst ok. cbn [fst snd connections pending_triggers].
  split; [reflexivity|]. split; [|split].
  - apply dict_keys_set. unfold Dict.mem. now rewrite Hget.
  - unfold handle_buffer_info. cbn [connections].
    rewrite dict_get_set_same. eexists. split; [reflexivity|].
    cbn. split; assumption.
  - intros data_str' encoding' terminator_str' data' Hconv'.
    rewrite dict_get_set_same, Hconv', (send_disconnected conn' data' Hconn).
    rewrite dict_set_set. reflexivity.
Qed.

(** [tcp_send] to an identifier that is not connected answers [not_found]
    before it looks at the data, so that malformed data raises nothing
    there, and changes nothing; data whose conversion raises, sent to a
    connection, leaves the handler with the exception, nothing written. *)
Lemma handle_send_unknown_or_malformed (s : TCPSocketServer)
    (connection_id data_str : string)
    (encoding terminator_str : option string) :
  (Dict.mem (connections s) connection_id = false ->
   handle_send s connection_id data_str encoding terminator_str
   = (Ok (not_found connection_id), s))
  /\ (forall e,
        Dict.mem (connections s) connection_id = true ->
        convert encoding data_str terminator_str = Raise e ->
        handle_send s connection_id data_str encoding terminator_str
        = (Raise e, s)).
Proof.
  unfold handle_send, Registry.handle_send, Dict.mem. fold convert. split.
  - intros H. destruct (Dict.get (connections s) connection_id);
      [discriminate|reflexivity].
  - intros e H Hconv. destruct (Dict.get (connections s) connection_id);
      [|discriminate].
    now rewrite Hconv.
Qed.

(** [tcp_disconnect] frees the identifier: the connection leaves the table
    with its triggers, which do not go back to the pending ones; the other
    connections stay; a second [tcp_disconnect] and a [tcp_send] are
    answered [not_found]; a trigger set for the identifier is pending
    again; and a new connection may take the identifier. *)
Theorem handle_disconnect_forgets (s : TCPSocketServer)
    (connection_id : string) :
  PlainServer.unique (connections s) = true ->
  Dict.mem (connections s) connection_id = true ->
  let r := handle_disconnect s connection_id in
  fst r = DisconnectReply connection_id
  /\ Dict.mem (connections (snd r)) connection_id = false
  /\ (forall other, other <> connection_id ->
        Dict.get (connections (snd r)) other = Dict.get (connections s) other)
  /\ pending_triggers (snd r) = pending_triggers s
  /\ handle_disconnect (snd r) connection_id
     = (not_found connection_id, snd r)
  /\ (forall data_str encoding terminator_str,
        handle_send (snd r) connection_id data_str encoding terminator_str
        = (Ok (not_found connection_id), snd r))
  /\ (forall trigger_id pattern response_str encoding terminator_str response,
        convert encoding response_str terminator_str = Ok response ->
        fst (handle_set_trigger (snd r) connection_id trigger_id pattern
               response_str encoding terminator_str)
        = Ok (SetTriggerReply connection_id trigger_id pattern "pending"))
  /\ (forall host port uuid w,
        exists applied,
          fst (handle_connect (snd r) host port (Some connection_id) uuid
                 (Established w))
          = ConnectReply connection_id host port applied).
Proof.
  intros Huniq Hmem r. unfold r, handle_disconnect.
  unfold Dict.mem in Hmem.
  destruct (Dict.get (connections s) connection_id) as [conn|] eqn:Hget;
    [|discriminate].
  cbn [fst snd connections pending_triggers].
  pose proof (dict_get_del_same (connections s) connection_id Huniq) as Hdel.
  split; [reflexivity|]. split; [unfold Dict.mem; now rewrite Hdel|].
  split; [intros other Hne; now apply dict_get_del_other|].
  split; [reflexivity|]. rewrite Hdel. split; [reflexivity|].
  split; [|split].
  - intros data_str encoding terminator_str.
    unfold handle_send, Registry.handle_send. cbn [connections].
    now rewrite Hdel.
  - intros trigger_id pattern response_str encoding terminator_str response
      Hconv.
    unfold handle_set_trigger, Registry.handle_set_trigger. fold convert.
    rewrite Hconv. cbn [connections]. now rewrite Hdel.
  - intros host port uuid w. unfold handle_connect, Dict.mem.
    cbn [connections pending_triggers connect]. rewrite Hdel.
    destruct (Dict.get (pending_triggers s) connection_id) as [pending|];
      eexists; reflexivity.
Qed.

End Requests.

Section ConnectAndSend.

Import Connection Registry.

Variable b64decode : string -> result bytes.
Variable text : Type.
Variable decode_utf8_ignore : bytes -> text.
Variable re_search : string -> text -> search_result.

Let convert := Registry.convert b64decode.
Let handle_send := Registry.handle_send b64decode.
Let handle_set_trigger := Registry.handle_set_trigger b64decode.
Let handle_connect_and_send :=
  Registry.handle_connect_and_send b64decode text decode_utf8_ignore re_search.
Let read_loop := Connection.read_loop text decode_utf8_ignore re_search.

Lemma opened_streams (s : TCPSocketServer) (connection_id host : string)
    (port : Z) (w : StreamWriter) :
  connected (opened s connection_id host port w) = true
  /\ writer (opened s connection_id host port w) = Some w
  /\ buffer (opened s connection_id host port w) = [].
Proof.
  unfold opened.
  destruct (Dict.get (pending_triggers s) connection_id) as [pending|].
  - destruct (apply_pending_triggers pending
                (snd (connect (Established w) (new connection_id host port))))
      as (_ & Hc & Hw & Hb).
    rewrite Hc, Hw, Hb. repeat split.
  - repeat split.
Qed.

Lemma handle_connect_opened (s : TCPSocketServer) (connection_id host : string)
    (port : Z) (uuid : string) (w : StreamWriter) :
  Dict.mem (connections s) connection_id = false ->
  exists applied,
    handle_connect s host port (Some connection_id) uuid (Established w)
    = (ConnectReply connection_id host port applied,
       {| connections :=
            Dict.set (connections s) connection_id
                     (opened s connection_id host port w);
          pending_triggers := Dict.del (pending_triggers s) connection_id |})
    /\ applied
       = match Dict.get (pending_triggers s) connection_id with
         | Some pending => map fst pending
         | None => []
         end.
Proof.
  intros Hmem. unfold handle_connect, opened. rewrite Hmem.
  cbn [connect fst snd].
  destruct (Dict.get (pending_triggers s) connection_id) as [pending|] eqn:Hp;
    eexists; (split; [|reflexivity]); [reflexivity|].
  rewrite dict_del_missing; [reflexivity|].
  unfold Dict.mem. now rewrite Hp.
Qed.

(** [tcp_connect_and_send], when the connection is established and the
    write succeeds, leaves the server as [tcp_connect] followed by
    [tcp_send] with the same arguments does, then the reads that complete
    before the handler looks at the buffer; its reply carries the applied
    triggers of the one and the byte count of the other, and counts the
    chunks those reads left in the buffer. *)
Theorem connect_and_send_composes (s : TCPSocketServer) (host : string)
    (port : Z) (data_str connection_id uuid : string)
    (encoding terminator_str : option string) (w : StreamWriter)
    (reads : list read_outcome) (data : bytes) :
  Dict.mem (connections s) connection_id = false ->
  convert encoding data_str terminator_str = Ok data ->
  next_outcome w = WriteOk ->
  let r1 := handle_connect s host port (Some connection_id) uuid
              (Established w) in
  let r2 := handle_send (snd r1) connection_id data_str encoding
              terminator_str in
  let r := handle_connect_and_send s host port data_str (Some connection_id)
             uuid encoding terminator_str (Established w) reads in
  exists applied conn2,
    fst r1 = ConnectReply connection_id host port applied
    /\ fst r2 = Ok (SendReply connection_id (Py.len data))
    /\ Dict.get (connections (snd r2)) connection_id = Some conn2
    /\ fst r
       = Ok (ConnectAndSendReply connection_id host port (Py.len data)
               (0 <? Py.len (buffer (snd (read_loop reads conn2))))
               (Py.len (buffer (snd (read_loop reads conn2)))) applied)
    /\ snd r
       = {| connections :=
              Dict.set (connections (snd r2)) connection_id
                       (snd (read_loop reads conn2));
            pending_triggers := pending_triggers (snd r2) |}
    /\ (reads = [] -> snd r = snd r2).
Proof.
  intros Hmem Hconv Ho r1 r2 r.
  destruct (handle_connect_opened s connection_id host port uuid w Hmem)
    as (applied & Hr1 & Happlied).
  destruct (opened_streams s connection_id host port w) as (Hc & Hw & _).
  pose proof (send_succeeds (opened s connection_id host port w) w data
                Hc Hw Ho) as Hsend.
  set (conn2 := set_bytes_sent _ _) in Hsend.
  exists applied, conn2.
  assert (Hr2 : r2 = (Ok (SendReply connection_id (Py.len data)),
                      {| connections :=
                           Dict.set (connections s) connection_id conn2;
                         pending_triggers :=
                           Dict.del (pending_triggers s) connection_id |})).
  { unfold r2, r1. rewrite Hr1. cbn [snd].
    unfold handle_send, Registry.handle_send. fold convert.
    cbn [connections pending_triggers].
    rewrite dict_get_set_same, Hconv, Hsend, dict_set_set. reflexivity. }
  assert (Hr : r = (Ok (ConnectAndSendReply connection_id host port
                          (Py.len data)
                          (0 <? Py.len (buffer (snd (read_loop reads conn2))))
                          (Py.len (buffer (snd (read_loop reads conn2))))
                          applied),
                    {| connections :=
                         Dict.set (connections s) connection_id
                                  (snd (read_loop reads conn2));
                       pending_triggers :=
                         Dict.del (pending_triggers s) connection_id |})).
  { unfold r, handle_connect_and_send, Registry.handle_connect_and_send.
    rewrite Hmem. cbn [connect negb fst snd]. fold convert. rewrite Hconv.
    unfold opened in Hsend. cbn [connect snd] in Hsend.
    destruct (Dict.get (pending_triggers s) connection_id) as [pending|] eqn:Hp.
    - rewrite Hsend. cbn [negb get_buffer_info chunks]. subst applied.
      reflexivity.
    - rewrite Hsend. cbn [negb get_buffer_info chunks]. subst applied.
      rewrite dict_del_missing; [reflexivity|].
      unfold Dict.mem. now rewrite Hp. }
  rewrite Hr2, Hr. unfold r1. rewrite Hr1. cbn [fst snd connections
                                                 pending_triggers].
  rewrite dict_get_set_same, dict_set_set.
  repeat split. intros ->. reflexivity.
Qed.

(** The failures of [tcp_connect_and_send].  A refused connection changes
    nothing.  When the write fails the connection is dropped again, so the
    connections are as before, but the pending triggers of the identifier
    are gone with it.  When the conversion of the data raises, the
    exception leaves the handler after the connection was stored: it stays
    in the table, connected, nothing written, its pending triggers
    applied. *)
Theorem connect_and_send_failures (s : TCPSocketServer) (host : string)
    (port : Z) (data_str connection_id uuid : string)
    (encoding terminator_str : option string) (reads : list read_outcome) :
  Dict.mem (connections s) connection_id = false ->
  snd (handle_connect_and_send s host port data_str (Some connection_id)
         uuid encoding terminator_str Refused reads) = s
  /\ (forall w data,
        convert encoding data_str terminator_str = Ok data ->
        next_outcome w <> WriteOk ->
        let r := handle_connect_and_send s host port data_str
                   (Some connection_id) uuid encoding terminator_str
                   (Established w) reads in
        (exists message, fst r = Ok (Failure "send_failed" message))
        /\ connections (snd r) = connections s
        /\ pending_triggers (snd r)
           = Dict.del (pending_triggers s) connection_id)
  /\ (forall w e,
        convert encoding data_str terminator_str = Raise e ->
        let r := handle_connect_and_send s host port data_str
                   (Some connection_id) uuid encoding terminator_str
                   (Established w) reads in
        fst r = Raise e
        /\ Dict.get (connections (snd r)) connection_id
           = Some (opened s connection_id host port w)
        /\ connected (opened s connection_id host port w) = true
        /\ writer (opened s connection_id host port w) = Some w
        /\ pending_triggers (snd r)
           = Dict.del (pending_triggers s) connection_id).
Proof.
  intros Hmem. split; [|split].
  - unfold handle_connect_and_send, Registry.handle_connect_and_send.
    rewrite Hmem. reflexivity.
  - intros w data Hconv Ho r.
    destruct (opened_streams s connection_id host port w) as (Hc & Hw & _).
    destruct (send_fails (opened s connection_id host port w) w data
                Hc Hw Ho) as [Hfail _].
    unfold r, handle_connect_and_send, Registry.handle_connect_and_send.
    rewrite Hmem. cbn [connect negb fst snd]. fold convert. rewrite Hconv.
    unfold opened in Hfail. cbn [connect snd] in Hfail.
    destruct (Dict.get (pending_triggers s) connection_id) as [pending|] eqn:Hp.
    + destruct (send _ data) as [ok conn']. cbn [fst] in Hfail. subst ok.
      cbn [negb fst snd connections pending_triggers].
      split; [eexists; reflexivity|].
      split; [now apply dict_del_set_new|reflexivity].
    + destruct (send _ data) as [ok conn']. cbn [fst] in Hfail. subst ok.
      cbn [negb fst snd connections pending_triggers].
      split; [eexists; reflexivity|].
      split; [now apply dict_del_set_new|].
      rewrite dict_del_missing; [reflexivity|].
      unfold Dict.mem. now rewrite Hp.
  - intros w e Hconv r.
    destruct (opened_streams s connection_id host port w) as (Hc & Hw & _).
    split; [|split; [|split; [exact Hc|split; [exact Hw|]]]];
      unfold r, handle_connect_and_send, Registry.handle_connect_and_send,
        opened;
      rewrite Hmem; cbn [connect negb fst snd]; fold convert; rewrite Hconv;
      destruct (Dict.get (pending_triggers s) connection_id) as [pending|]
        eqn:Hp;
      cbn [fst snd connections pending_triggers];
      try reflexivity; try apply dict_get_set_same.
    rewrite dict_del_missing; [reflexivity|].
    unfold Dict.mem. now rewrite Hp.
Qed.

(** A trigger set for an identifier that is not connected and removed again
    leaves the pending triggers as they were, when its trigger identifier
    was not pending already: the empty entry the first request creates for
    a new identifier is deleted by the second. *)
Theorem pending_trigger_set_then_removed (s : TCPSocketServer)
    (connection_id trigger_id pattern response_str : string)
    (response_encoding response_terminator_str : option string)
    (response : bytes) :
  Dict.mem (connections s) connection_id = false ->
  Dict.get (pending_triggers s) connection_id <> Some [] ->
  match Dict.get (pending_triggers s) connection_id with
  | Some pending => Dict.mem pending trigger_id
  | None => false
  end = false ->
  convert response_encoding response_str response_terminator_str
  = Ok response ->
  let r := handle_set_trigger s connection_id trigger_id pattern response_str
             response_encoding response_terminator_str in
  fst r = Ok (SetTriggerReply connection_id trigger_id pattern "pending")
  /\ handle_remove_trigger (snd r) connection_id trigger_id
     = (RemoveTriggerReply connection_id trigger_id "removed_pending", s).
Proof.
  intros Hmem Hne Hfresh Hconv r.
  pose proof (dict_mem_get _ _ Hmem) as Hget.
  unfold r, handle_set_trigger, Registry.handle_set_trigger. fold convert.
  rewrite Hconv, Hget. cbn [fst snd]. split; [reflexivity|].
  unfold handle_remove_trigger. cbn [connections pending_triggers].
  rewrite Hget, dict_get_set_same.
  unfold Dict.mem at 1. rewrite dict_get_set_same.
  destruct s as [conns pend]. cbn [connections pending_triggers] in *.
  destruct (Dict.get pend connection_id) as [pending|] eqn:Hp.
  - rewrite dict_del_set_new by exact Hfresh.
    destruct pending as [|x pending]; [congruence|].
    rewrite dict_set_set, dict_set_get by exact Hp. reflexivity.
  - cbn [Dict.set Dict.del]. rewrite String.eqb_refl.
    rewrite dict_del_set_new; [reflexivity|].
    unfold Dict.mem. now rewrite Hp.
Qed.

End ConnectAndSend.

Section WellFormedTables.

Import Connection PlainServer Registry.

Variable b64decode : string -> result bytes.
Variable text : Type.
Variable decode_utf8_ignore : bytes -> text.
Variable re_search : string -> text -> search_result.

Let pending_ok (e : string * list (string * pending_trigger)) : bool :=
  unique (snd e).

Lemma pending_ok_set (pend : list (string * list (string * pending_trigger)))
    (k : string) (p : list (string * pending_trigger)) :
  forallb pending_ok pend = true -> unique p = true ->
  forallb pending_ok (Dict.set pend k p) = true.
Proof.
  intros H Hp. induction pend as [|[k' p'] pend IH]; simpl.
  - unfold pending_ok. simpl. now rewrite Hp.
  - simpl in H. apply andb_true_iff in H as [H1 H2].
    destruct (k' =? k)%string; simpl.
    + unfold pending_ok at 1. simpl. now rewrite Hp, H2.
    + now rewrite H1, IH.
Qed.

Lemma pending_ok_del (pend : list (string * list (string * pending_trigger)))
    (k : string) :
  forallb pending_ok pend = true ->
  forallb pending_ok (Dict.del pend k) = true.
Proof.
  intros H. induction pend as [|[k' p'] pend IH]; simpl; [reflexivity|].
  simpl in H. apply andb_true_iff in H as [H1 H2].
  destruct (k' =? k)%string; simpl; [exact H2|].
  now rewrite H1, IH.
Qed.

Lemma pending_ok_get (pend : list (string * list (string * pending_trigger)))
    (k : string) (p : list (string * pending_trigger)) :
  forallb pending_ok pend = true -> Dict.get pend k = Some p ->
  unique p = true.
Proof.
  intros H. induction pend as [|[k' p'] pend IH]; simpl; [discriminate|].
  simpl in H. apply andb_true_iff in H as [H1 H2].
  destruct (k' =? k)%string; [|now apply IH].
  now intros [= <-].
Qed.

Lemma well_formed_intro (conns : list (string * TCPConnection))
    (pend : list (string * list (string * pending_trigger))) :
  unique conns = true -> unique pend = true ->
  forallb pending_ok pend = true ->
  well_formed {| connections := conns; pending_triggers := pend |} = true.
Proof.
  intros H1 H2 H3. unfold well_formed. cbn [connections pending_triggers].
  fold pending_ok. now rewrite H1, H2, H3.
Qed.

(** No handler puts an identifier twice in a table: what they do to the
    tables is what the same requests do to the [dict]s of the server. *)
Lemma handlers_keep_well_formed (s : TCPSocketServer) :
  well_formed s = true ->
  (forall host port connection_id uuid o,
     well_formed (snd (handle_connect s host port connection_id uuid o))
     = true)
  /\ (forall connection_id,
        well_formed (snd (handle_disconnect s connection_id)) = true)
  /\ (forall connection_id data_str encoding terminator_str,
        well_formed
          (snd (handle_send b64decode s connection_id data_str encoding
                  terminator_str)) = true)
  /\ (forall connection_id,
        well_formed (snd (handle_clear_buffer s connection_id)) = true)
  /\ (forall connection_id trigger_id pattern response_str encoding terminator,
        well_formed
          (snd (handle_set_trigger b64decode s connection_id trigger_id
                  pattern response_str encoding terminator)) = true)
  /\ (forall connection_id trigger_id,
        well_formed (snd (handle_remove_trigger s connection_id trigger_id))
        = true)
  /\ (forall host port data_str connection_id uuid encoding terminator o reads,
        well_formed
          (snd (handle_connect_and_send b64decode text decode_utf8_ignore
                  re_search s host port data_str connection_id uuid encoding
                  terminator o reads)) = true).
Proof.
  intros Hwf. pose proof Hwf as Hwf'. unfold well_formed in Hwf'.
  fold pending_ok in Hwf'.
  apply andb_true_iff in Hwf' as [Hwf' H3].
  apply andb_true_iff in Hwf' as [H1 H2].
  split; [|split; [|split; [|split; [|split; [|split]]]]].
  - intros host port connection_id uuid o. unfold handle_connect.
    destruct (Dict.mem _ _); [exact Hwf|].
    destruct o as [w|]; cbn [connect fst snd]; [|exact Hwf].
    destruct (Dict.get (pending_triggers s) _); cbn [snd];
      apply well_formed_intro;
      auto using unique_set,
        unique_del, pending_ok_del.
  - intros connection_id. unfold handle_disconnect.
    destruct (Dict.get _ _); [|exact Hwf]. cbn [snd].
    apply well_formed_intro; auto using unique_del.
  - intros connection_id data_str encoding terminator_str.
    unfold handle_send.
    destruct (Dict.get _ _) as [conn|]; [|exact Hwf].
    destruct (convert _ _ _ _) as [data|e]; [|exact Hwf].
    destruct (send conn data) as [[] conn']; cbn [snd];
      apply well_formed_intro; auto using unique_set.
  - intros connection_id. unfold handle_clear_buffer.
    destruct (Dict.get _ _); [|exact Hwf]. cbn [snd].
    apply well_formed_intro; auto using unique_set.
  - intros connection_id trigger_id pattern response_str encoding terminator.
    unfold handle_set_trigger.
    destruct (convert _ _ _ _) as [response|e]; [|exact Hwf].
    destruct (Dict.get (connections s) _); cbn [snd].
    + apply well_formed_intro; auto using unique_set.
    + apply well_formed_intro;
        [exact H1
        |now apply (@unique_set (list (string * pending_trigger)))|].
      apply pending_ok_set; [exact H3|].
      apply (@unique_set pending_trigger).
      destruct (Dict.get (pending_triggers s) connection_id) eqn:Hp;
        [|reflexivity].
      exact (pending_ok_get _ _ _ H3 Hp).
  - intros connection_id trigger_id. unfold handle_remove_trigger.
    destruct (Dict.get (connections s) _) as [conn|].
    + destruct (remove_trigger conn trigger_id) as [[] conn']; cbn [snd];
        apply well_formed_intro; auto using unique_set.
    + destruct (Dict.get (pending_triggers s) connection_id) as [pending|]
        eqn:Hp; [|exact Hwf].
      destruct (Dict.mem pending trigger_id); [|exact Hwf]. cbn [snd].
      pose proof (pending_ok_get _ _ _ H3 Hp) as Hu.
      apply (@unique_del pending_trigger _ trigger_id) in Hu.
      destruct (Dict.del pending trigger_id) as [|x rest] eqn:Hd;
        apply well_formed_intro;
        auto using unique_del,
          unique_set,
          pending_ok_del, pending_ok_set.
  - intros host port data_str connection_id uuid encoding terminator o reads.
    unfold handle_connect_and_send.
    destruct (Dict.mem _ _) eqn:Hmem; [exact Hwf|].
    destruct o as [w|]; cbn [connect negb fst snd]; [|exact Hwf].
    assert (Hpend : forall conn,
              let '(_, _, pending') :=
                match Dict.get (pending_triggers s)
                        match connection_id with
                        | Some i => i
                        | None => uuid
                        end with
                | Some pending =>
                    (apply_pending conn pending, map fst pending,
                     Dict.del (pending_triggers s)
                       match connection_id with
                       | Some i => i
                       | None => uuid
                       end)
                | None => (conn, [], pending_triggers s)
                end in
              unique pending' = true /\ forallb pending_ok pending' = true).
    { intros conn. destruct (Dict.get (pending_triggers s) _);
        auto using unique_del,
          pending_ok_del. }
    match goal with
    | |- context [Dict.get (pending_triggers s) ?k] =>
        match goal with
        | |- context [apply_pending ?c _] => specialize (Hpend c)
        end
    end.
    destruct (match Dict.get (pending_triggers s) _ with
              | Some pending => _
              | None => _
              end) as [[conn applied] pending'].
    destruct Hpend as [Hp1 Hp2].
    destruct (convert _ _ _ _) as [data|e]; cbn [snd].
    + destruct (send conn data) as [[] conn']; cbn [negb snd connections].
      * apply well_formed_intro; auto using unique_set.
      * apply well_formed_intro;
          auto using unique_set, unique_del.
    + apply well_formed_intro; auto using unique_set.
Qed.

End WellFormedTables.

Section OnSampleServer.

Import Connection Registry.

Lemma connect_applies_pending_witness :
  Dict.mem (connections PlainServer.two_pending) "conn-2" = false
  /\ (exists e1 e2,
        Dict.get (pending_triggers PlainServer.two_pending) "conn-2"
        = Some [("ping_trigger", e1); ("ping_again", e2)]
        /\ pattern e1 = "PING" /\ pattern e2 = "PING")
  /\ fst (handle_connect PlainServer.two_pending "localhost" 8081
            (Some "conn-2") "uuid" (Established (mkWriter [] [])))
     = ConnectReply "conn-2" "localhost" 8081 ["ping_trigger"; "ping_again"]
  /\ exists conn,
       Dict.get
         (connections
            (snd (handle_connect PlainServer.two_pending "localhost" 8081
                    (Some "conn-2") "uuid" (Established (mkWriter [] [])))))
         "conn-2" = Some conn
       /\ connected conn = true
       /\ (List.length (triggers conn) < 2)%nat
       /\ In ("PING", ("ping_again", Sample.b "PONG again")) (triggers conn).
Proof.
  assert (H1 : Dict.mem (connections PlainServer.two_pending) "conn-2" = false)
    by reflexivity.
  split; [exact H1|].
  split; [do 2 eexists; split; [reflexivity|split; reflexivity]|].
  pose proof (connect_applies_pending PlainServer.two_pending "localhost" 8081
                "conn-2" "uuid" (mkWriter [] []) _ H1 eq_refl) as H.
  cbv zeta in H.
  destruct H as (Hr & _ & conn & Hg & Hc & _ & _ & _ & _ & _ & Hlast
                 & Hfewer & _).
  split; [exact Hr|]. exists conn.
  split; [exact Hg|]. split; [exact Hc|]. split.
  - exact (Hfewer [] _ [] _ [] eq_refl eq_refl).
  - apply Hlast. eexists [_], _, []. split; [reflexivity|].
    split; [reflexivity|]. split; [reflexivity|]. split; [reflexivity|].
    intros e' [].
Defined.

Lemma set_trigger_commutes_with_connect_witness :
  Dict.mem (connections PlainServer.one_live) "conn-3" = false
  /\ Dict.mem (pending_triggers PlainServer.one_live) "conn-3" = false
  /\ snd (handle_connect
            (snd (PlainServer.handle_set_trigger PlainServer.one_live "conn-3"
                    "hello_trigger" "HELLO" "4849" (Some "hex") None))
            "localhost" 8081 (Some "conn-3") "uuid"
            (Established (mkWriter [] [])))
     = snd (PlainServer.handle_set_trigger
              (snd (handle_connect PlainServer.one_live "localhost" 8081
                      (Some "conn-3") "uuid" (Established (mkWriter [] []))))
              "conn-3" "hello_trigger" "HELLO" "4849" (Some "hex") None).
Proof.
  assert (H1 : Dict.mem (connections PlainServer.one_live) "conn-3" = false)
    by reflexivity.
  assert (H2 : Dict.mem (pending_triggers PlainServer.one_live) "conn-3"
               = false) by reflexivity.
  split; [exact H1|]. split; [exact H2|].
  exact (set_trigger_commutes_with_connect PlainServer.no_base64
           PlainServer.one_live "localhost" 8081 "conn-3" "uuid"
           (Established (mkWriter [] [])) "hello_trigger" "HELLO" "4849"
           (Some "hex") None H1 H2).
Defined.

Lemma handle_send_delivers_witness :
  (exists conn,
     Dict.get (connections PlainServer.one_live) "conn-1" = Some conn
     /\ connected conn = true
     /\ writer conn = Some (mkWriter [] []))
  /\ fst (PlainServer.handle_send PlainServer.one_live "conn-1"
            (Server.encode_hex (Sample.b "PING")) (Some "hex")
            (Some (Server.encode_hex [x0d; x0a])))
     = Ok (SendReply "conn-1" (4 + 2))
  /\ pending_triggers
       (snd (PlainServer.handle_send PlainServer.one_live "conn-1"
               (Server.encode_hex (Sample.b "PING")) (Some "hex")
               (Some (Server.encode_hex [x0d; x0a]))))
     = pending_triggers PlainServer.one_live.
Proof.
  split; [eexists; repeat split; reflexivity|].
  pose proof (handle_send_delivers PlainServer.no_base64 PlainServer.one_live
                "conn-1" _ (mkWriter [] []) (Sample.b "PING") [x0d; x0a]
                eq_refl eq_refl eq_refl eq_refl) as H.
  cbv zeta in H. destruct H as (Hr & _ & _ & _ & Hp).
  split; [exact Hr|exact Hp].
Defined.

Lemma failed_send_keeps_connection_witness :
  (exists conn,
     Dict.get (connections PlainServer.one_failing) "conn-1" = Some conn
     /\ connected conn = true
     /\ writer conn = Some (mkWriter [] [DrainRaises]))
  /\ PlainServer.convert None "PING" (Some "0d0a")
     = Ok (Sample.b "PING" ++ [x0d; x0a])
  /\ fst (PlainServer.handle_send PlainServer.one_failing "conn-1" "PING" None
            (Some "0d0a"))
     = Ok (Failure "send_failed" "Failed to send data")
  /\ fst (PlainServer.handle_send
            (snd (PlainServer.handle_send PlainServer.one_failing "conn-1"
                    "PING" None (Some "0d0a")))
            "conn-1" "again" None None)
     = Ok (Failure "send_failed" "Failed to send data").
Proof.
  split; [eexists; repeat split; reflexivity|].
  assert (Hconv : PlainServer.convert None "PING" (Some "0d0a")
                  = Ok (Sample.b "PING" ++ [x0d; x0a])) by reflexivity.
  split; [exact Hconv|].
  assert (Ho : next_outcome (mkWriter [] [DrainRaises]) <> WriteOk)
    by discriminate.
  pose proof (failed_send_keeps_connection PlainServer.no_base64
                PlainServer.one_failing "conn-1" "PING" None (Some "0d0a")
                _ (mkWriter [] [DrainRaises]) _ eq_refl eq_refl eq_refl Ho
                Hconv) as H.
  cbv zeta in H. destruct H as (Hr & _ & _ & Hlater).
  split; [exact Hr|].
  exact (f_equal fst (Hlater "again" None None (Sample.b "again") eq_refl)).
Defined.

Lemma handle_disconnect_forgets_witness :
  PlainServer.unique (connections PlainServer.one_live) = true
  /\ Dict.mem (connections PlainServer.one_live) "conn-1" = true
  /\ fst (handle_disconnect PlainServer.one_live "conn-1")
     = DisconnectReply "conn-1"
  /\ Dict.mem
       (connections (snd (handle_disconnect PlainServer.one_live "conn-1")))
       "conn-1" = false
  /\ fst (handle_disconnect
            (snd (handle_disconnect PlainServer.one_live "conn-1")) "conn-1")
     = not_found "conn-1".
Proof.
  assert (H1 : PlainServer.unique (connections PlainServer.one_live) = true)
    by reflexivity.
  assert (H2 : Dict.mem (connections PlainServer.one_live) "conn-1" = true)
    by reflexivity.
  split; [exact H1|]. split; [exact H2|].
  pose proof (handle_disconnect_forgets PlainServer.no_base64
                PlainServer.one_live "conn-1" H1 H2) as H.
  cbv zeta in H. destruct H as (Hr & Hm & _ & _ & Hagain & _).
  split; [exact Hr|]. split; [exact Hm|]. exact (f_equal fst Hagain).
Defined.

Lemma connect_and_send_composes_witness :
  Dict.mem (connections PlainServer.one_live) "conn-2" = false
  /\ PlainServer.convert None "PING" (Some "0d0a")
     = Ok (Sample.b "PING" ++ [x0d; x0a])
  /\ exists applied,
       fst (handle_connect PlainServer.one_live "localhost" 8081
              (Some "conn-2") "uuid" (Established (mkWriter [] [])))
       = ConnectReply "conn-2" "localhost" 8081 applied
       /\ exists conn2,
            fst (PlainServer.handle_connect_and_send PlainServer.one_live
                   "localhost" 8081 "PING" (Some "conn-2") "uuid" None
                   (Some "0d0a") (Established (mkWriter [] []))
                   [ReadData Sample.ping_chunk])
            = Ok (ConnectAndSendReply "conn-2" "localhost" 8081
                    (Py.len (Sample.b "PING" ++ [x0d; x0a]))
                    (0 <? Py.len
                            (buffer
                               (snd (Plain.read_loop
                                       [ReadData Sample.ping_chunk] conn2))))
                    (Py.len
                       (buffer
                          (snd (Plain.read_loop [ReadData Sample.ping_chunk]
                                  conn2))))
                    applied).
Proof.
  assert (H1 : Dict.mem (connections PlainServer.one_live) "conn-2" = false)
    by reflexivity.
  assert (Hconv : PlainServer.convert None "PING" (Some "0d0a")
                  = Ok (Sample.b "PING" ++ [x0d; x0a])) by reflexivity.
  split; [exact H1|]. split; [exact Hconv|].
  pose proof (connect_and_send_composes PlainServer.no_base64 string
                Plain.decode_ascii Plain.search PlainServer.one_live
                "localhost" 8081 "PING" "conn-2" "uuid" None (Some "0d0a")
                (mkWriter [] []) [ReadData Sample.ping_chunk] _ H1 Hconv
                eq_refl) as H.
  cbv zeta in H. destruct H as (applied & conn2 & Hr1 & _ & _ & Hr & _).
  exists applied. split; [exact Hr1|]. exists conn2. exact Hr.
Defined.

Lemma connect_and_send_failures_witness :
  Dict.mem (connections PlainServer.one_live) "conn-2" = false
  /\ snd (PlainServer.handle_connect_and_send PlainServer.one_live
            "localhost" 8081 "PING" (Some "conn-2") "uuid" None (Some "0d0a")
            Refused [])
     = PlainServer.one_live
  /\ connections
       (snd (PlainServer.handle_connect_and_send PlainServer.one_live
               "localhost" 8081 "PING" (Some "conn-2") "uuid" None
               (Some "0d0a") (Established (mkWriter [] [WriteRaises])) []))
     = connections PlainServer.one_live
  /\ pending_triggers
       (snd (PlainServer.handle_connect_and_send PlainServer.one_live
               "localhost" 8081 "PING" (Some "conn-2") "uuid" None
               (Some "0d0a") (Established (mkWriter [] [WriteRaises])) []))
     = Dict.del (pending_triggers PlainServer.one_live) "conn-2".
Proof.
  assert (H1 : Dict.mem (connections PlainServer.one_live) "conn-2" = false)
    by reflexivity.
  split; [exact H1|].
  pose proof (connect_and_send_failures PlainServer.no_base64 string
                Plain.decode_ascii Plain.search PlainServer.one_live
                "localhost" 8081 "PING" "conn-2" "uuid" None (Some "0d0a")
                [] H1) as (Hrefused & Hsend & _).
  split; [exact Hrefused|].
  assert (Ho : next_outcome (mkWriter [] [WriteRaises]) <> WriteOk)
    by discriminate.
  pose proof (Hsend (mkWriter [] [WriteRaises]) _ eq_refl Ho) as H.
  cbv zeta in H. destruct H as (_ & Hc & Hp).
  split; [exact Hc|exact Hp].
Defined.

Lemma pending_trigger_set_then_removed_witness :
  Dict.mem (connections PlainServer.one_live) "conn-2" = false
  /\ PlainServer.convert (Some "hex") "4849" None = Ok (Sample.b "HI")
  /\ handle_remove_trigger
       (snd (PlainServer.handle_set_trigger PlainServer.one_live "conn-2"
               "hello_trigger" "HELLO" "4849" (Some "hex") None))
       "conn-2" "hello_trigger"
     = (RemoveTriggerReply "conn-2" "hello_trigger" "removed_pending",
        PlainServer.one_live)
  /\ handle_remove_trigger
       (snd (PlainServer.handle_set_trigger PlainServer.one_live "conn-3"
               "hello_trigger" "HELLO" "4849" (Some "hex") None))
       "conn-3" "hello_trigger"
     = (RemoveTriggerReply "conn-3" "hello_trigger" "removed_pending",
        PlainServer.one_live).
Proof.
  assert (H1 : Dict.mem (connections PlainServer.one_live) "conn-2" = false)
    by reflexivity.
  assert (Hconv : PlainServer.convert (Some "hex") "4849" None
                  = Ok (Sample.b "HI")) by reflexivity.
  split; [exact H1|]. split; [exact Hconv|]. split.
  - assert (Hne : Dict.get (pending_triggers PlainServer.one_live) "conn-2"
                  <> Some []) by discriminate.
    exact (proj2 (pending_trigger_set_then_removed PlainServer.no_base64
                    PlainServer.one_live "conn-2" "hello_trigger" "HELLO"
                    "4849" (Some "hex") None _ H1 Hne eq_refl Hconv)).
  - assert (Hne : Dict.get (pending_triggers PlainServer.one_live) "conn-3"
                  <> Some []) by discriminate.
    exact (proj2 (pending_trigger_set_then_removed PlainServer.no_base64
                    PlainServer.one_live "conn-3" "hello_trigger" "HELLO"
                    "4849" (Some "hex") None _ eq_refl Hne eq_refl Hconv)).
Defined.

End OnSampleServer.
